(** * ovgenpy.renderer: grid layout and render state machine

    A shallow embedding of [ovgenpy/renderer.py].  Python [int]s are [Z],
    [Optional[int]] is [option Z], exceptions are values of [exn] carried by
    [result], and methods that mutate [self] are written in a small
    state-and-exception monad whose state survives a raise, as a Python
    object does. *)

From Stdlib Require Import ZArith QArith Qround Lia.
From Stdlib.Strings Require Import Byte.
From stdpp Require Import base tactics option list strings.

Local Open Scope Z_scope.

(** ** Exceptions *)

(** One constructor per Python exception class the module can raise; the
    argument of [ValueError] and [AssertionError] names the raise site. *)
Inductive value_error_site :=
  | BothRowsAndCols        (* 'cannot manually assign both nrows and ncols' *)
  | InvalidOrientation     (* 'Invalid orientation ... not in ...' *)
  | RowsFirstNoRows        (* 'invalid cfg: rows_first is True and nrows is None' *)
  | ColsFirstNoCols        (* 'invalid cfg: rows_first is False and ncols is None' *)
  | ColorsArity            (* 'cannot assign ... colors to ... plots' *)
  | ColorsAfterRender      (* 'cannot set line colors after calling render_frame()' *)
  | DatasArity             (* 'incorrect data to plot: ... plots but ... datas' *)
  | LibraryShape.          (* raised inside numpy or matplotlib: bad shape or index *)

Inductive assert_site :=
  | CanvasSize             (* assert (w, h) == canvas.get_width_height() *)
  | BufferLength.          (* assert len(buffer_rgb) == w * h * RGB_DEPTH *)

Inductive exn :=
  | ValueError (site : value_error_site)
  | RuntimeError           (* canvas is not a FigureCanvasAgg *)
  | AssertionError (site : assert_site)
  | ZeroDivisionError
  | IndexError
  | AttributeError         (* attribute access on None *)
  | LayoutTwice.           (* Exception("I don't currently expect to call set_layout() twice") *)

(** The error taxonomy of the specification. *)
Inductive error_kind :=
  | InvalidConfig | ArityMismatch | LifecycleViolation
  | BackendContractViolation | OtherError.

Definition kind_of (e : exn) : error_kind :=
  match e with
  | ValueError BothRowsAndCols | ValueError InvalidOrientation
  | ValueError RowsFirstNoRows | ValueError ColsFirstNoCols => InvalidConfig
  | ValueError ColorsArity | ValueError DatasArity => ArityMismatch
  | ValueError ColorsAfterRender | LayoutTwice => LifecycleViolation
  | RuntimeError | AssertionError _ => BackendContractViolation
  | _ => OtherError
  end.

Inductive result (A : Type) :=
  | Ok (a : A)
  | Raise (e : exn).
Arguments Ok {A} a.
Arguments Raise {A} e.

#[global] Instance result_ret : MRet result := λ A a, Ok a.
#[global] Instance result_bind : MBind result := λ A B k r,
  match r with Ok a => k a | Raise e => Raise e end.

Definition is_ok {A} (r : result A) : bool :=
  match r with Ok _ => true | Raise _ => false end.

Definition raises_kind {A} (r : result A) (k : error_kind) : Prop :=
  ∃ e, r = Raise e ∧ kind_of e = k.

(** ** Helpers imported from [ovgenpy.util] *)

(** Python truthiness of an [Optional[int]]: [None] and [0] are falsy. *)
Definition truthy (o : option Z) : bool :=
  match o with
  | None => false
  | Some z => negb (z =? 0)
  end.

(** Modelled from the spec: [ovgenpy.util.ceildiv] is imported but its
    definition is not part of the sources at hand.  The specification uses it
    as [ceil(n / d)]; dividing by zero raises, as every Python integer
    division does. *)
Definition ceildiv (n d : Z) : result Z :=
  if d =? 0 then Raise ZeroDivisionError else Ok (- ((- n) / d)).

(** The specification's wording, [ceil(n / d)], over the rationals. *)
Definition ceil_quotient (n d : Z) : Z :=
  Qceiling (inject_Z n / inject_Z d).

(** Modelled from the spec: [ovgenpy.util.coalesce] is imported but not part
    of the sources at hand; the ColorResolver returns the override if present,
    else the global default. *)
Definition coalesce {A} (override : option A) (default : A) : A :=
  match override with
  | Some c => c
  | None => default
  end.

(** Modelled from the spec: [ovgenpy.outputs.RGB_DEPTH], three bytes per
    pixel. *)
Definition RGB_DEPTH : Z := 3.

(** ** LayoutConfig *)

Module LayoutConfig.

Record t := mk {
  nrows : option Z;
  ncols : option Z;
  orientation : string;
}.

Definition set_nrows (v : option Z) (self : t) : t :=
  mk v (ncols self) (orientation self).
Definition set_ncols (v : option Z) (self : t) : t :=
  mk (nrows self) v (orientation self).

(** [__post_init__] runs on the freshly built record and either raises or
    leaves the normalised record behind. *)
Definition __post_init__ (self : t) : result t :=
  let self := if negb (truthy (nrows self)) then set_nrows None self else self in
  let self := if negb (truthy (ncols self)) then set_ncols None self else self in
  if truthy (nrows self) && truthy (ncols self) then
    Raise (ValueError BothRowsAndCols)
  else
    Ok (if negb (truthy (nrows self)) && negb (truthy (ncols self))
        then set_ncols (Some 1) self else self).

(** The constructor call [LayoutConfig(nrows, ncols, orientation)].
    [register_config] comes from [ovgenpy.config], which is not among the
    sources at hand; it is taken to make the class a dataclass, whose
    constructor stores the fields and then runs [__post_init__]. *)
Definition new (r c : option Z) (o : string) : result t :=
  __post_init__ (mk r c o).

(** A configuration is normalised when a constructor call produced it. *)
Definition normalized (cfg : t) : Prop :=
  ∃ raw, __post_init__ raw = Ok cfg.

End LayoutConfig.

(** ** State and exceptions

    A method is a function from the object's state to an outcome and the
    state it leaves behind; a raise keeps the mutations made so far. *)

Definition M (S A : Type) : Type := S → result A * S.

#[global] Instance M_ret {S} : MRet (M S) := λ A a s, (Ok a, s).
#[global] Instance M_bind {S} : MBind (M S) := λ A B k m s,
  match m s with
  | (Ok a, s') => k a s'
  | (Raise e, s') => (Raise e, s')
  end.

Definition raise {S A} (e : exn) : M S A := λ s, (Raise e, s).
Definition lift {S A} (r : result A) : M S A := λ s, (r, s).
Definition get {S} : M S S := λ s, (Ok s, s).
Definition put {S} (s : S) : M S unit := λ _, (Ok tt, s).
Definition modify {S} (f : S → S) : M S unit := λ s, (Ok tt, f s).

(** [[body(x) for x in l]], evaluated left to right. *)
Fixpoint forM {S A B} (body : A → M S B) (l : list A) : M S (list B) :=
  match l with
  | [] => mret []
  | x :: l' =>
      y ← body x;
      ys ← forM body l';
      mret (y :: ys)
  end.

(** ** The numpy operations used by [arrange]

    A two-dimensional array is a view on a flat buffer: element [(i, j)]
    sits at offset [i * stride0 + j * stride1].  [reshape] of a flat array
    gives the C-contiguous view, [.T] swaps the axes of the view without
    touching the buffer, and [flatten] reads the view in C order. *)

Module np.

Record ndarray2 (A : Type) := mk {
  shape : nat * nat;
  strides : nat * nat;
  buffer : list A;
}.
Arguments mk {A}.
Arguments shape {A}.
Arguments strides {A}.
Arguments buffer {A}.

(** [np.arange(n)]: empty when [n <= 0]. *)
Definition arange (n : Z) : list Z := seqZ 0 n.

Definition bad_shape (shape : Z * Z) : bool :=
  (shape.1 <? 0) || (shape.2 <? 0).

(** [np.unravel_index(inds, (nrows, ncols))] in C order.  numpy rejects an
    index outside [0, nrows * ncols); a negative dimension is taken to be
    rejected as well. *)
Definition unravel_index (inds : list Z) (shape : Z * Z)
  : result (list Z * list Z) :=
  if bad_shape shape then Raise (ValueError LibraryShape)
  else if forallb (λ i, (0 <=? i) && (i <? shape.1 * shape.2)) inds then
    Ok ((λ i, i `div` shape.2) <$> inds, (λ i, i `mod` shape.2) <$> inds)
  else Raise (ValueError LibraryShape).

(** [a.reshape((nrows, ncols))] of a flat array. *)
Definition reshape {A} (a : list A) (shape : Z * Z) : result (ndarray2 A) :=
  if bad_shape shape then Raise (ValueError LibraryShape)
  else if bool_decide (Z.of_nat (length a) = shape.1 * shape.2) then
    Ok (mk (Z.to_nat shape.1, Z.to_nat shape.2) (Z.to_nat shape.2, 1%nat) a)
  else Raise (ValueError LibraryShape).

(** [a.T] *)
Definition T {A} (a : ndarray2 A) : ndarray2 A :=
  mk ((shape a).2, (shape a).1) ((strides a).2, (strides a).1) (buffer a).

(** Buffer offsets of the view's elements, in C order of the view. *)
Definition offsets {A} (a : ndarray2 A) : list nat :=
  i ← seq 0 (shape a).1;
  j ← seq 0 (shape a).2;
  [(i * (strides a).1 + j * (strides a).2)%nat].

(** [a.flatten().tolist()] *)
Definition flatten {A} (a : ndarray2 A) : list A :=
  omap (λ k, buffer a !! k) (offsets a).

(** [a[row, col]] for non-negative indices. *)
Definition getitem {A} (a : ndarray2 A) (row col : Z) : result A :=
  if (0 <=? row) && (row <? Z.of_nat (shape a).1)
     && (0 <=? col) && (col <? Z.of_nat (shape a).2) then
    match buffer a !! (Z.to_nat row * (strides a).1
                       + Z.to_nat col * (strides a).2)%nat with
    | Some x => Ok x
    | None => Raise IndexError
    end
  else Raise IndexError.

End np.

(** The slice [l[:n]]: a negative [n] counts from the end. *)
Definition slice_to {A} (l : list A) (n : Z) : list A :=
  if 0 <=? n then take (Z.to_nat n) l
  else take (length l - Z.to_nat (- n)) l.

(** ** RendererLayout: grid computation and region assignment *)

Module RendererLayout.

Definition VALID_ORIENTATIONS : list string := ["h"; "v"]%string.

Record t := mk {
  cfg : LayoutConfig.t;
  nplots : Z;
  nrows : Z;
  ncols : Z;
  orientation : string;
}.

Definition _calc_layout (cfg : LayoutConfig.t) (nplots : Z) : result (Z * Z) :=
  if truthy (LayoutConfig.nrows cfg) then
    match LayoutConfig.nrows cfg with
    | None => Raise (ValueError RowsFirstNoRows)
    | Some nrows =>
        ncols ← ceildiv nplots nrows;
        Ok (nrows, ncols)
    end
  else
    match LayoutConfig.ncols cfg with
    | None => Raise (ValueError ColsFirstNoCols)
    | Some ncols =>
        nrows ← ceildiv nplots ncols;
        Ok (nrows, ncols)
    end.

Definition __init__ (cfg : LayoutConfig.t) (nplots : Z) : result t :=
  '(nrows, ncols) ← _calc_layout cfg nplots;
  let orientation := LayoutConfig.orientation cfg in
  if bool_decide (orientation ∈ VALID_ORIENTATIONS) then
    Ok (mk cfg nplots nrows ncols orientation)
  else
    Raise (ValueError InvalidOrientation).

(** [arrange]: [region_factory] may have effects on a state [S]; it is
    called once per element of [row_col], in order. *)
Definition arrange {S Region} (self : t)
    (region_factory : Z → Z → M S Region) : M S (list Region) :=
  let nspaces := nrows self * ncols self in
  let inds := np.arange nspaces in
  '(rows, cols) ← lift (np.unravel_index inds (nrows self, ncols self));
  let row_col := zip rows cols in
  regions ← forM (λ rc, region_factory rc.1 rc.2) row_col;
  regions2d ← lift (np.reshape regions (nrows self, ncols self));
  let regions2d :=
    if bool_decide (orientation self = "v"%string) then np.T regions2d
    else regions2d in
  mret (slice_to (np.flatten regions2d) (nplots self)).

End RendererLayout.

(** Building a layout from raw settings: [LayoutConfig(...)] followed by
    [RendererLayout(cfg, nplots)]. *)
Definition construct_layout (r c : option Z) (o : string) (nplots : Z)
  : result RendererLayout.t :=
  cfg ← LayoutConfig.new r c o;
  RendererLayout.__init__ cfg nplots.


(** ** The graphics backend

    matplotlib is an external collaborator.  Its objects are kept in the
    figure: [Axes] in creation order (row-major grid cells), [Line2D]
    artifacts in creation order; a handle is an index into the respective
    list.  The class of the canvas, its pixel size and the pixels a draw
    leaves on it are decided by the backend alone, so they are parameters. *)

Inductive color :=
  | NamedColor (name : string)
  | RGBColor (r g b : Q).

Module mpl.

Record Line2D := mkLine {
  line_axes : nat;            (* the Axes the line was plotted on *)
  xdata : list Z;             (* fixed by [plot]: 0 .. len(data) - 1 *)
  ydata : list Q;
  line_color : color;
  linewidth : option Q;
}.

Record Axes := mkAxes {
  axis_on : bool;
  xlim : option (Z * Z);      (* [None]: never set by the renderer *)
  ylim : option (Z * Z);
}.

Record Canvas := mkCanvas {
  is_agg : bool;              (* isinstance(canvas, FigureCanvasAgg) *)
  width_height : Z * Z;       (* canvas.get_width_height() *)
  rgb : option (list byte);   (* pixels of canvas.renderer; [None] as long
                                 as no canvas.draw() has created it *)
}.

Record Figure := mkFigure {
  axes : list Axes;
  lines : list Line2D;
  facecolor : option color;
  dpi : option Z;
  size_inches : option (Q * Q);
  window_shown : bool;
  draws : nat;                (* number of canvas.draw() calls so far,
                                 completed or not *)
  canvas : Canvas;
}.

Record Backend := mkBackend {
  canvas_agg : bool;               (* the canvas class is FigureCanvasAgg *)
  canvas_size : Z * Z;             (* what get_width_height() answers *)
  rasterize : Figure → list byte;  (* pixels left by a draw that completed *)
  aborted : Figure → list byte;    (* pixels left by a draw that raised *)
}.

(** The canvas of a figure just created: it has no renderer yet. *)
Definition new_canvas (B : Backend) : Canvas :=
  mkCanvas (canvas_agg B) (canvas_size B) None.

(** [canvas.tostring_rgb()] reads [canvas.renderer], an attribute that only
    [canvas.draw()] creates. *)
Definition tostring_rgb (c : Canvas) : result (list byte) :=
  match rgb c with
  | Some buffer => Ok buffer
  | None => Raise AttributeError
  end.

Definition set_axes v (f : Figure) :=
  mkFigure v (lines f) (facecolor f) (dpi f) (size_inches f)
           (window_shown f) (draws f) (canvas f).
Definition set_lines v (f : Figure) :=
  mkFigure (axes f) v (facecolor f) (dpi f) (size_inches f)
           (window_shown f) (draws f) (canvas f).

(** [fig.set_facecolor(c)] *)
Definition set_facecolor (c : color) (f : Figure) :=
  mkFigure (axes f) (lines f) (Some c) (dpi f) (size_inches f)
           (window_shown f) (draws f) (canvas f).
(** [fig.set_dpi(d)] *)
Definition set_dpi (d : Z) (f : Figure) :=
  mkFigure (axes f) (lines f) (facecolor f) (Some d) (size_inches f)
           (window_shown f) (draws f) (canvas f).
(** [fig.set_size_inches(w, h)] *)
Definition set_size_inches (w h : Q) (f : Figure) :=
  mkFigure (axes f) (lines f) (facecolor f) (dpi f) (Some (w, h))
           (window_shown f) (draws f) (canvas f).
(** [plt.show(block=False)] *)
Definition show (f : Figure) :=
  mkFigure (axes f) (lines f) (facecolor f) (dpi f) (size_inches f)
           true (draws f) (canvas f).

(** Two one-dimensional arrays of lengths [n] and [m] broadcast to one
    shape when the lengths agree or one of them is 1. *)
Definition broadcasts (n m : nat) : bool :=
  Nat.eqb n m || Nat.eqb n 1 || Nat.eqb m 1.

(** Drawing a line pairs its x-data with its y-data
    ([np.broadcast_arrays] in [Line2D.recache]), which raises a ValueError
    when the two do not broadcast. *)
Definition drawable (l : Line2D) : bool :=
  broadcasts (length (xdata l)) (length (ydata l)).

(** The figure after one more [canvas.draw()] that left [pixels] on the
    canvas. *)
Definition painted (pixels : list byte) (f : Figure) : Figure :=
  mkFigure (axes f) (lines f) (facecolor f) (dpi f) (size_inches f)
           (window_shown f) (S (draws f))
           (mkCanvas (is_agg (canvas f)) (width_height (canvas f)) (Some pixels)).

(** The figure after a draw that completed. *)
Definition drawn (B : Backend) (f : Figure) : Figure :=
  painted (rasterize B f) f.

(** [fig.canvas.draw()]: the canvas gets its renderer, then every line is
    drawn; a line whose data do not broadcast makes the call raise.
    [flush_events] does nothing on Agg. *)
Definition draw (B : Backend) (f : Figure) : result unit * Figure :=
  if forallb drawable (lines f) then (Ok (), drawn B f)
  else (Raise (ValueError LibraryShape), painted (aborted B f) f).

(** [ax.set_axis_off()] *)
Definition set_axis_off (a : Axes) := mkAxes false (xlim a) (ylim a).
(** [ax.set_xlim(lo, hi)] *)
Definition set_xlim (lo hi : Z) (a : Axes) := mkAxes (axis_on a) (Some (lo, hi)) (ylim a).
(** [ax.set_ylim(lo, hi)] *)
Definition set_ylim (lo hi : Z) (a : Axes) := mkAxes (axis_on a) (xlim a) (Some (lo, hi)).

(** A method call on the Axes behind handle [ax]. *)
Definition on_axes (ax : nat) (op : Axes → Axes) (f : Figure) : Figure :=
  set_axes (alter op ax (axes f)) f.

(** [ax.plot(data, color=c, linewidth=lw)[0]]: a new line, whose handle
    is returned. *)
Definition plot (ax : nat) (data : list Q) (c : color) (lw : option Q)
    (f : Figure) : nat * Figure :=
  (length (lines f),
   set_lines (lines f ++ [mkLine ax (np.arange (Z.of_nat (length data))) data c lw]) f).

(** [line.set_ydata(data)] *)
Definition set_ydata (data : list Q) (l : Line2D) : Line2D :=
  mkLine (line_axes l) (xdata l) data (line_color l) (linewidth l).

Definition on_line (line : nat) (op : Line2D → Line2D) (f : Figure) : Figure :=
  set_lines (alter op line (lines f)) f.

(** [plt.subplots(nrows, ncols, squeeze=False, ...)]: a figure with a
    full grid of Axes and the two-dimensional array of their handles.  Both
    counts must be positive; otherwise matplotlib raises a ValueError. *)
Definition subplots (B : Backend) (nrows ncols : Z)
  : result (Figure * np.ndarray2 nat) :=
  if (nrows <=? 0) || (ncols <=? 0) then Raise (ValueError LibraryShape)
  else
    let r := Z.to_nat nrows in
    let c := Z.to_nat ncols in
    Ok (mkFigure (replicate (r * c) (mkAxes true None None)) []
                 None None None false 0 (new_canvas B),
        np.mk (r, c) (c, 1%nat) (seq 0 (r * c))).

End mpl.

(** ** Renderer configuration *)

Module RendererConfig.
Record t := mk {
  width : Z;
  height : Z;
  bg_color : color;
  init_line_color : color;
  line_width : option Q;
  create_window : bool;
}.
End RendererConfig.

(** Modelled from the spec: [ovgenpy.channel.ChannelConfig] is only imported
    for typing; the renderer reads its optional [line_color], the per-channel
    colour override. *)
Module ChannelConfig.
Record t := mk { line_color : option color }.
End ChannelConfig.

(** ** MatplotlibRenderer *)

Module MatplotlibRenderer.

Definition DPI : Z := 96.

Record t := mk {
  cfg : RendererConfig.t;
  nplots : Z;
  layout : RendererLayout.t;
  _fig : option mpl.Figure;
  _axes : option (list nat);
  _lines : option (list nat);
  _line_colors : list (option color);
}.

Definition set_fig v (self : t) :=
  mk (cfg self) (nplots self) (layout self) v (_axes self) (_lines self)
     (_line_colors self).
Definition set_axes v (self : t) :=
  mk (cfg self) (nplots self) (layout self) (_fig self) v (_lines self)
     (_line_colors self).
Definition set_lines v (self : t) :=
  mk (cfg self) (nplots self) (layout self) (_fig self) (_axes self) v
     (_line_colors self).
Definition set_line_colors v (self : t) :=
  mk (cfg self) (nplots self) (layout self) (_fig self) (_axes self)
     (_lines self) v.

(** A call on [self._fig] that mutates the figure. *)
Definition fig_do (op : mpl.Figure → mpl.Figure) : M t unit := λ self,
  match _fig self with
  | None => (Raise AttributeError, self)
  | Some fig => (Ok tt, set_fig (Some (op fig)) self)
  end.

(** A call on [self._fig] that mutates the figure and returns a value. *)
Definition fig_call {A} (op : mpl.Figure → A * mpl.Figure) : M t A := λ self,
  match _fig self with
  | None => (Raise AttributeError, self)
  | Some fig => (Ok (op fig).1, set_fig (Some (op fig).2) self)
  end.

(** A call on [self._fig] that mutates the figure and may raise; the
    mutations made before the raise stay. *)
Definition fig_try {A} (op : mpl.Figure → result A * mpl.Figure) : M t A :=
  λ self,
  match _fig self with
  | None => (Raise AttributeError, self)
  | Some fig => ((op fig).1, set_fig (Some (op fig).2) self)
  end.

(** [seq[idx]] for an index produced by [enumerate]. *)
Definition getitem {A} (l : list A) (idx : nat) : M t A :=
  match l !! idx with
  | Some x => mret x
  | None => raise IndexError
  end.

Definition _set_layout (B : mpl.Backend) : M t unit :=
  self ← get;
  if bool_decide (is_Some (_fig self)) then raise LayoutTwice
  else
    '(fig, axes2d) ← lift (mpl.subplots B (RendererLayout.nrows (layout self))
                                          (RendererLayout.ncols (layout self)));
    modify (set_fig (Some fig));;
    forM (λ ax, fig_do (mpl.on_axes ax mpl.set_axis_off)) (np.flatten axes2d);;
    axs ← RendererLayout.arrange (layout self)
            (λ row col, lift (np.getitem axes2d row col));
    modify (set_axes (Some axs));;
    fig_do (mpl.set_dpi DPI);;
    fig_do (mpl.set_size_inches
              (inject_Z (RendererConfig.width (cfg self)) / inject_Z DPI)%Q
              (inject_Z (RendererConfig.height (cfg self)) / inject_Z DPI)%Q);;
    if RendererConfig.create_window (cfg self) then fig_do mpl.show
    else mret tt.

Definition __init__ (B : mpl.Backend) (cfg : RendererConfig.t)
    (lcfg : LayoutConfig.t) (nplots : Z) : result t :=
  layout ← RendererLayout.__init__ lcfg nplots;
  let self := mk cfg nplots layout None None None
                 (replicate (Z.to_nat nplots) None) in
  match _set_layout B self with
  | (Ok _, self) => Ok self
  | (Raise e, _) => Raise e
  end.

Definition set_colors (channel_cfgs : list ChannelConfig.t) : M t unit :=
  self ← get;
  if bool_decide (Z.of_nat (length channel_cfgs) ≠ nplots self) then
    raise (ValueError ColorsArity)
  else if bool_decide (is_Some (_lines self)) then
    raise (ValueError ColorsAfterRender)
  else
    modify (set_line_colors (ChannelConfig.line_color <$> channel_cfgs)).

(** Body of the first-frame loop, for one [(idx, data)] of
    [enumerate(datas)]. *)
Definition init_channel (line_width : option Q) (idx : nat) (data : list Q)
  : M t unit :=
  self ← get;
  override ← getitem (_line_colors self) idx;
  let line_color :=
    coalesce override (RendererConfig.init_line_color (cfg self)) in
  axs ← (match _axes self with
         | Some axs => mret axs
         | None => raise AttributeError
         end);
  ax ← getitem axs idx;
  fig_do (mpl.on_axes ax (mpl.set_xlim 0 (Z.of_nat (length data) - 1)));;
  fig_do (mpl.on_axes ax (mpl.set_ylim (-1) 1));;
  line ← fig_call (mpl.plot ax data line_color line_width);
  self ← get;
  match _lines self with
  | Some ls => put (set_lines (Some (ls ++ [line])) self)
  | None => raise AttributeError
  end.

(** Body of the later-frame loop. *)
Definition update_channel (idx : nat) (data : list Q) : M t unit :=
  self ← get;
  ls ← (match _lines self with
        | Some ls => mret ls
        | None => raise AttributeError
        end);
  line ← getitem ls idx;
  fig_do (mpl.on_line line (mpl.set_ydata data)).

(** [for idx, data in enumerate(datas): body(idx, data)], counting from
    [idx]. *)
Fixpoint for_enumerate (body : nat → list Q → M t unit) (idx : nat)
    (datas : list (list Q)) : M t unit :=
  match datas with
  | [] => mret tt
  | data :: datas' =>
      body idx data;;
      for_enumerate body (S idx) datas'
  end.

Definition render_frame (B : mpl.Backend) (datas : list (list Q)) : M t unit :=
  self ← get;
  let ndata := Z.of_nat (length datas) in
  if bool_decide (nplots self ≠ ndata) then raise (ValueError DatasArity)
  else
    (if bool_decide (_lines self = None) then
       fig_do (mpl.set_facecolor (RendererConfig.bg_color (cfg self)));;
       let line_width := RendererConfig.line_width (cfg self) in
       modify (set_lines (Some []));;
       for_enumerate (init_channel line_width) 0 datas
     else
       for_enumerate update_channel 0 datas);;
    fig_try (mpl.draw B).

(** [get_frame] only reads. *)
Definition get_frame (self : t) : result (list byte) :=
  match _fig self with
  | None => Raise AttributeError
  | Some fig =>
      let canvas := mpl.canvas fig in
      if negb (mpl.is_agg canvas) then Raise RuntimeError
      else
        let w := RendererConfig.width (cfg self) in
        let h := RendererConfig.height (cfg self) in
        if negb (bool_decide ((w, h) = mpl.width_height canvas)) then
          Raise (AssertionError CanvasSize)
        else
          buffer_rgb ← mpl.tostring_rgb canvas;
          if negb (bool_decide (Z.of_nat (length buffer_rgb) = w * h * RGB_DEPTH)) then
            Raise (AssertionError BufferLength)
          else Ok buffer_rgb
  end.

(** The lifecycle state of the specification. *)
Inductive lifecycle := Uninitialized | Initialized.

Definition state (self : t) : lifecycle :=
  match _lines self with
  | None => Uninitialized
  | Some _ => Initialized
  end.

End MatplotlibRenderer.

(** ** Factories and sample backends used to exercise the model *)

(** A factory that records each call, in order, next to a pure result. *)
Definition traced {Region} (f : Z → Z → Region)
  : Z → Z → M (list (Z * Z)) Region :=
  λ row col log, (Ok (f row col), log ++ [(row, col)]).

(** A factory without effects. *)
Definition pure_factory {Region} (f : Z → Z → Region)
  : Z → Z → M unit Region :=
  λ row col, mret (f row col).

(** A backend with an Agg canvas of size [w] x [h] on which every draw,
    completed or not, leaves [w * h * 3] bytes. *)
Definition agg_backend (w h : Z) : mpl.Backend :=
  let pixels := replicate (Z.to_nat (w * h * 3)) x00%byte in
  mpl.mkBackend true (w, h) (λ _, pixels) (λ _, pixels).

(** ** Vocabulary of the specification *)

(** The cells of an [nrows] x [ncols] grid in row-major order: cell [i] is
    [(i div ncols, i mod ncols)]. *)
Definition row_major_cells (nrows ncols : Z) : list (Z * Z) :=
  (λ i, (i `div` ncols, i `mod` ncols)) <$> seqZ 0 (nrows * ncols).

(** The physical cell a channel lands in: row-major for ['h'], column-major
    for ['v']. *)
Definition assigned_cell (self : RendererLayout.t) (i : Z) : Z * Z :=
  if bool_decide (RendererLayout.orientation self = "v"%string)
  then (i `mod` RendererLayout.nrows self, i `div` RendererLayout.nrows self)
  else (i `div` RendererLayout.ncols self, i `mod` RendererLayout.ncols self).

(** Position of a cell in the row-major enumeration. *)
Definition cell_index (self : RendererLayout.t) (cell : Z * Z) : nat :=
  Z.to_nat (cell.1 * RendererLayout.ncols self + cell.2).

(** The C-contiguous view [arrange] builds over the regions. *)
Definition grid_view {Region} (self : RendererLayout.t) (regions : list Region)
  : np.ndarray2 Region :=
  np.mk (Z.to_nat (RendererLayout.nrows self), Z.to_nat (RendererLayout.ncols self))
        (Z.to_nat (RendererLayout.ncols self), 1%nat) regions.

(** Five channels on a 2 x 3 grid. *)
Definition layout_2x3 (o : string) : RendererLayout.t :=
  RendererLayout.mk (LayoutConfig.mk (Some 2) None o) 5 2 3 o.

(** An axis count, if given, is not negative. *)
Definition count_nonneg (o : option Z) : Prop :=
  ∀ z, o = Some z → 0 ≤ z.

(** The factory returns a different region for every cell of the grid. *)
Definition distinct_regions {Region} (L : RendererLayout.t)
    (f : Z → Z → Region) : Prop :=
  ∀ row col row' col',
    0 ≤ row < RendererLayout.nrows L → 0 ≤ col < RendererLayout.ncols L →
    0 ≤ row' < RendererLayout.nrows L → 0 ≤ col' < RendererLayout.ncols L →
    f row col = f row' col' → row = row' ∧ col = col'.

(** The factory never raises. *)
Definition total_factory {S Region} (f : Z → Z → M S Region) : Prop :=
  ∀ row col s, is_ok (f row col s).1 = true.

(** ** Effect of one loop iteration on the figure *)

(** First frame, channel on Axes [ax]: bounds, then a new line. *)
Definition init_channel_fig (ax : nat) (data : list Q) (c : color)
    (lw : option Q) (fig : mpl.Figure) : mpl.Figure :=
  (mpl.plot ax data c lw
     (mpl.on_axes ax (mpl.set_ylim (-1) 1)
        (mpl.on_axes ax (mpl.set_xlim 0 (Z.of_nat (length data) - 1)) fig))).2.

(** Everything of a renderer except its figure and its artifacts. *)
Definition same_setup (self self' : MatplotlibRenderer.t) : Prop :=
  MatplotlibRenderer.cfg self' = MatplotlibRenderer.cfg self
  ∧ MatplotlibRenderer.nplots self' = MatplotlibRenderer.nplots self
  ∧ MatplotlibRenderer.layout self' = MatplotlibRenderer.layout self
  ∧ MatplotlibRenderer._axes self' = MatplotlibRenderer._axes self
  ∧ MatplotlibRenderer._line_colors self' = MatplotlibRenderer._line_colors self.

(** ** Renderer invariant *)

(** What construction establishes and every operation keeps: one region per
    channel, all distinct and on the figure; one colour slot per channel; and,
    once a frame was rendered, one artifact per channel, in channel order. *)
Definition wf (self : MatplotlibRenderer.t) : Prop :=
  ∃ fig axs,
    MatplotlibRenderer._fig self = Some fig
    ∧ MatplotlibRenderer._axes self = Some axs
    ∧ Z.of_nat (length axs) = MatplotlibRenderer.nplots self
    ∧ NoDup axs
    ∧ (∀ ax, ax ∈ axs → (ax < length (mpl.axes fig))%nat)
    ∧ length (MatplotlibRenderer._line_colors self) = length axs
    ∧ match MatplotlibRenderer._lines self with
      | None => mpl.lines fig = []
      | Some ls => ls = seq 0 (length axs)
                   ∧ length (mpl.lines fig) = length axs
      end.


(** ** What a later frame does to the figure *)

(** The artifacts after a later frame: line [i] with [datas[i]] as its
    y-data. *)
Definition updated_lines (fig : mpl.Figure) (datas : list (list Q))
  : list mpl.Line2D :=
  zip_with (λ line data, mpl.set_ydata data line) (mpl.lines fig) datas.

(** Every [datas[i]] broadcasts against the x-data of line [i]. *)
Definition frame_fits (fig : mpl.Figure) (datas : list (list Q)) : bool :=
  forallb (λ p, mpl.broadcasts (length (mpl.xdata p.1)) (length p.2))
          (zip (mpl.lines fig) datas).

(** The outcome of a later frame: the ValueError comes from the draw that
    ends the frame. *)
Definition later_outcome (fig : mpl.Figure) (datas : list (list Q))
  : result unit :=
  if frame_fits fig datas then Ok () else Raise (ValueError LibraryShape).

(** The figure a later frame leaves behind: the y-data are overwritten,
    then the canvas is drawn, to the end or not. *)
Definition later_figure (B : mpl.Backend) (fig : mpl.Figure)
    (datas : list (list Q)) : mpl.Figure :=
  (mpl.draw B (mpl.set_lines (updated_lines fig datas) fig)).2.

(** ** Sample renderers *)

Definition sample_config (w h : Z) : RendererConfig.t :=
  RendererConfig.mk w h (NamedColor "black") (NamedColor "blue") None false.

(** [MatplotlibRenderer(cfg, LayoutConfig(nrows, ncols, orientation), nplots)] *)
Definition construct_renderer (B : mpl.Backend) (cfg : RendererConfig.t)
    (r c : option Z) (o : string) (nplots : Z) : result MatplotlibRenderer.t :=
  lcfg ← LayoutConfig.new r c o;
  MatplotlibRenderer.__init__ B cfg lcfg nplots.

(** Three channels in one row on a 64 x 32 surface. *)
Definition renderer_64x32 : result MatplotlibRenderer.t :=
  construct_renderer (agg_backend 64 32) (sample_config 64 32) (Some 1) None "h" 3.

Definition override (name : string) : ChannelConfig.t :=
  ChannelConfig.mk (Some (NamedColor name)).

(** Three frames for three channels; the second has other lengths than the
    first, the third the same. *)
Definition frame_a : list (list Q) := [[0; 1; 0]; [1; -1; 1]; [0; 0; 0]]%Q.
Definition frame_b : list (list Q) := [[1; 1]; [0; 0; 0; 0; 0]; []]%Q.
Definition frame_c : list (list Q) := [[1; 1; 1]; [0; 0; 0]; [-1; 0; 1]]%Q.

(** The backend keeps its pixel contract for a [w] x [h] surface: an Agg
    canvas of that size, and [w * h * 3] bytes after every draw. *)
Definition honours_contract (B : mpl.Backend) (w h : Z) : Prop :=
  mpl.canvas_agg B = true
  ∧ mpl.canvas_size B = (w, h)
  ∧ ∀ fig, Z.of_nat (length (mpl.rasterize B fig)) = w * h * 3
           ∧ Z.of_nat (length (mpl.aborted B fig)) = w * h * 3.

(** The canvas of a renderer built and driven on backend [B]: of the
    backend's class and size, without pixels until a frame was rendered and
    with the pixels of a draw from then on. *)
Definition canvas_of (B : mpl.Backend) (self : MatplotlibRenderer.t) : Prop :=
  ∃ fig,
    MatplotlibRenderer._fig self = Some fig
    ∧ mpl.is_agg (mpl.canvas fig) = mpl.canvas_agg B
    ∧ mpl.width_height (mpl.canvas fig) = mpl.canvas_size B
    ∧ match MatplotlibRenderer._lines self with
      | None => mpl.rgb (mpl.canvas fig) = None
      | Some _ =>
          ∃ f, mpl.rgb (mpl.canvas fig) = Some (mpl.rasterize B f)
               ∨ mpl.rgb (mpl.canvas fig) = Some (mpl.aborted B f)
      end.

(** The same layout with another orientation. *)
Definition with_orientation (o : string) (L : RendererLayout.t) : RendererLayout.t :=
  RendererLayout.mk (RendererLayout.cfg L) (RendererLayout.nplots L)
                    (RendererLayout.nrows L) (RendererLayout.ncols L) o.

(** The figure [_set_layout] leaves behind for an [r] x [c] grid. *)
Definition laid_out_figure (B : mpl.Backend) (cfg : RendererConfig.t)
    (r c : nat) : mpl.Figure :=
  mpl.mkFigure (replicate (r * c) (mpl.mkAxes false None None)) []
    None (Some MatplotlibRenderer.DPI)
    (Some ((inject_Z (RendererConfig.width cfg) / inject_Z MatplotlibRenderer.DPI)%Q,
           (inject_Z (RendererConfig.height cfg) / inject_Z MatplotlibRenderer.DPI)%Q))
    (RendererConfig.create_window cfg) 0 (mpl.new_canvas B).

(** ** Sequences of calls *)

(** The two mutating calls a user makes on a renderer. *)
Inductive call :=
  | SetColors (channel_cfgs : list ChannelConfig.t)
  | RenderFrame (datas : list (list Q)).

Definition do_call (B : mpl.Backend) (c : call) : M MatplotlibRenderer.t unit :=
  match c with
  | SetColors channel_cfgs => MatplotlibRenderer.set_colors channel_cfgs
  | RenderFrame datas => MatplotlibRenderer.render_frame B datas
  end.

(** The renderer after a sequence of calls by a caller that carries on
    after an exception. *)
Fixpoint run_calls (B : mpl.Backend) (calls : list call)
    (self : MatplotlibRenderer.t) : MatplotlibRenderer.t :=
  match calls with
  | [] => self
  | c :: calls' => run_calls B calls' (do_call B c self).2
  end.

(** No call of the sequence is a [render_frame] with one data sequence per
    channel. *)
Definition no_frame_yet (n : Z) (calls : list call) : Prop :=
  Forall (λ c, match c with
               | RenderFrame datas => Z.of_nat (length datas) ≠ n
               | SetColors _ => True
               end) calls.

(** * Properties *)

(** ** Ceiling division *)

Lemma ceildiv_ok n d : d ≠ 0 → ceildiv n d = Ok (- ((- n) / d)).
Proof.
  intros Hd. unfold ceildiv.
  destruct (Z.eqb_spec d 0); [contradiction | reflexivity].
Qed.

(** The integer formula is the ceiling of the rational quotient. *)
Lemma ceil_quotient_eq n d : d ≠ 0 → ceil_quotient n d = - ((- n) / d).
Proof.
  intros Hd. unfold ceil_quotient, Qceiling, Qfloor.
  destruct d as [|p|p]; [contradiction | |]; cbn.
  - rewrite Z.mul_1_r. reflexivity.
  - f_equal.
    replace (- (n * -1)) with n by lia.
    replace (Z.neg p) with (- Z.pos p) by reflexivity.
    rewrite Z.div_opp_opp by lia. reflexivity.
Qed.

Lemma ceildiv_ceil n d : d ≠ 0 → ceildiv n d = Ok (ceil_quotient n d).
Proof. intros Hd. rewrite ceil_quotient_eq by done. by apply ceildiv_ok. Qed.

(** For a positive divisor the ceiling is the least multiple count covering
    [n]. *)
Lemma ceil_bounds n d : 0 < d → let q := - ((- n) / d) in d * (q - 1) < n ≤ d * q.
Proof.
  intros Hd q. subst q.
  pose proof (Z.div_mod (- n) d ltac:(lia)).
  pose proof (Z.mod_pos_bound (- n) d Hd). nia.
Qed.

(** ** Normalisation of the layout configuration *)

Lemma truthy_Some z : truthy (Some z) = negb (z =? 0).
Proof. reflexivity. Qed.

Lemma truthy_true o : truthy o = true ↔ ∃ z, o = Some z ∧ z ≠ 0.
Proof.
  destruct o as [z|]; cbn.
  - destruct (Z.eqb_spec z 0) as [->|Hz]; cbn; split.
    + discriminate.
    + intros (z & [= <-] & Hz). contradiction.
    + eauto.
    + done.
  - split; [discriminate | intros (z & [=] & _)].
Qed.

(** What the constructor leaves behind, case by case. *)
Lemma post_init_cases raw cfg :
  LayoutConfig.__post_init__ raw = Ok cfg →
  LayoutConfig.orientation cfg = LayoutConfig.orientation raw ∧
  ((∃ r, r ≠ 0 ∧ LayoutConfig.nrows cfg = Some r ∧ LayoutConfig.ncols cfg = None)
   ∨ (∃ c, c ≠ 0 ∧ LayoutConfig.nrows cfg = None ∧ LayoutConfig.ncols cfg = Some c)).
Proof.
  destruct raw as [r c o].
  destruct r as [[|p|p]|], c as [[|q|q]|]; cbn;
    intros H; try discriminate H; injection H as <-; cbn;
    (split; [reflexivity|]);
    first [ left; eexists; split; [|split; reflexivity]; discriminate
          | right; eexists; split; [|split; reflexivity]; discriminate ].
Qed.

(** A normalised configuration has exactly one axis count, and it is not
    zero. *)
Lemma normalized_cases cfg :
  LayoutConfig.normalized cfg →
  (∃ r, r ≠ 0 ∧ LayoutConfig.nrows cfg = Some r ∧ LayoutConfig.ncols cfg = None)
  ∨ (∃ c, c ≠ 0 ∧ LayoutConfig.nrows cfg = None ∧ LayoutConfig.ncols cfg = Some c).
Proof. intros [raw Hraw]. by apply post_init_cases in Hraw as [_ ?]. Qed.

Lemma calc_layout_rows cfg nplots r :
  r ≠ 0 → LayoutConfig.nrows cfg = Some r →
  RendererLayout._calc_layout cfg nplots = Ok (r, - ((- nplots) / r)).
Proof.
  intros Hr Hcfg. unfold RendererLayout._calc_layout. rewrite Hcfg. cbn.
  destruct (Z.eqb_spec r 0); [done|]. cbn.
  by rewrite ceildiv_ok.
Qed.

Lemma calc_layout_cols cfg nplots c :
  c ≠ 0 → LayoutConfig.nrows cfg = None → LayoutConfig.ncols cfg = Some c →
  RendererLayout._calc_layout cfg nplots = Ok (- ((- nplots) / c), c).
Proof.
  intros Hc Hr Hcfg. unfold RendererLayout._calc_layout. rewrite Hr, Hcfg. cbn.
  by rewrite ceildiv_ok.
Qed.

(** C1.  For a normalised configuration [_calc_layout] returns
    [rows = rowCount], [cols = ceil(channelCount / rows)] when the row count
    is set, and otherwise [cols = colCount], [rows = ceil(channelCount / cols)];
    for 7 channels and [rowCount = 3] the grid is 3 by 3. *)
Theorem compute_grid_spec (cfg : LayoutConfig.t) (nplots : Z) :
  LayoutConfig.normalized cfg →
  (∀ r, LayoutConfig.nrows cfg = Some r →
        RendererLayout._calc_layout cfg nplots = Ok (r, ceil_quotient nplots r))
  ∧ (LayoutConfig.nrows cfg = None →
     ∃ c, LayoutConfig.ncols cfg = Some c
          ∧ RendererLayout._calc_layout cfg nplots = Ok (ceil_quotient nplots c, c))
  ∧ (∀ o, ∃ cfg73, LayoutConfig.new (Some 3) None o = Ok cfg73
          ∧ RendererLayout._calc_layout cfg73 7 = Ok (3, 3)).
Proof.
  intros Hn. split; [|split].
  - intros r Hr.
    destruct (normalized_cases cfg Hn) as [(r' & Hr' & Hcfg & _)|(c & _ & Hcfg & _)];
      [|congruence].
    assert (r' = r) as -> by congruence.
    rewrite ceil_quotient_eq by done. by apply calc_layout_rows.
  - intros Hr.
    destruct (normalized_cases cfg Hn) as [(r' & _ & Hcfg & _)|(c & Hc & _ & Hcfg)];
      [congruence|].
    exists c. split; [done|].
    rewrite ceil_quotient_eq by done. by apply calc_layout_cols.
  - intros o. eexists. split; reflexivity.
Qed.

Lemma compute_grid_7_3 :
  let cfg := LayoutConfig.mk (Some 3) None "v" in
  LayoutConfig.normalized cfg
  ∧ RendererLayout._calc_layout cfg 7 = Ok (3, 3).
Proof.
  assert (Hn : LayoutConfig.normalized (LayoutConfig.mk (Some 3) None "v")).
  { exists (LayoutConfig.mk (Some 3) (Some 0) "v"). reflexivity. }
  split; [exact Hn|].
  exact (proj1 (compute_grid_spec _ 7 Hn) 3 eq_refl).
Defined.

Lemma new_both r c o :
  truthy r = true → truthy c = true →
  LayoutConfig.new r c o = Raise (ValueError BothRowsAndCols).
Proof.
  intros (x & -> & Hx)%truthy_true (y & -> & Hy)%truthy_true.
  destruct x, y; done.
Qed.

Lemma new_not_both r c o :
  (truthy r && truthy c) = false →
  ∃ cfg, LayoutConfig.new r c o = Ok cfg
         ∧ LayoutConfig.orientation cfg = o
         ∧ LayoutConfig.normalized cfg.
Proof.
  intros H. unfold LayoutConfig.new.
  destruct (LayoutConfig.__post_init__ (LayoutConfig.mk r c o)) as [cfg|e] eqn:E.
  - exists cfg. split; [done|]. split.
    + by apply post_init_cases in E as [-> _].
    + by eexists.
  - exfalso. revert H E.
    destruct r as [[|p|p]|], c as [[|q|q]|]; cbn; discriminate.
Qed.

Lemma calc_layout_normalized cfg nplots :
  LayoutConfig.normalized cfg →
  ∃ nrows ncols, RendererLayout._calc_layout cfg nplots = Ok (nrows, ncols).
Proof.
  intros [(r & Hr & Hcfg & _)|(c & Hc & Hcfg & Hcfg')]%normalized_cases.
  - do 2 eexists. by apply calc_layout_rows.
  - do 2 eexists. by apply calc_layout_cols.
Qed.

Lemma layout_init_orientation cfg nplots :
  LayoutConfig.normalized cfg →
  if bool_decide (LayoutConfig.orientation cfg ∈ RendererLayout.VALID_ORIENTATIONS)
  then is_ok (RendererLayout.__init__ cfg nplots) = true
  else RendererLayout.__init__ cfg nplots = Raise (ValueError InvalidOrientation).
Proof.
  intros (nrows & ncols & E)%(calc_layout_normalized _ nplots).
  unfold RendererLayout.__init__. rewrite E. cbn.
  by case_bool_decide.
Qed.

(** C9.  Building a layout fails exactly when both axis counts are set or
    the orientation is not one of ['h', 'v'], and every such failure is an
    InvalidConfig; with neither count set, [ncols] becomes 1 and construction
    succeeds.  A count is set when it is truthy, that is neither [None] nor
    zero. *)
Theorem construction_invalid_config (r c : option Z) (o : string) (nplots : Z) :
  (raises_kind (construct_layout r c o nplots) InvalidConfig
   ↔ (truthy r = true ∧ truthy c = true) ∨ o ∉ RendererLayout.VALID_ORIENTATIONS)
  ∧ (is_ok (construct_layout r c o nplots) = true
     ↔ ¬ ((truthy r = true ∧ truthy c = true) ∨ o ∉ RendererLayout.VALID_ORIENTATIONS))
  ∧ (truthy r = true ∧ truthy c = true →
     LayoutConfig.new r c o = Raise (ValueError BothRowsAndCols))
  ∧ (o ∉ RendererLayout.VALID_ORIENTATIONS → (truthy r && truthy c) = false →
     construct_layout r c o nplots = Raise (ValueError InvalidOrientation))
  ∧ LayoutConfig.new None None o = Ok (LayoutConfig.mk None (Some 1) o).
Proof.
  assert (Hcases :
    (truthy r = true ∧ truthy c = true
     ∧ construct_layout r c o nplots = Raise (ValueError BothRowsAndCols))
    ∨ ((truthy r && truthy c) = false ∧ (o ∉ RendererLayout.VALID_ORIENTATIONS)
       ∧ construct_layout r c o nplots = Raise (ValueError InvalidOrientation))
    ∨ ((truthy r && truthy c) = false ∧ o ∈ RendererLayout.VALID_ORIENTATIONS
       ∧ is_ok (construct_layout r c o nplots) = true)).
  { destruct (truthy r && truthy c) eqn:Hrc.
    - apply andb_true_iff in Hrc as [Hr Hc]. left.
      unfold construct_layout. by rewrite new_both.
    - right. destruct (new_not_both r c o Hrc) as (cfg & Hnew & Ho & Hn).
      pose proof (layout_init_orientation cfg nplots Hn) as Hinit.
      unfold construct_layout. rewrite Hnew. cbn. rewrite Ho in Hinit.
      case_bool_decide; [right | left]; done. }
  split; [|split; [|split; [|split]]].
  - split.
    + intros (e & He & Hk).
      destruct Hcases as [(?&?&_)|[(_&?&_)|(_&_&Hok)]]; [tauto | tauto |].
      rewrite He in Hok. discriminate.
    + intros _H.
      destruct Hcases as [(_&_&E)|[(_&_&E)|(Hrc&Ho&_)]].
      * eexists; split; [exact E | reflexivity].
      * eexists; split; [exact E | reflexivity].
      * exfalso. destruct _H as [[Hr Hc]|?]; [|done].
        rewrite Hr, Hc in Hrc. discriminate.
  - split.
    + intros Hok [[Hr Hc]|Ho];
        destruct Hcases as [(_&_&E)|[(_&_&E)|(Hrc&Ho'&_)]];
        rewrite ?E in Hok; try discriminate; try done.
      rewrite Hr, Hc in Hrc. discriminate.
    + intros Hnot.
      destruct Hcases as [(?&?&_)|[(_&?&_)|(_&_&Hok)]]; [tauto | tauto | done].
  - intros [Hr Hc]. by apply new_both.
  - intros Ho Hrc.
    destruct Hcases as [(Hr&Hc&_)|[(_&_&E)|(_&?&_)]]; [|done|done].
    rewrite Hr, Hc in Hrc. discriminate.
  - reflexivity.
Qed.

(** C10.  A zero axis count is coerced to [None] before validation: with
    both counts zero the constructor does not raise and [ncols] becomes 1;
    with [nrows = 0] and [ncols = k > 0] it is accepted and gives what
    [ncols = k] alone gives. *)
Theorem zero_axis_is_unset (k : Z) (o : string) :
  0 < k →
  LayoutConfig.new (Some 0) (Some 0) o = Ok (LayoutConfig.mk None (Some 1) o)
  ∧ LayoutConfig.new (Some 0) (Some k) o = Ok (LayoutConfig.mk None (Some k) o)
  ∧ LayoutConfig.new (Some 0) (Some k) o = LayoutConfig.new None (Some k) o
  ∧ LayoutConfig.new (Some 0) None o = LayoutConfig.new None None o
  ∧ LayoutConfig.new None (Some 0) o = LayoutConfig.new None None o
  ∧ LayoutConfig.new (Some k) (Some 0) o = LayoutConfig.new (Some k) None o
  ∧ ∀ nplots, construct_layout (Some 0) (Some k) o nplots
              = construct_layout None (Some k) o nplots.
Proof.
  intros Hk. destruct k as [|p|p]; try lia.
  repeat split; reflexivity.
Qed.

Lemma zero_rows_four_cols :
  0 < 4
  ∧ LayoutConfig.new (Some 0) (Some 4) "h" = Ok (LayoutConfig.mk None (Some 4) "h")
  ∧ LayoutConfig.new (Some 0) (Some 0) "h" = Ok (LayoutConfig.mk None (Some 1) "h").
Proof.
  assert (H : 0 < 4) by lia.
  split; [exact H|].
  pose proof (zero_axis_is_unset 4 "h" H) as (H0 & H1 & _).
  split; [exact H1 | exact H0].
Defined.

(** ** Iteration *)

Section forM_facts.
Context {S A B : Type}.
Implicit Types (body : A → M S B) (l : list A) (s : S).

Lemma forM_cons body x l s :
  forM body (x :: l) s =
  match body x s with
  | (Ok y, s') =>
      match forM body l s' with
      | (Ok ys, s'') => (Ok (y :: ys), s'')
      | (Raise e, s'') => (Raise e, s'')
      end
  | (Raise e, s') => (Raise e, s')
  end.
Proof.
  cbn. unfold mbind, M_bind. destruct (body x s) as [[y|e] s']; [|done].
  destruct (forM body l s') as [[ys|e] s'']; done.
Qed.

Lemma forM_length body l s ys s' :
  forM body l s = (Ok ys, s') → length ys = length l.
Proof.
  revert s ys s'. induction l as [|x l IH]; intros s ys s'.
  - by intros [= <- _].
  - rewrite forM_cons. destruct (body x s) as [[y|e] s1]; [|done].
    destruct (forM body l s1) as [[ys1|e] s2] eqn:E; [|done].
    intros [= <- _]. cbn. f_equal. eauto.
Qed.

(** A body that never raises and leaves the state alone is a [map]. *)
Lemma forM_pure body (h : A → B) l s :
  (∀ x, x ∈ l → body x s = (Ok (h x), s)) →
  forM body l s = (Ok (h <$> l), s).
Proof.
  induction l as [|x l IH]; intros Hbody; [done|].
  rewrite forM_cons, Hbody by left.
  rewrite IH; [done|]. intros y Hy. apply Hbody. by right.
Qed.

(** A body that never raises yields one result per element. *)
Lemma forM_total body l s :
  (∀ x s, is_ok (body x s).1 = true) →
  ∃ ys s', forM body l s = (Ok ys, s').
Proof.
  intros Hbody. revert s. induction l as [|x l IH]; intros s.
  - by do 2 eexists.
  - rewrite forM_cons. specialize (Hbody x s).
    destruct (body x s) as [[y|e] s1]; [|done].
    destruct (IH s1) as (ys & s2 & ->). by do 2 eexists.
Qed.
End forM_facts.

Lemma forM_traced {Region} (f : Z → Z → Region) (l : list (Z * Z)) log :
  forM (λ rc, traced f rc.1 rc.2) l log
  = (Ok ((λ rc, f rc.1 rc.2) <$> l), log ++ l).
Proof.
  revert log. induction l as [|rc l IH]; intros log.
  - cbn. by rewrite app_nil_r.
  - rewrite forM_cons. unfold traced at 1. rewrite IH.
    destruct rc as [row col]. cbn. by rewrite <- app_assoc.
Qed.

(** ** Lists of indices *)

Lemma omap_total_lookup {A B} (f : A → option B) (l : list A) (k : nat) :
  (∀ x, x ∈ l → is_Some (f x)) →
  omap f l !! k = l !! k ≫= f.
Proof.
  revert k. induction l as [|x l IH]; intros k Hf; [done|].
  cbn. destruct (Hf x ltac:(left)) as [y Hy]. rewrite Hy.
  destruct k as [|k]; cbn; [done|].
  apply IH. intros z Hz. apply Hf. by right.
Qed.

Lemma omap_total_length {A B} (f : A → option B) (l : list A) :
  (∀ x, x ∈ l → is_Some (f x)) →
  length (omap f l) = length l.
Proof.
  induction l as [|x l IH]; intros Hf; [done|].
  cbn. destruct (Hf x ltac:(left)) as [y ->]. cbn. f_equal.
  apply IH. intros z Hz. apply Hf. by right.
Qed.

Lemma bind_singleton_fmap {A B} (h : A → B) (l : list A) :
  (x ← l; [h x]) = h <$> l.
Proof. induction l as [|x l IH]; [done|]. cbn. by f_equal. Qed.

(** Two nested [range] loops visit the cells [(k / b, k mod b)] for
    [k = 0 .. a * b - 1]. *)
Lemma bind_seq_grid {A} (g : nat → nat → A) (a b : nat) :
  (i ← seq 0 a; j ← seq 0 b; [g i j])
  = (λ k, g (k `div` b) (k `mod` b))%nat <$> seq 0 (a * b).
Proof.
  induction a as [|a IH].
  - done.
  - rewrite seq_S, bind_app, IH. cbn [mbind list_bind]. rewrite app_nil_r.
    replace (Datatypes.S a * b)%nat with (a * b + b)%nat by lia.
    rewrite seq_app, fmap_app. f_equal.
    rewrite bind_singleton_fmap.
    replace (0 + a * b)%nat with (a * b + 0)%nat by lia.
    rewrite <- (fmap_add_seq (a * b) 0 b), <- list_fmap_compose.
    apply list_eq; intros k.
    rewrite !list_lookup_fmap.
    destruct (seq 0 b !! k) as [j|] eqn:Hj; [|done]. cbn.
    apply lookup_seq in Hj as [-> Hj]. cbn.
    do 2 f_equal.
    + symmetry. rewrite Nat.add_comm, Nat.div_add by lia.
      rewrite Nat.div_small by lia. done.
    + symmetry. rewrite Nat.add_comm, Nat.Div0.mod_add.
      by apply Nat.mod_small.
Qed.

(** ** Views *)

Lemma flatten_eq {A} (a : np.ndarray2 A) :
  np.flatten a =
  omap (λ k, np.buffer a !! ((k `div` (np.shape a).2) * (np.strides a).1
                             + (k `mod` (np.shape a).2) * (np.strides a).2)%nat)
       (seq 0 ((np.shape a).1 * (np.shape a).2)).
Proof.
  unfold np.flatten, np.offsets. rewrite bind_seq_grid.
  by rewrite list_omap_fmap || (induction (seq 0 _); cbn; [done|]; destruct (_ !! _); cbn; congruence).
Qed.

Lemma row_major_cells_length r c :
  0 ≤ r → 0 ≤ c → Z.of_nat (length (row_major_cells r c)) = r * c.
Proof.
  intros. unfold row_major_cells. rewrite length_fmap, length_seqZ. nia.
Qed.

Lemma row_major_cells_lookup r c i :
  0 ≤ i < r * c →
  row_major_cells r c !! Z.to_nat i = Some (i `div` c, i `mod` c).
Proof.
  intros Hi. unfold row_major_cells. rewrite list_lookup_fmap.
  rewrite lookup_seqZ_lt by lia. cbn. rewrite Z2Nat.id by lia.
  by rewrite Z.add_0_l.
Qed.

Lemma unravel_arange r c :
  0 ≤ r → 0 ≤ c →
  (rc ← np.unravel_index (np.arange (r * c)) (r, c); Ok (zip rc.1 rc.2))
  = Ok (row_major_cells r c).
Proof.
  intros Hr Hc. unfold np.unravel_index, np.bad_shape. cbn [fst snd].
  destruct (Z.ltb_spec r 0); [lia|]. destruct (Z.ltb_spec c 0); [lia|].
  cbn [orb].
  assert (forallb (λ i, (0 <=? i) && (i <? r * c)) (np.arange (r * c)) = true) as ->.
  { apply forallb_forall. intros i Hi%list_elem_of_In.
    apply elem_of_seqZ in Hi. apply andb_true_iff. split.
    - apply Z.leb_le. lia.
    - apply Z.ltb_lt. lia. }
  cbn. f_equal. unfold row_major_cells, np.arange.
  induction (seqZ 0 (r * c)) as [|i l IH]; [done|]. cbn. by f_equal.
Qed.

Lemma arrange_run {S Region} (L : RendererLayout.t)
    (f : Z → Z → M S Region) (s : S) :
  0 ≤ RendererLayout.nrows L → 0 ≤ RendererLayout.ncols L →
  RendererLayout.arrange L f s =
  match forM (λ rc, f rc.1 rc.2)
             (row_major_cells (RendererLayout.nrows L) (RendererLayout.ncols L)) s with
  | (Ok regions, s') =>
      (Ok (slice_to
             (np.flatten (if bool_decide (RendererLayout.orientation L = "v"%string)
                          then np.T (grid_view L regions) else grid_view L regions))
             (RendererLayout.nplots L)), s')
  | (Raise e, s') => (Raise e, s')
  end.
Proof.
  intros Hr Hc. unfold RendererLayout.arrange.
  pose proof (unravel_arange _ _ Hr Hc) as Hu.
  destruct (np.unravel_index _ _) as [[rows cols]|e]; [|done].
  cbn in Hu. injection Hu as Hu.
  unfold mbind at 1, M_bind, lift at 1. cbn beta iota. rewrite Hu.
  unfold mbind at 1, M_bind.
  destruct (forM _ _ s) as [[regions|e] s'] eqn:Hf; [|done].
  apply forM_length in Hf.
  pose proof (row_major_cells_length _ _ Hr Hc) as Hlen.
  unfold mbind at 1, M_bind, lift at 1, np.reshape, np.bad_shape. cbn [fst snd].
  destruct (Z.ltb_spec (RendererLayout.nrows L) 0); [lia|].
  destruct (Z.ltb_spec (RendererLayout.ncols L) 0); [lia|].
  cbn [orb]. rewrite bool_decide_true by lia.
  done.
Qed.

Lemma flatten_lookup {A} (a : np.ndarray2 A) (k : nat) :
  (∀ k, (k < (np.shape a).1 * (np.shape a).2)%nat →
        (k `div` (np.shape a).2 * (np.strides a).1
         + k `mod` (np.shape a).2 * (np.strides a).2 < length (np.buffer a))%nat) →
  (k < (np.shape a).1 * (np.shape a).2)%nat →
  np.flatten a !! k
  = np.buffer a !! (k `div` (np.shape a).2 * (np.strides a).1
                    + k `mod` (np.shape a).2 * (np.strides a).2)%nat.
Proof.
  intros Hin Hk. rewrite flatten_eq, omap_total_lookup.
  - by rewrite lookup_seq_lt.
  - intros x [_ Hx]%elem_of_seq. apply lookup_lt_is_Some. apply Hin. lia.
Qed.

Lemma flatten_length {A} (a : np.ndarray2 A) :
  (∀ k, (k < (np.shape a).1 * (np.shape a).2)%nat →
        (k `div` (np.shape a).2 * (np.strides a).1
         + k `mod` (np.shape a).2 * (np.strides a).2 < length (np.buffer a))%nat) →
  length (np.flatten a) = ((np.shape a).1 * (np.shape a).2)%nat.
Proof.
  intros Hin. rewrite flatten_eq, omap_total_length, length_seq; [done|].
  intros x [_ Hx]%elem_of_seq. apply lookup_lt_is_Some. apply Hin. lia.
Qed.

Lemma offset_C_bound (a b k : nat) :
  (k < a * b → k `div` b * b + k `mod` b * 1 = k)%nat.
Proof.
  intros Hk. assert (b ≠ 0)%nat by nia.
  pose proof (Nat.div_mod_eq k b). lia.
Qed.

Lemma offset_T_bound (a b k : nat) :
  (k < b * a → k `div` a * 1 + k `mod` a * b < a * b)%nat.
Proof.
  intros Hk. assert (a ≠ 0)%nat by nia.
  pose proof (Nat.div_mod_eq k a).
  pose proof (Nat.mod_upper_bound k a ltac:(done)).
  assert (k `div` a < b)%nat by (apply Nat.Div0.div_lt_upper_bound; lia).
  nia.
Qed.

Section grid_view_facts.
Context {Region : Type} (L : RendererLayout.t) (regions : list Region).
Let r := RendererLayout.nrows L.
Let c := RendererLayout.ncols L.
Hypothesis Hr : 0 ≤ r.
Hypothesis Hc : 0 ≤ c.
Hypothesis Hlen : Z.of_nat (length regions) = r * c.

Lemma grid_view_size : length regions = (Z.to_nat r * Z.to_nat c)%nat.
Proof. nia. Qed.

(** Row-major reading of the untransposed view gives the buffer back. *)
Lemma flatten_grid_view : np.flatten (grid_view L regions) = regions.
Proof.
  pose proof grid_view_size as Hsz.
  assert (Hin : ∀ k, (k < Z.to_nat r * Z.to_nat c)%nat →
    (k `div` Z.to_nat c * Z.to_nat c + k `mod` Z.to_nat c * 1 < length regions)%nat).
  { intros k Hk. rewrite (offset_C_bound (Z.to_nat r)) by done. lia. }
  apply list_eq. intros k.
  destruct (decide (k < Z.to_nat r * Z.to_nat c)%nat) as [Hk|Hk].
  - rewrite flatten_lookup by done. cbn.
    fold r c. by rewrite (offset_C_bound (Z.to_nat r)).
  - rewrite !lookup_ge_None_2; [done| lia |].
    rewrite flatten_length by done. cbn. fold r c. lia.
Qed.

Lemma flatten_grid_view_T_length :
  length (np.flatten (np.T (grid_view L regions))) = length regions.
Proof.
  pose proof grid_view_size as Hsz.
  rewrite flatten_length; cbn; fold r c; [lia|].
  intros k Hk. rewrite Hsz. by apply offset_T_bound.
Qed.

(** Row-major reading of the transposed view: position [k] holds the
    region of cell [(k mod r, k div r)]. *)
Lemma flatten_grid_view_T_lookup (k : Z) :
  0 ≤ k < r * c →
  np.flatten (np.T (grid_view L regions)) !! Z.to_nat k
  = regions !! Z.to_nat (k `mod` r * c + k `div` r).
Proof.
  intros Hk. pose proof grid_view_size as Hsz.
  rewrite flatten_lookup; cbn; fold r c.
  - f_equal.
    assert (r ≠ 0) by nia.
    rewrite <- (Z2Nat.id r) at 3 4 by lia. 
    rewrite <- (Z2Nat.id k) at 3 4 by lia. 
    rewrite <- Nat2Z.inj_mod, <- Nat2Z.inj_div. lia.
  - intros k' Hk'. rewrite Hsz. by apply offset_T_bound.
  - lia.
Qed.
End grid_view_facts.

(** ** Region assignment *)

Lemma slice_to_lookup {A} (l : list A) (n i : Z) :
  0 ≤ i < n → slice_to l n !! Z.to_nat i = l !! Z.to_nat i.
Proof.
  intros Hi. unfold slice_to. destruct (Z.leb_spec 0 n); [|lia].
  apply lookup_take_lt. lia.
Qed.

Lemma slice_to_length {A} (l : list A) (n : Z) :
  0 ≤ n → Z.of_nat (length (slice_to l n)) = Z.min n (Z.of_nat (length l)).
Proof.
  intros Hn. unfold slice_to. destruct (Z.leb_spec 0 n); [|lia].
  rewrite length_take. lia.
Qed.

(** The assigned cell lies in the grid, and its row-major position is the
    one the flattened (possibly transposed) view reads. *)
Lemma assigned_cell_in_grid (L : RendererLayout.t) (i : Z) :
  0 ≤ i < RendererLayout.nrows L * RendererLayout.ncols L →
  0 ≤ RendererLayout.nrows L → 0 ≤ RendererLayout.ncols L →
  let cell := assigned_cell L i in
  0 ≤ cell.1 < RendererLayout.nrows L ∧ 0 ≤ cell.2 < RendererLayout.ncols L.
Proof.
  intros Hi Hr Hc. unfold assigned_cell.
  set (r := RendererLayout.nrows L) in *. set (c := RendererLayout.ncols L) in *.
  assert (r ≠ 0 ∧ c ≠ 0) as [? ?] by nia.
  case_bool_decide; cbn.
  - pose proof (Z.mod_pos_bound i r ltac:(lia)).
    pose proof (Z.div_pos i r ltac:(lia) ltac:(lia)).
    assert (i `div` r < c) by (apply Z.div_lt_upper_bound; lia). lia.
  - pose proof (Z.mod_pos_bound i c ltac:(lia)).
    pose proof (Z.div_pos i c ltac:(lia) ltac:(lia)).
    assert (i `div` c < r) by (apply Z.div_lt_upper_bound; lia). lia.
Qed.

Lemma row_major_cells_at (r c row col : Z) :
  0 ≤ row < r → 0 ≤ col < c →
  row_major_cells r c !! Z.to_nat (row * c + col) = Some (row, col).
Proof.
  intros Hrow Hcol. rewrite row_major_cells_lookup by nia.
  assert ((row * c + col) `div` c = row) as ->.
  { rewrite Z.div_add_l, Z.div_small by lia. lia. }
  assert ((row * c + col) `mod` c = col) as ->.
  { rewrite Z.add_comm, Z.mod_add, Z.mod_small by lia. done. }
  done.
Qed.

Lemma arrange_result {S Region} (L : RendererLayout.t)
    (f : Z → Z → M S Region) (s s' : S) (regions : list Region) :
  0 ≤ RendererLayout.nrows L → 0 ≤ RendererLayout.ncols L →
  forM (λ rc, f rc.1 rc.2)
       (row_major_cells (RendererLayout.nrows L) (RendererLayout.ncols L)) s
  = (Ok regions, s') →
  ∃ out, RendererLayout.arrange L f s = (Ok out, s')
    ∧ (0 ≤ RendererLayout.nplots L →
       Z.of_nat (length out)
       = Z.min (RendererLayout.nplots L)
               (RendererLayout.nrows L * RendererLayout.ncols L))
    ∧ ∀ i, 0 ≤ i < RendererLayout.nplots L →
           i < RendererLayout.nrows L * RendererLayout.ncols L →
           out !! Z.to_nat i = regions !! cell_index L (assigned_cell L i).
Proof.
  intros Hr Hc Hf. rewrite arrange_run, Hf by done.
  eexists. split; [done|].
  pose proof (forM_length _ _ _ _ _ Hf) as Hlen.
  pose proof (row_major_cells_length _ _ Hr Hc) as Hcells.
  assert (Hsz : Z.of_nat (length regions)
                = RendererLayout.nrows L * RendererLayout.ncols L) by lia.
  split.
  - intros Hn. rewrite slice_to_length by done.
    case_bool_decide.
    + rewrite flatten_grid_view_T_length by done. lia.
    + rewrite flatten_grid_view by done. lia.
  - intros i Hi Hi'. rewrite slice_to_lookup by done.
    unfold cell_index, assigned_cell. case_bool_decide.
    + by rewrite flatten_grid_view_T_lookup by (done || lia).
    + rewrite flatten_grid_view by done. cbn [fst snd]. f_equal.
      assert (RendererLayout.ncols L ≠ 0) by nia.
      pose proof (Z.div_mod i (RendererLayout.ncols L) ltac:(done)). lia.
Qed.

Lemma forM_pure_factory {Region} (f : Z → Z → Region) (l : list (Z * Z)) :
  forM (λ rc, pure_factory f rc.1 rc.2) l () = (Ok ((λ rc, f rc.1 rc.2) <$> l), ()).
Proof. by apply forM_pure. Qed.

(** C3.  [arrange] calls the factory once per cell of the full grid, in
    row-major order (cell [i] is [(i div ncols, i mod ncols)]), whatever the
    channel count and the orientation: its effect on the factory's state is
    that of calling it on every cell in turn, and a factory that logs its
    calls logs exactly the [nrows * ncols] cells. *)
Theorem arrange_calls_every_cell {S Region} (L : RendererLayout.t)
    (f : Z → Z → M S Region) (g : Z → Z → Region) (s : S) :
  0 ≤ RendererLayout.nrows L → 0 ≤ RendererLayout.ncols L →
  let cells := row_major_cells (RendererLayout.nrows L) (RendererLayout.ncols L) in
  (RendererLayout.arrange L f s).2 = (forM (λ rc, f rc.1 rc.2) cells s).2
  ∧ is_ok (RendererLayout.arrange L (traced g) []).1 = true
  ∧ (RendererLayout.arrange L (traced g) []).2 = cells
  ∧ Z.of_nat (length cells) = RendererLayout.nrows L * RendererLayout.ncols L
  ∧ (∀ i, 0 ≤ i < RendererLayout.nrows L * RendererLayout.ncols L →
          cells !! Z.to_nat i
          = Some (i `div` RendererLayout.ncols L, i `mod` RendererLayout.ncols L))
  ∧ (∀ L', RendererLayout.nrows L' = RendererLayout.nrows L →
           RendererLayout.ncols L' = RendererLayout.ncols L →
           (RendererLayout.arrange L' (traced g) []).2
           = (RendererLayout.arrange L (traced g) []).2).
Proof.
  intros Hr Hc cells.
  assert (Htraced : ∀ L', RendererLayout.nrows L' = RendererLayout.nrows L →
            RendererLayout.ncols L' = RendererLayout.ncols L →
            is_ok (RendererLayout.arrange L' (traced g) []).1 = true
            ∧ (RendererLayout.arrange L' (traced g) []).2 = cells).
  { intros L' Hr' Hc'. rewrite arrange_run by lia.
    rewrite forM_traced, Hr', Hc'. done. }
  split; [|split; [|split; [|split; [|split]]]].
  - rewrite arrange_run by done. fold cells.
    by destruct (forM _ cells s) as [[regions|e] s'].
  - by apply Htraced.
  - by apply Htraced.
  - by apply row_major_cells_length.
  - intros i Hi. by apply row_major_cells_lookup.
  - intros L' Hr' Hc'.
    destruct (Htraced L' Hr' Hc') as [_ ->].
    by destruct (Htraced L eq_refl eq_refl) as [_ ->].
Qed.


Lemma arrange_5_of_6_calls :
  0 ≤ RendererLayout.nrows (layout_2x3 "h")
  ∧ 0 ≤ RendererLayout.ncols (layout_2x3 "h")
  ∧ RendererLayout.arrange (layout_2x3 "h") (traced pair) []
    = (Ok [(0, 0); (0, 1); (0, 2); (1, 0); (1, 1)],
       [(0, 0); (0, 1); (0, 2); (1, 0); (1, 1); (1, 2)])
  ∧ (RendererLayout.arrange (layout_2x3 "v") (traced pair) []).2
    = (RendererLayout.arrange (layout_2x3 "h") (traced pair) []).2.
Proof.
  assert (Hr : 0 ≤ RendererLayout.nrows (layout_2x3 "h")) by (cbn; lia).
  assert (Hc : 0 ≤ RendererLayout.ncols (layout_2x3 "h")) by (cbn; lia).
  split; [exact Hr|]. split; [exact Hc|]. split; [reflexivity|].
  pose proof (arrange_calls_every_cell (layout_2x3 "h") (traced pair) pair [] Hr Hc)
    as (_ & _ & _ & _ & _ & Hsame).
  exact (Hsame (layout_2x3 "v") eq_refl eq_refl).
Defined.

Lemma new_orientation_irrelevant r c o o' cfg :
  LayoutConfig.new r c o = Ok cfg →
  LayoutConfig.new r c o'
  = Ok (LayoutConfig.mk (LayoutConfig.nrows cfg) (LayoutConfig.ncols cfg) o').
Proof.
  destruct r as [[|p|p]|], c as [[|q|q]|]; cbn;
    intros H; try discriminate H; by injection H as <-.
Qed.

Lemma layout_init_dims cfg nplots L :
  RendererLayout.__init__ cfg nplots = Ok L →
  RendererLayout._calc_layout cfg nplots
  = Ok (RendererLayout.nrows L, RendererLayout.ncols L)
  ∧ RendererLayout.nplots L = nplots
  ∧ RendererLayout.orientation L = LayoutConfig.orientation cfg
  ∧ LayoutConfig.orientation cfg ∈ RendererLayout.VALID_ORIENTATIONS.
Proof.
  unfold RendererLayout.__init__.
  destruct (RendererLayout._calc_layout cfg nplots) as [[nrows ncols]|e]; [|done].
  cbn. case_bool_decide; [|done]. by intros [= <-].
Qed.

(** C4.  The channel-to-cell assignment is column-major for ['v'] (channel
    [i] gets the region made for cell [(i mod nrows, i div nrows)]) and
    row-major for ['h'] (cell [(i div ncols, i mod ncols)]); the grid
    dimensions do not depend on the orientation. *)
Theorem arrange_orientation {Region} (L : RendererLayout.t)
    (f : Z → Z → Region) (i : Z) :
  0 ≤ RendererLayout.nrows L → 0 ≤ RendererLayout.ncols L →
  0 ≤ i < RendererLayout.nplots L →
  i < RendererLayout.nrows L * RendererLayout.ncols L →
  (∃ regs, RendererLayout.arrange L (pure_factory f) () = (Ok regs, ())
     ∧ (RendererLayout.orientation L = "v"%string →
        regs !! Z.to_nat i
        = Some (f (i `mod` RendererLayout.nrows L) (i `div` RendererLayout.nrows L)))
     ∧ (RendererLayout.orientation L = "h"%string →
        regs !! Z.to_nat i
        = Some (f (i `div` RendererLayout.ncols L) (i `mod` RendererLayout.ncols L))))
  ∧ (∀ r c o o' nplots,
       RendererLayout._calc_layout (LayoutConfig.mk r c o) nplots
       = RendererLayout._calc_layout (LayoutConfig.mk r c o') nplots)
  ∧ (∀ r c nplots Lh Lv,
       construct_layout r c "h" nplots = Ok Lh →
       construct_layout r c "v" nplots = Ok Lv →
       RendererLayout.nrows Lh = RendererLayout.nrows Lv
       ∧ RendererLayout.ncols Lh = RendererLayout.ncols Lv).
Proof.
  intros Hr Hc Hi Hi'. split; [|split].
  - destruct (arrange_result L (pure_factory f) () () _ Hr Hc
                (forM_pure_factory f _)) as (regs & Hrun & _ & Hlook).
    exists regs. split; [done|].
    specialize (Hlook i Hi Hi').
    pose proof (assigned_cell_in_grid L i ltac:(lia) Hr Hc) as Hcell.
    rewrite Hlook. unfold cell_index. rewrite list_lookup_fmap.
    rewrite row_major_cells_at by apply Hcell.
    unfold assigned_cell. split; intros Ho.
    + by rewrite bool_decide_true.
    + rewrite bool_decide_false; [done|]. by rewrite Ho.
  - done.
  - intros r c nplots Lh Lv. unfold construct_layout.
    destruct (LayoutConfig.new r c "h") as [cfg|e] eqn:Hnew; [|done].
    rewrite (new_orientation_irrelevant _ _ _ "v" _ Hnew). cbn.
    intros (Hh & _)%layout_init_dims (Hv & _)%layout_init_dims.
    destruct cfg as [r' c' o']. cbn in Hv.
    assert (RendererLayout._calc_layout (LayoutConfig.mk r' c' o') nplots
            = RendererLayout._calc_layout (LayoutConfig.mk r' c' "v") nplots) as E by done.
    rewrite Hh, Hv in E. by injection E.
Qed.

Lemma arrange_vertical_2x3 :
  RendererLayout.arrange (layout_2x3 "v") (pure_factory pair) ()
  = (Ok [(0, 0); (1, 0); (0, 1); (1, 1); (0, 2)], ())
  ∧ ∃ regs, RendererLayout.arrange (layout_2x3 "v") (pure_factory pair) () = (Ok regs, ())
            ∧ regs !! 1%nat = Some (1, 0).
Proof.
  split; [reflexivity|].
  assert (Hr : 0 ≤ RendererLayout.nrows (layout_2x3 "v")) by (cbn; lia).
  assert (Hc : 0 ≤ RendererLayout.ncols (layout_2x3 "v")) by (cbn; lia).
  assert (Hi : 0 ≤ 1 < RendererLayout.nplots (layout_2x3 "v")) by (cbn; lia).
  assert (Hi' : 1 < RendererLayout.nrows (layout_2x3 "v")
                    * RendererLayout.ncols (layout_2x3 "v")) by (cbn; lia).
  destruct (arrange_orientation (layout_2x3 "v") pair 1 Hr Hc Hi Hi')
    as [(regs & Hrun & Hv & _) _].
  exists regs. split; [exact Hrun|]. exact (Hv eq_refl).
Defined.

(** ** Grid size *)


Lemma ceil_nonneg n k :
  0 ≤ n → 0 < k →
  let q := - ((- n) / k) in
  n ≤ k * q ∧ 0 ≤ q ∧ (1 ≤ n → 0 < q) ∧ (n = 0 → q = 0).
Proof.
  intros Hn Hk q. pose proof (ceil_bounds n k Hk) as Hb. cbn in Hb. fold q in Hb.
  repeat split; nia.
Qed.

Lemma construct_layout_grid r c o nplots :
  0 ≤ nplots → count_nonneg r → count_nonneg c →
  (truthy r && truthy c) = false → o ∈ RendererLayout.VALID_ORIENTATIONS →
  ∃ L, construct_layout r c o nplots = Ok L
    ∧ RendererLayout.nplots L = nplots
    ∧ RendererLayout.orientation L = o
    ∧ nplots ≤ RendererLayout.nrows L * RendererLayout.ncols L
    ∧ 0 ≤ RendererLayout.nrows L ∧ 0 ≤ RendererLayout.ncols L
    ∧ (1 ≤ nplots → 0 < RendererLayout.nrows L ∧ 0 < RendererLayout.ncols L)
    ∧ (nplots = 0 → RendererLayout.nrows L * RendererLayout.ncols L = 0).
Proof.
  intros Hn Hr Hc Hrc Ho.
  assert (∃ k cfg, 0 < k ∧ LayoutConfig.new r c o = Ok cfg
            ∧ LayoutConfig.orientation cfg = o
            ∧ ((LayoutConfig.nrows cfg = Some k)
               ∨ (LayoutConfig.nrows cfg = None ∧ LayoutConfig.ncols cfg = Some k)))
    as (k & cfg & Hk & Hnew & Hocfg & Hcfg).
  { destruct r as [[|p|p]|], c as [[|q|q]|]; try discriminate Hrc;
      try (specialize (Hr _ eq_refl); lia); try (specialize (Hc _ eq_refl); lia);
      cbn; eexists _, _; (split; [|split; [reflexivity|split; [reflexivity|]]]);
      first [ left; reflexivity | right; split; reflexivity | idtac ]; lia. }
  unfold construct_layout. rewrite Hnew. cbn.
  unfold RendererLayout.__init__.
  pose proof (ceil_nonneg nplots k Hn Hk) as (H1 & H2 & H3 & H4).
  destruct Hcfg as [Hrows|[Hrows Hcols]].
  - rewrite (calc_layout_rows cfg nplots k) by (done || lia). cbn.
    rewrite Hocfg, bool_decide_true by done.
    eexists. split; [done|]. cbn. repeat split; nia.
  - rewrite (calc_layout_cols cfg nplots k) by (done || lia). cbn.
    rewrite Hocfg, bool_decide_true by done.
    eexists. split; [done|]. cbn. repeat split; nia.
Qed.

(** C2 (amended).  For a channel count [>= 0], non-negative axis counts of
    which at most one is set, and a valid orientation, the layout is built,
    [nrows * ncols >= nplots], both dimensions are non-negative and, as soon
    as there is a channel, positive; with no channel the derived dimension is
    zero.  [arrange] with a factory that does not raise returns exactly
    [nplots] regions. *)
Theorem grid_covers_channels (r c : option Z) (o : string) (nplots : Z) :
  0 ≤ nplots → count_nonneg r → count_nonneg c →
  (truthy r && truthy c) = false → o ∈ RendererLayout.VALID_ORIENTATIONS →
  ∃ L, construct_layout r c o nplots = Ok L
    ∧ nplots ≤ RendererLayout.nrows L * RendererLayout.ncols L
    ∧ 0 ≤ RendererLayout.nrows L ∧ 0 ≤ RendererLayout.ncols L
    ∧ (1 ≤ nplots → 0 < RendererLayout.nrows L ∧ 0 < RendererLayout.ncols L)
    ∧ (nplots = 0 → RendererLayout.nrows L * RendererLayout.ncols L = 0)
    ∧ ∀ (S Region : Type) (f : Z → Z → M S Region) (s : S),
        total_factory f →
        ∃ regions s', RendererLayout.arrange L f s = (Ok regions, s')
                      ∧ Z.of_nat (length regions) = nplots.
Proof.
  intros Hn Hr Hc Hrc Ho.
  destruct (construct_layout_grid r c o nplots Hn Hr Hc Hrc Ho)
    as (L & HL & Hnp & _ & Hcover & Hrows & Hcols & Hpos & Hzero).
  exists L. repeat (split; [done|]).
  intros S Region f s Hf.
  destruct (forM_total (λ rc, f rc.1 rc.2)
              (row_major_cells (RendererLayout.nrows L) (RendererLayout.ncols L)) s)
    as (regions & s' & Hrun).
  { intros rc s0. apply Hf. }
  destruct (arrange_result L f s s' regions Hrows Hcols Hrun)
    as (out & Hout & Hlen & _).
  exists out, s'. split; [done|]. rewrite Hlen by lia. lia.
Qed.

Lemma grid_covers_7_by_3 :
  ∃ L, construct_layout (Some 3) None "h" 7 = Ok L
       ∧ 7 ≤ RendererLayout.nrows L * RendererLayout.ncols L
       ∧ ∃ regions, RendererLayout.arrange L (pure_factory pair) () = (Ok regions, ())
                    ∧ Z.of_nat (length regions) = 7.
Proof.
  assert (Hn : 0 ≤ 7) by lia.
  assert (Hr : count_nonneg (Some 3)) by (intros z [= <-]; lia).
  assert (Hc : count_nonneg None) by (intros z [=]).
  assert (Ho : "h"%string ∈ RendererLayout.VALID_ORIENTATIONS) by (by left).
  destruct (grid_covers_channels (Some 3) None "h" 7 Hn Hr Hc eq_refl Ho)
    as (L & HL & Hcover & _ & _ & _ & _ & Harr).
  exists L. split; [exact HL|]. split; [exact Hcover|].
  destruct (Harr unit (Z * Z)%type (pure_factory pair) ()) as (regions & [] & Hrun & Hlen).
  { intros row col s. reflexivity. }
  exists regions. split; [exact Hrun | exact Hlen].
Defined.

(** C2, as stated, fails for zero channels: three rows then give zero
    columns, which is not a positive count. *)
Lemma zero_channels_zero_columns :
  ∃ L, construct_layout (Some 3) None "h" 0 = Ok L
       ∧ RendererLayout.nrows L = 3 ∧ RendererLayout.ncols L = 0
       ∧ ¬ (0 < RendererLayout.nrows L ∧ 0 < RendererLayout.ncols L).
Proof.
  eexists. split; [reflexivity|].
  split; [reflexivity|]. split; [reflexivity|].
  intros [_ H]. cbv in H. discriminate H.
Qed.


(** ** The render loops *)

Import MatplotlibRenderer.

Lemma init_channel_step lw idx data self fig axs ls ov ax :
  _fig self = Some fig → _axes self = Some axs → _lines self = Some ls →
  _line_colors self !! idx = Some ov → axs !! idx = Some ax →
  init_channel lw idx data self
  = (Ok (),
     set_lines (Some (ls ++ [length (mpl.lines fig)]))
       (set_fig (Some (init_channel_fig ax data
                         (coalesce ov (RendererConfig.init_line_color (cfg self)))
                         lw fig)) self)).
Proof.
  intros Hfig Haxs Hls Hov Hax.
  unfold init_channel, mbind, M_bind, get, getitem, fig_do, fig_call, put.
  rewrite Hov. cbn. rewrite Haxs. cbn. rewrite Hax. cbn. rewrite Hfig. cbn.
  rewrite Hls. reflexivity.
Qed.

Lemma update_channel_step idx data self fig ls line :
  _fig self = Some fig → _lines self = Some ls → ls !! idx = Some line →
  update_channel idx data self
  = (Ok (), set_fig (Some (mpl.on_line line (mpl.set_ydata data) fig)) self).
Proof.
  intros Hfig Hls Hline.
  unfold update_channel, mbind, M_bind, get, getitem, fig_do.
  rewrite Hls. cbn. rewrite Hline. cbn. rewrite Hfig. reflexivity.
Qed.

Lemma for_enumerate_cons body idx data datas self :
  for_enumerate body idx (data :: datas) self =
  match body idx data self with
  | (Ok _, self') => for_enumerate body (S idx) datas self'
  | (Raise e, self') => (Raise e, self')
  end.
Proof.
  cbn. unfold mbind, M_bind. by destruct (body idx data self) as [[[]|e] s].
Qed.

Lemma init_channel_fig_axes ax data c lw fig :
  mpl.axes (init_channel_fig ax data c lw fig)
  = alter (λ a, mpl.mkAxes (mpl.axis_on a)
                  (Some (0, Z.of_nat (length data) - 1)) (Some (-1, 1)))
          ax (mpl.axes fig).
Proof.
  unfold init_channel_fig, mpl.plot, mpl.on_axes. cbn.
  rewrite list_alter_alter_eq. done.
Qed.

Lemma init_channel_fig_lines ax data c lw fig :
  mpl.lines (init_channel_fig ax data c lw fig)
  = mpl.lines fig
    ++ [mpl.mkLine ax (np.arange (Z.of_nat (length data))) data c lw].
Proof. done. Qed.

Lemma init_loop lw datas : ∀ idx self fig axs ls,
  _fig self = Some fig → _axes self = Some axs → _lines self = Some ls →
  (idx + length datas ≤ length axs)%nat →
  (idx + length datas ≤ length (_line_colors self))%nat →
  NoDup axs →
  ∃ axes' new_lines,
    for_enumerate (init_channel lw) idx datas self
    = (Ok (),
       set_lines (Some (ls ++ seq (length (mpl.lines fig)) (length datas)))
         (set_fig (Some (mpl.set_lines (mpl.lines fig ++ new_lines)
                           (mpl.set_axes axes' fig))) self))
    ∧ length axes' = length (mpl.axes fig)
    ∧ length new_lines = length datas
    ∧ (∀ i data, datas !! i = Some data →
         ∃ ax ov, axs !! (idx + i)%nat = Some ax
           ∧ _line_colors self !! (idx + i)%nat = Some ov
           ∧ new_lines !! i
             = Some (mpl.mkLine ax (np.arange (Z.of_nat (length data))) data
                       (coalesce ov (RendererConfig.init_line_color (cfg self))) lw)
           ∧ axes' !! ax
             = (λ a, mpl.mkAxes (mpl.axis_on a)
                       (Some (0, Z.of_nat (length data) - 1)) (Some (-1, 1)))
               <$> mpl.axes fig !! ax)
    ∧ (∀ a, (∀ i, (i < length datas)%nat → axs !! (idx + i)%nat ≠ Some a) →
            axes' !! a = mpl.axes fig !! a).
Proof.
  induction datas as [|data datas IH]; intros idx self fig axs ls Hfig Haxs Hls Hlen Hcol Hnd.
  - exists (mpl.axes fig), []. split; [|split; [|split; [|split]]]; try done.
    destruct self, fig; cbn in *. subst. by rewrite !app_nil_r.
  - cbn [length] in Hlen, Hcol.
    destruct (lookup_lt_is_Some_2 axs idx ltac:(lia)) as [ax Hax].
    destruct (lookup_lt_is_Some_2 (_line_colors self) idx ltac:(lia)) as [ov Hov].
    rewrite for_enumerate_cons.
    rewrite (init_channel_step lw idx data self fig axs ls ov ax) by done.
    set (fig1 := init_channel_fig ax data _ lw fig).
    set (self1 := set_lines _ (set_fig (Some fig1) self)).
    destruct (IH (S idx) self1 fig1 axs (ls ++ [length (mpl.lines fig)]))
      as (axes' & new_lines & Hrun & Hlen' & Hnew & Hper & Hframe);
      try done; try (cbn; lia).
    exists axes', (mpl.mkLine ax (np.arange (Z.of_nat (length data))) data
                     (coalesce ov (RendererConfig.init_line_color (cfg self))) lw
                   :: new_lines).
    split; [|split; [|split; [|split]]].
    + rewrite Hrun. f_equal. subst self1.
      unfold set_lines, set_fig, mpl.set_lines, mpl.set_axes. cbn.
      rewrite length_app. cbn.
      rewrite <- !app_assoc. cbn.
      by rewrite Nat.add_1_r.
    + rewrite Hlen'. subst fig1. by rewrite init_channel_fig_axes, length_alter.
    + cbn. by rewrite Hnew.
    + intros [|i] data' Hdata.
      * injection Hdata as <-. exists ax, ov.
        rewrite Nat.add_0_r. repeat (split; [done|]).
        rewrite Hframe.
        -- subst fig1. by rewrite init_channel_fig_axes, list_lookup_alter_eq.
        -- intros i Hi Hax'.
           pose proof (NoDup_lookup _ _ _ _ Hnd Hax Hax'). lia.
      * cbn in Hdata.
        destruct (Hper i data' Hdata) as (ax' & ov' & Hax' & Hov' & Hline & Haxes).
        exists ax', ov'.
        replace (idx + S i)%nat with (S idx + i)%nat by lia.
        repeat (split; [done|]).
        rewrite Haxes. subst fig1. rewrite init_channel_fig_axes.
        rewrite list_lookup_alter_ne; [done|].
        intros ->. pose proof (NoDup_lookup _ _ _ _ Hnd Hax Hax'). lia.
    + intros a Ha. rewrite Hframe.
      * subst fig1. rewrite init_channel_fig_axes.
        rewrite list_lookup_alter_ne; [done|].
        intros ->. apply (Ha 0%nat); [cbn; lia|]. by rewrite Nat.add_0_r.
      * intros i Hi. replace (S idx + i)%nat with (idx + S i)%nat by lia.
        apply Ha. cbn. lia.
Qed.

Lemma update_loop datas : ∀ idx self fig ls,
  _fig self = Some fig → _lines self = Some ls →
  (idx + length datas ≤ length ls)%nat →
  ∃ lines',
    for_enumerate update_channel idx datas self
    = (Ok (), set_fig (Some (mpl.set_lines lines' fig)) self)
    ∧ length lines' = length (mpl.lines fig)
    ∧ (∀ l x, mpl.lines fig !! l = Some x →
              ∃ y, lines' !! l = Some (mpl.set_ydata y x))
    ∧ (NoDup ls → ∀ i data l,
         datas !! i = Some data → ls !! (idx + i)%nat = Some l →
         (l < length (mpl.lines fig))%nat →
         mpl.ydata <$> lines' !! l = Some data)
    ∧ (∀ l, (∀ i, (i < length datas)%nat → ls !! (idx + i)%nat ≠ Some l) →
            lines' !! l = mpl.lines fig !! l).
Proof.
  induction datas as [|data datas IH]; intros idx self fig ls Hfig Hls Hlen.
  - exists (mpl.lines fig). split; [|split; [|split; [|split]]]; try done.
    + destruct self, fig; cbn in *. by subst.
    + intros l x Hx. exists (mpl.ydata x). rewrite Hx. by destruct x.
  - cbn [length] in Hlen.
    destruct (lookup_lt_is_Some_2 ls idx ltac:(lia)) as [line Hline].
    rewrite for_enumerate_cons.
    rewrite (update_channel_step idx data self fig ls line) by done.
    set (fig1 := mpl.on_line line (mpl.set_ydata data) fig).
    set (self1 := set_fig (Some fig1) self).
    destruct (IH (S idx) self1 fig1 ls) as (lines' & Hrun & Hlen' & Hattr & Hy & Hframe);
      try done; try (cbn; lia).
    assert (Hfig1 : mpl.lines fig1 = alter (mpl.set_ydata data) line (mpl.lines fig))
      by done.
    exists lines'. split; [|split; [|split; [|split]]].
    + by rewrite Hrun.
    + by rewrite Hlen', Hfig1, length_alter.
    + intros l x Hx.
      destruct (decide (line = l)) as [->|Hne].
      * destruct (Hattr l (mpl.set_ydata data x)) as [y Hy'].
        { by rewrite Hfig1, list_lookup_alter_eq, Hx. }
        by exists y.
      * apply Hattr. by rewrite Hfig1, list_lookup_alter_ne.
    + intros Hnd [|i] data' l Hdata Hl Hin.
      * injection Hdata as <-. rewrite Nat.add_0_r in Hl.
        assert (l = line) as -> by congruence.
        rewrite Hframe.
        -- rewrite Hfig1, list_lookup_alter_eq.
           destruct (lookup_lt_is_Some_2 _ _ Hin) as [x ->]. done.
        -- intros i Hi Hl'.
           pose proof (NoDup_lookup _ _ _ _ Hnd Hline Hl'). lia.
      * cbn in Hdata. apply (Hy Hnd i data' l Hdata).
        -- by replace (S idx + i)%nat with (idx + S i)%nat by lia.
        -- by rewrite Hfig1, length_alter.
    + intros l Hl. rewrite Hframe.
      * rewrite Hfig1, list_lookup_alter_ne; [done|].
        intros ->. apply (Hl 0%nat); [cbn; lia|]. by rewrite Nat.add_0_r.
      * intros i Hi. replace (S idx + i)%nat with (idx + S i)%nat by lia.
        apply Hl. cbn. lia.
Qed.


Lemma state_uninitialized self :
  state self = Uninitialized ↔ _lines self = None.
Proof. unfold state. destruct (_lines self); split; done. Qed.

Lemma state_initialized self :
  state self = Initialized ↔ is_Some (_lines self).
Proof.
  unfold state. destruct (_lines self); split; done.
Qed.

Lemma render_frame_arity B datas self :
  Z.of_nat (length datas) ≠ nplots self →
  render_frame B datas self = (Raise (ValueError DatasArity), self).
Proof.
  intros Hne. unfold render_frame, mbind, M_bind, get.
  by rewrite bool_decide_true by congruence.
Qed.

(** ** The draw that ends a frame *)

Lemma draw_ok B f :
  forallb mpl.drawable (mpl.lines f) = true →
  mpl.draw B f = (Ok (), mpl.drawn B f).
Proof. unfold mpl.draw. by intros ->. Qed.

Lemma draw_raises B f :
  forallb mpl.drawable (mpl.lines f) = false →
  mpl.draw B f = (Raise (ValueError LibraryShape), mpl.painted (mpl.aborted B f) f).
Proof. unfold mpl.draw. by intros ->. Qed.

(** A line as [plot] creates it can be drawn. *)
Lemma plotted_line_drawable ax data c lw :
  mpl.drawable (mpl.mkLine ax (np.arange (Z.of_nat (length data))) data c lw) = true.
Proof.
  unfold mpl.drawable, mpl.broadcasts, np.arange. cbn.
  by rewrite length_seqZ, Nat2Z.id, Nat.eqb_refl.
Qed.

Lemma new_lines_drawable (datas : list (list Q)) (new_lines : list mpl.Line2D) :
  length new_lines = length datas →
  (∀ i data, datas !! i = Some data →
     ∃ ax c lw, new_lines !! i
       = Some (mpl.mkLine ax (np.arange (Z.of_nat (length data))) data c lw)) →
  forallb mpl.drawable new_lines = true.
Proof.
  intros Hlen Hper. apply forallb_forall. intros line Hin.
  apply list_elem_of_In, list_elem_of_lookup_1 in Hin as [i Hi].
  pose proof (lookup_lt_Some _ _ _ Hi) as Hlt.
  destruct (lookup_lt_is_Some_2 datas i ltac:(lia)) as [data Hdata].
  destruct (Hper i data Hdata) as (ax & c & lw & Hline).
  assert (line = mpl.mkLine ax (np.arange (Z.of_nat (length data))) data c lw)
    as -> by congruence.
  apply plotted_line_drawable.
Qed.

Lemma first_frame_run B datas self fig axs :
  _fig self = Some fig → _axes self = Some axs → _lines self = None →
  mpl.lines fig = [] →
  Z.of_nat (length datas) = nplots self →
  length axs = length datas → length (_line_colors self) = length datas →
  NoDup axs →
  ∃ axes' new_lines,
    render_frame B datas self
    = (Ok (),
       set_lines (Some (seq 0 (length datas)))
         (set_fig (Some (mpl.drawn B
            (mpl.set_lines new_lines
               (mpl.set_axes axes'
                  (mpl.set_facecolor (RendererConfig.bg_color (cfg self)) fig)))))
            self))
    ∧ length axes' = length (mpl.axes fig)
    ∧ length new_lines = length datas
    ∧ (∀ i data, datas !! i = Some data →
         ∃ ax ov, axs !! i = Some ax
           ∧ _line_colors self !! i = Some ov
           ∧ new_lines !! i
             = Some (mpl.mkLine ax (np.arange (Z.of_nat (length data))) data
                       (coalesce ov (RendererConfig.init_line_color (cfg self)))
                       (RendererConfig.line_width (cfg self)))
           ∧ axes' !! ax
             = (λ a, mpl.mkAxes (mpl.axis_on a)
                       (Some (0, Z.of_nat (length data) - 1)) (Some (-1, 1)))
               <$> mpl.axes fig !! ax).
Proof.
  intros Hfig Haxs Hls Hnolines Hlen Haxlen Hcollen Hnd.
  set (fig0 := mpl.set_facecolor (RendererConfig.bg_color (cfg self)) fig).
  set (self1 := set_lines (Some []) (set_fig (Some fig0) self)).
  destruct (init_loop (RendererConfig.line_width (cfg self)) datas 0 self1 fig0 axs [])
    as (axes' & new_lines & Hrun & Hlen' & Hnew & Hper & _);
    try done; try (cbn; lia).
  exists axes', new_lines.
  split; [|split; [done|split; [done|]]].
  - unfold render_frame, mbind at 1, M_bind at 1, get at 1.
    rewrite bool_decide_false by (intros ?; congruence).
    rewrite bool_decide_true by done.
    unfold mbind, M_bind, fig_do at 1, modify. rewrite Hfig.
    fold fig0. fold self1.
    unfold mbind, M_bind in Hrun. rewrite Hrun.
    unfold fig_try. cbn [_fig set_lines set_fig].
    assert (Hfinal : mpl.set_lines (mpl.lines fig0 ++ new_lines) (mpl.set_axes axes' fig0)
                     = mpl.set_lines new_lines (mpl.set_axes axes' fig0)).
    { subst fig0. cbn. by rewrite Hnolines. }
    rewrite Hfinal, draw_ok.
    { subst fig0 self1. cbn. by rewrite Hnolines. }
    apply (new_lines_drawable datas); [done|].
    intros i data Hdata.
    destruct (Hper i data Hdata) as (ax & ov & _ & _ & Hline & _). eauto.
  - intros i data Hdata.
    destruct (Hper i data Hdata) as (ax & ov & ? & ? & ? & ?).
    by exists ax, ov.
Qed.

(** C5.  On a renderer that has not rendered yet, [render_frame] raises an
    ArityMismatch unless it gets one data sequence per channel; otherwise it
    sets the background colour, gives region [i] the bounds
    x in [0, len(datas[i]) - 1] and y in [-1, 1], creates for channel [i] one
    artifact on region [i] that plots [datas[i]] in the override colour if
    there is one and the default colour if not, with the configured line
    width, draws, and leaves the renderer Initialized. *)
Theorem first_render_frame (B : mpl.Backend) (self : MatplotlibRenderer.t)
    (datas : list (list Q)) :
  wf self → state self = Uninitialized →
  let run := render_frame B datas self in
  (Z.of_nat (length datas) ≠ nplots self →
   run = (Raise (ValueError DatasArity), self) ∧ raises_kind run.1 ArityMismatch)
  ∧ (Z.of_nat (length datas) = nplots self →
     ∃ fig fig' axs ls,
       run.1 = Ok ()
       ∧ _fig self = Some fig ∧ _fig run.2 = Some fig'
       ∧ _axes self = Some axs ∧ _lines run.2 = Some ls
       ∧ state run.2 = Initialized ∧ same_setup self run.2 ∧ wf run.2
       ∧ mpl.facecolor fig' = Some (RendererConfig.bg_color (cfg self))
       ∧ length (mpl.lines fig') = length datas
       ∧ mpl.draws fig' = S (mpl.draws fig)
       ∧ ∀ i data, datas !! i = Some data →
           ∃ ax line ov,
             axs !! i = Some ax ∧ ls !! i = Some line
             ∧ _line_colors self !! i = Some ov
             ∧ mpl.lines fig' !! line
               = Some (mpl.mkLine ax (np.arange (Z.of_nat (length data))) data
                         (coalesce ov (RendererConfig.init_line_color (cfg self)))
                         (RendererConfig.line_width (cfg self)))
             ∧ mpl.xlim <$> mpl.axes fig' !! ax
               = Some (Some (0, Z.of_nat (length data) - 1))
             ∧ mpl.ylim <$> mpl.axes fig' !! ax = Some (Some (-1, 1))).
Proof.
  intros (fig & axs & Hfig & Haxs & Hn & Hnd & Hin & Hcol & Hlines)
         Hst%state_uninitialized run.
  rewrite Hst in Hlines. split.
  - intros Hne. subst run. rewrite render_frame_arity by done.
    split; [done|]. by eexists.
  - intros Hlen.
    destruct (first_frame_run B datas self fig axs)
      as (axes' & new_lines & Hrun & Hlen' & Hnew & Hper);
      try done; try lia.
    subst run. rewrite Hrun. cbn [fst snd].
    eexists fig, _, axs, _.
    split; [done|]. split; [done|]. split; [reflexivity|].
    split; [done|]. split; [reflexivity|]. split; [done|].
    split; [done|].
    split.
    { exists (mpl.drawn B (mpl.set_lines new_lines
                (mpl.set_axes axes'
                   (mpl.set_facecolor (RendererConfig.bg_color (cfg self)) fig)))), axs.
      cbn. repeat (split; [done|]).
      split; [intros ax Hax; rewrite Hlen'; by apply Hin|].
      split; [done|]. split; [f_equal|]; lia. }
    split; [done|]. split; [done|]. split; [done|].
    intros i data Hdata.
    destruct (Hper i data Hdata) as (ax & ov & Hax & Hov & Hline & Haxes).
    exists ax, i, ov. split; [done|].
    split. { apply lookup_seq. split; [done|]. by apply lookup_lt_Some in Hdata. }
    split; [done|]. split; [done|]. cbn. rewrite Haxes.
    assert (ax < length (mpl.axes fig))%nat as Hlt.
    { apply Hin. by eapply list_elem_of_lookup_2. }
    destruct (lookup_lt_is_Some_2 _ _ Hlt) as [a ->]. done.
Qed.

(** ** Later frames *)

Lemma updated_lines_lookup fig datas l x data :
  mpl.lines fig !! l = Some x → datas !! l = Some data →
  updated_lines fig datas !! l = Some (mpl.set_ydata data x).
Proof.
  intros Hx Hdata. unfold updated_lines.
  by rewrite lookup_zip_with, Hx, Hdata.
Qed.

Lemma updated_lines_length fig datas :
  length (mpl.lines fig) = length datas →
  length (updated_lines fig datas) = length (mpl.lines fig).
Proof. intros Hlen. unfold updated_lines. rewrite length_zip_with. lia. Qed.

(** Whether the updated lines can be drawn is decided by the x-data of the
    lines and the lengths of the new data. *)
Lemma updated_lines_drawable fig datas :
  forallb mpl.drawable (updated_lines fig datas) = frame_fits fig datas.
Proof.
  unfold updated_lines, frame_fits. generalize (mpl.lines fig). intros ls.
  revert datas. induction ls as [|x ls IH]; intros [|data datas]; try done.
  cbn. by rewrite IH.
Qed.

Lemma frame_fits_true fig datas :
  frame_fits fig datas = true
  ↔ ∀ i x data, mpl.lines fig !! i = Some x → datas !! i = Some data →
      length (mpl.xdata x) = length data
      ∨ length (mpl.xdata x) = 1%nat ∨ length data = 1%nat.
Proof.
  unfold frame_fits. rewrite forallb_forall. split.
  - intros Hall i x data Hx Hdata.
    assert (In (x, data) (zip (mpl.lines fig) datas)) as Hin.
    { apply list_elem_of_In. apply (list_elem_of_lookup_2 _ i).
      by apply lookup_zip_Some. }
    apply Hall in Hin. unfold mpl.broadcasts in Hin. cbn in Hin.
    apply orb_true_iff in Hin as [Hin|Hin];
      [apply orb_true_iff in Hin as [Hin|Hin]|];
      apply Nat.eqb_eq in Hin; auto.
  - intros Hall [x data] Hin.
    apply list_elem_of_In, list_elem_of_lookup_1 in Hin as [i Hi].
    apply lookup_zip_Some in Hi as [Hx Hd].
    unfold mpl.broadcasts. cbn.
    destruct (Hall i x data Hx Hd) as [H | [H | H]]; rewrite H;
      rewrite ?Nat.eqb_refl, ?orb_true_r; done.
Qed.

(** A frame that keeps the lengths of the artifacts' data can be drawn. *)
Lemma frame_fits_same_lengths fig datas :
  Forall2 (λ x data, length (mpl.xdata x) = length data) (mpl.lines fig) datas →
  frame_fits fig datas = true.
Proof.
  intros Hall. apply frame_fits_true. intros i x data Hx Hdata. left.
  by apply (Forall2_lookup_lr _ _ _ i x data) in Hall.
Qed.

Lemma later_outcome_cases fig datas :
  (frame_fits fig datas = true ∧ later_outcome fig datas = Ok ())
  ∨ (frame_fits fig datas = false
     ∧ later_outcome fig datas = Raise (ValueError LibraryShape)).
Proof. unfold later_outcome. destruct (frame_fits fig datas); auto. Qed.

Lemma draw_updated B fig datas :
  mpl.draw B (mpl.set_lines (updated_lines fig datas) fig)
  = (later_outcome fig datas, later_figure B fig datas).
Proof.
  unfold later_figure, later_outcome, mpl.draw. cbn [mpl.lines mpl.set_lines].
  rewrite updated_lines_drawable. by destruct (frame_fits fig datas).
Qed.

(** What a later frame leaves of the figure. *)
Lemma later_figure_frame B fig datas :
  mpl.axes (later_figure B fig datas) = mpl.axes fig
  ∧ mpl.lines (later_figure B fig datas) = updated_lines fig datas
  ∧ mpl.facecolor (later_figure B fig datas) = mpl.facecolor fig
  ∧ mpl.dpi (later_figure B fig datas) = mpl.dpi fig
  ∧ mpl.size_inches (later_figure B fig datas) = mpl.size_inches fig
  ∧ mpl.window_shown (later_figure B fig datas) = mpl.window_shown fig
  ∧ mpl.draws (later_figure B fig datas) = S (mpl.draws fig).
Proof.
  unfold later_figure, mpl.draw.
  by destruct (forallb _ _).
Qed.

Lemma later_figure_ok B fig datas :
  frame_fits fig datas = true →
  later_figure B fig datas
  = mpl.drawn B (mpl.set_lines (updated_lines fig datas) fig).
Proof.
  intros Hfits. unfold later_figure, mpl.draw. cbn [mpl.lines mpl.set_lines].
  by rewrite updated_lines_drawable, Hfits.
Qed.

Lemma later_figure_canvas B fig datas :
  mpl.is_agg (mpl.canvas (later_figure B fig datas)) = mpl.is_agg (mpl.canvas fig)
  ∧ mpl.width_height (mpl.canvas (later_figure B fig datas))
    = mpl.width_height (mpl.canvas fig)
  ∧ ∃ f, mpl.rgb (mpl.canvas (later_figure B fig datas)) = Some (mpl.rasterize B f)
         ∨ mpl.rgb (mpl.canvas (later_figure B fig datas)) = Some (mpl.aborted B f).
Proof.
  unfold later_figure, mpl.draw.
  destruct (forallb _ _); cbn; (split; [done|split; [done|]]); eauto.
Qed.

(** The later-frame branch of [render_frame], on a renderer whose artifact
    handles are [0 .. n-1] in channel order. *)
Lemma later_frame_run B datas self fig :
  _fig self = Some fig →
  _lines self = Some (seq 0 (length (mpl.lines fig))) →
  Z.of_nat (length datas) = nplots self →
  length (mpl.lines fig) = length datas →
  render_frame B datas self
  = (later_outcome fig datas, set_fig (Some (later_figure B fig datas)) self).
Proof.
  intros Hfig Hls Hlen Hlines.
  destruct (update_loop datas 0 self fig (seq 0 (length (mpl.lines fig))))
    as (lines' & Hrun & Hlen' & Hattr & Hy & _); try done.
  { rewrite length_seq. cbn. lia. }
  assert (lines' = updated_lines fig datas) as ->.
  { apply list_eq. intros l.
    destruct (decide (l < length (mpl.lines fig))%nat) as [Hl|Hl].
    - destruct (lookup_lt_is_Some_2 (mpl.lines fig) l Hl) as [x Hx].
      destruct (lookup_lt_is_Some_2 datas l ltac:(lia)) as [data Hdata].
      rewrite (updated_lines_lookup fig datas l x data) by done.
      destruct (Hattr l x Hx) as [y Hy'].
      specialize (Hy (NoDup_seq _ _) l data l Hdata
                     ltac:(by rewrite lookup_seq_lt) Hl).
      rewrite Hy' in Hy |- *. cbn in Hy. by injection Hy as ->.
    - rewrite !lookup_ge_None_2; [done|..].
      + rewrite updated_lines_length by done. lia.
      + lia. }
  unfold render_frame, mbind at 1, M_bind at 1, get at 1.
  rewrite bool_decide_false by (intros ?; congruence).
  rewrite bool_decide_false by (by rewrite Hls).
  unfold mbind, M_bind. rewrite Hrun. unfold fig_try.
  cbn [_fig set_fig]. by rewrite draw_updated.
Qed.

Lemma later_frame_wf B self fig datas :
  wf self → _fig self = Some fig → is_Some (_lines self) →
  Z.of_nat (length datas) = nplots self →
  wf (set_fig (Some (later_figure B fig datas)) self).
Proof.
  intros (fig0 & axs & Hfig0 & Haxs & Hn & Hnd & Hin & Hcol & Hlines) Hfig [ls Hls] Hlen.
  assert (fig0 = fig) as -> by congruence.
  rewrite Hls in Hlines. destruct Hlines as [-> Hl].
  destruct (later_figure_frame B fig datas) as (Hax & Hli & _).
  eexists _, axs. cbn. rewrite Hls, Hax, Hli.
  split; [done|]. split; [done|]. split; [done|]. split; [done|].
  split; [done|]. split; [done|]. split; [done|].
  rewrite updated_lines_length; lia.
Qed.

(** On a well-formed renderer that has rendered, a frame with one data
    sequence per channel runs the later-frame branch. *)
Lemma later_frame_run_wf B datas self fig :
  wf self → state self = Initialized → _fig self = Some fig →
  Z.of_nat (length datas) = nplots self →
  render_frame B datas self
  = (later_outcome fig datas, set_fig (Some (later_figure B fig datas)) self)
  ∧ length (mpl.lines fig) = length datas
  ∧ _lines self = Some (seq 0 (length datas)).
Proof.
  intros (fig0 & axs & Hfig0 & Haxs & Hn & Hnd & Hin & Hcol & Hlines)
         [ls Hls]%state_initialized Hfig Hlen.
  assert (fig0 = fig) as -> by congruence.
  rewrite Hls in Hlines. destruct Hlines as [-> Hl].
  assert (length (mpl.lines fig) = length datas) as Hld by lia.
  split; [|split; [done|]].
  - apply later_frame_run; try done. by rewrite Hls, Hl.
  - rewrite Hls. do 2 f_equal. lia.
Qed.



(** ** Construction establishes the invariant *)

Lemma forM_fig_do (op : nat → mpl.Figure → mpl.Figure) (l : list nat) :
  ∀ self fig, _fig self = Some fig →
  ∃ units, forM (λ ax, fig_do (op ax)) l self
           = (Ok units, set_fig (Some (foldl (λ f ax, op ax f) fig l)) self).
Proof.
  induction l as [|ax l IH]; intros self fig Hfig.
  - exists []. cbn. f_equal. destruct self; cbn in *. by subst.
  - rewrite forM_cons. unfold fig_do at 1. rewrite Hfig.
    destruct (IH (set_fig (Some (op ax fig)) self) (op ax fig) eq_refl) as [units ->].
    by eexists.
Qed.

Lemma foldl_axis_off_length (l : list nat) (fig : mpl.Figure) :
  length (mpl.axes (foldl (λ f ax, mpl.on_axes ax mpl.set_axis_off f) fig l))
  = length (mpl.axes fig).
Proof.
  revert fig. induction l as [|ax l IH]; intros fig; [done|].
  cbn. rewrite IH. cbn. by rewrite length_alter.
Qed.

Lemma foldl_axis_off_lines (l : list nat) (fig : mpl.Figure) :
  mpl.lines (foldl (λ f ax, mpl.on_axes ax mpl.set_axis_off f) fig l)
  = mpl.lines fig.
Proof.
  revert fig. induction l as [|ax l IH]; intros fig; [done|].
  cbn. by rewrite IH.
Qed.

Lemma row_major_cells_elem r c cell :
  0 ≤ r → 0 ≤ c →
  cell ∈ row_major_cells r c → 0 ≤ cell.1 < r ∧ 0 ≤ cell.2 < c.
Proof.
  unfold row_major_cells. intros Hr Hc (i & -> & Hi)%list_elem_of_fmap.
  apply elem_of_seqZ in Hi. cbn.
  assert (0 < c) by nia.
  pose proof (Z.mod_pos_bound i c ltac:(done)).
  pose proof (Z.div_pos i c ltac:(lia) ltac:(done)).
  assert (i `div` c < r) by (apply Z.div_lt_upper_bound; lia). lia.
Qed.

(** Looking up a grid cell in the array of handles returned by
    [plt.subplots]. *)
Lemma getitem_handles (L : RendererLayout.t) (cell : Z * Z) :
  let r := Z.to_nat (RendererLayout.nrows L) in
  let c := Z.to_nat (RendererLayout.ncols L) in
  0 ≤ cell.1 < RendererLayout.nrows L → 0 ≤ cell.2 < RendererLayout.ncols L →
  np.getitem (np.mk (r, c) (c, 1%nat) (seq 0 (r * c))) cell.1 cell.2
  = Ok (cell_index L cell)
  ∧ (cell_index L cell < r * c)%nat.
Proof.
  intros r c Hrow Hcol. unfold np.getitem, cell_index. cbn [np.shape np.strides np.buffer fst snd].
  assert (Z.to_nat cell.1 * c + Z.to_nat cell.2 * 1
          = Z.to_nat (cell.1 * RendererLayout.ncols L + cell.2))%nat as -> by (subst c; nia).
  assert (Z.to_nat (cell.1 * RendererLayout.ncols L + cell.2) < r * c)%nat
    by (subst r c; nia).
  split; [|done].
  destruct (Z.leb_spec 0 cell.1); [|lia].
  destruct (Z.ltb_spec cell.1 (Z.of_nat r)); [|lia].
  destruct (Z.leb_spec 0 cell.2); [|lia].
  destruct (Z.ltb_spec cell.2 (Z.of_nat c)); [|lia].
  cbn. by rewrite lookup_seq_lt.
Qed.

Lemma cell_index_assigned_inj (L : RendererLayout.t) (i j : Z) :
  0 ≤ RendererLayout.nrows L → 0 ≤ RendererLayout.ncols L →
  0 ≤ i < RendererLayout.nrows L * RendererLayout.ncols L →
  0 ≤ j < RendererLayout.nrows L * RendererLayout.ncols L →
  cell_index L (assigned_cell L i) = cell_index L (assigned_cell L j) → i = j.
Proof.
  intros Hr Hc Hi Hj.
  pose proof (assigned_cell_in_grid L i Hi Hr Hc) as Hci.
  pose proof (assigned_cell_in_grid L j Hj Hr Hc) as Hcj.
  cbv zeta in Hci, Hcj. unfold cell_index. intros Heq%Z2Nat.inj; [|nia..].
  revert Hci Hcj Heq. unfold assigned_cell.
  set (r := RendererLayout.nrows L) in *. set (c := RendererLayout.ncols L) in *.
  assert (r ≠ 0 ∧ c ≠ 0) as [? ?] by nia.
  case_bool_decide; cbn; intros Hci Hcj Heq.
  - pose proof (Z.div_mod i r ltac:(done)). pose proof (Z.div_mod j r ltac:(done)).
    assert (i `mod` r = j `mod` r) by nia. nia.
  - pose proof (Z.div_mod i c ltac:(done)). pose proof (Z.div_mod j c ltac:(done)).
    lia.
Qed.

Lemma arrange_handles {S} (L : RendererLayout.t) (s : S) :
  let r := Z.to_nat (RendererLayout.nrows L) in
  let c := Z.to_nat (RendererLayout.ncols L) in
  let axes2d := np.mk (r, c) (c, 1%nat) (seq 0 (r * c)) in
  0 ≤ RendererLayout.nrows L → 0 ≤ RendererLayout.ncols L →
  0 ≤ RendererLayout.nplots L
    ≤ RendererLayout.nrows L * RendererLayout.ncols L →
  ∃ axs,
    RendererLayout.arrange L (λ row col, lift (np.getitem axes2d row col)) s
    = (Ok axs, s)
    ∧ Z.of_nat (length axs) = RendererLayout.nplots L
    ∧ NoDup axs
    ∧ (∀ ax, ax ∈ axs → (ax < r * c)%nat)
    ∧ (∀ i, 0 ≤ i < RendererLayout.nplots L →
            axs !! Z.to_nat i = Some (cell_index L (assigned_cell L i))).
Proof.
  intros r c axes2d Hr Hc Hn.
  destruct (arrange_result L (λ row col, lift (np.getitem axes2d row col)) s s
              (cell_index L <$> row_major_cells (RendererLayout.nrows L)
                                                 (RendererLayout.ncols L)) Hr Hc)
    as (axs & Hrun & Hlen & Hlook).
  { apply forM_pure. intros cell [Hrow Hcol]%row_major_cells_elem; [|done..].
    unfold lift. destruct (getitem_handles L cell Hrow Hcol) as [Hg _].
    cbv zeta in Hg. subst axes2d r c. by rewrite Hg. }
  assert (Hat : ∀ i, 0 ≤ i < RendererLayout.nplots L →
            axs !! Z.to_nat i = Some (cell_index L (assigned_cell L i))).
  { intros i Hi. rewrite Hlook by lia. rewrite list_lookup_fmap.
    pose proof (assigned_cell_in_grid L i ltac:(lia) Hr Hc) as Hcell.
    cbv zeta in Hcell. destruct (assigned_cell L i) as [row col].
    assert (row_major_cells (RendererLayout.nrows L) (RendererLayout.ncols L)
              !! cell_index L (row, col) = Some (row, col)) as ->
      by (unfold cell_index; apply row_major_cells_at; apply Hcell).
    done. }
  assert (Hlen' : Z.of_nat (length axs) = RendererLayout.nplots L) by lia.
  exists axs. split; [done|]. split; [done|]. split; [|split; [|done]].
  - apply NoDup_alt. intros i j ax Hi Hj.
    pose proof (lookup_lt_Some _ _ _ Hi). pose proof (lookup_lt_Some _ _ _ Hj).
    rewrite <- (Nat2Z.id i), Hat in Hi by lia.
    rewrite <- (Nat2Z.id j), Hat in Hj by lia.
    assert (Z.of_nat i = Z.of_nat j); [|lia].
    apply (cell_index_assigned_inj L); try lia. congruence.
  - intros ax (i & Hi)%list_elem_of_lookup_1.
    pose proof (lookup_lt_Some _ _ _ Hi).
    rewrite <- (Nat2Z.id i), Hat in Hi by lia. injection Hi as <-.
    pose proof (assigned_cell_in_grid L (Z.of_nat i) ltac:(lia) Hr Hc) as [? ?].
    by apply getitem_handles.
Qed.

Lemma set_layout_run B self0 :
  let L := layout self0 in
  _fig self0 = None →
  0 < RendererLayout.nrows L → 0 < RendererLayout.ncols L →
  0 ≤ RendererLayout.nplots L
    ≤ RendererLayout.nrows L * RendererLayout.ncols L →
  ∃ fig axs,
    _set_layout B self0 = (Ok (), set_axes (Some axs) (set_fig (Some fig) self0))
    ∧ length (mpl.axes fig)
      = (Z.to_nat (RendererLayout.nrows L) * Z.to_nat (RendererLayout.ncols L))%nat
    ∧ mpl.lines fig = []
    ∧ mpl.canvas fig = mpl.new_canvas B
    ∧ Z.of_nat (length axs) = RendererLayout.nplots L
    ∧ NoDup axs
    ∧ (∀ ax, ax ∈ axs → (ax < length (mpl.axes fig))%nat)
    ∧ (∀ i, 0 ≤ i < RendererLayout.nplots L →
            axs !! Z.to_nat i = Some (cell_index L (assigned_cell L i))).
Proof.
  intros L Hnofig Hr0 Hc0 Hn.
  assert (Hr : 0 ≤ RendererLayout.nrows L) by lia.
  assert (Hc : 0 ≤ RendererLayout.ncols L) by lia.
  unfold _set_layout, mbind at 1, M_bind at 1, get at 1.
  rewrite Hnofig. rewrite bool_decide_false by (by intros [? ?]).
  unfold mpl.subplots. fold L.
  destruct (Z.leb_spec (RendererLayout.nrows L) 0); [lia|].
  destruct (Z.leb_spec (RendererLayout.ncols L) 0); [lia|].
  cbn [orb].
  set (r := Z.to_nat (RendererLayout.nrows L)).
  set (c := Z.to_nat (RendererLayout.ncols L)).
  set (fig0 := mpl.mkFigure _ _ _ _ _ _ _ _).
  set (axes2d := np.mk _ _ _).
  unfold mbind at 1, M_bind at 1, lift at 1.
  unfold mbind at 1, M_bind at 1, modify at 1.
  unfold mbind at 1, M_bind at 1.
  destruct (forM_fig_do (λ ax, mpl.on_axes ax mpl.set_axis_off)
              (np.flatten axes2d) (set_fig (Some fig0) self0) fig0 eq_refl)
    as [units ->].
  set (fig1 := foldl _ fig0 _).
  unfold mbind at 1, M_bind at 1.
  destruct (arrange_handles L (set_fig (Some fig1) (set_fig (Some fig0) self0)) Hr Hc Hn)
    as (axs & Harr & Hlen & Hnd & Hin & Hat).
  fold r c axes2d in Harr. rewrite Harr.
  assert (Hlen1 : length (mpl.axes fig1) = (r * c)%nat).
  { subst fig1. rewrite foldl_axis_off_length. subst fig0. cbn.
    by rewrite length_replicate. }
  assert (Hlines1 : mpl.lines fig1 = []).
  { subst fig1. by rewrite foldl_axis_off_lines. }
  assert (Hcanvas1 : mpl.canvas fig1 = mpl.new_canvas B).
  { subst fig1. generalize (np.flatten axes2d). intros l.
    assert (∀ f, mpl.canvas (foldl (λ f ax, mpl.on_axes ax mpl.set_axis_off f) f l)
                 = mpl.canvas f) as ->; [|done].
    induction l as [|ax l IH]; intros f; [done|]. cbn. by rewrite IH. }
  clearbody fig1. clear Harr.
  unfold mbind, M_bind, modify, fig_do. cbn.
  destruct (RendererConfig.create_window (cfg self0)); cbn;
    eexists _, axs; (split; [reflexivity|]); cbn;
    rewrite Hlen1, Hlines1, Hcanvas1; by repeat split.
Qed.

Lemma init_run B cfg0 lcfg n L :
  RendererLayout.__init__ lcfg n = Ok L →
  0 < RendererLayout.nrows L → 0 < RendererLayout.ncols L →
  0 ≤ n ≤ RendererLayout.nrows L * RendererLayout.ncols L →
  ∃ self, __init__ B cfg0 lcfg n = Ok self
    ∧ wf self ∧ state self = Uninitialized
    ∧ cfg self = cfg0 ∧ nplots self = n ∧ layout self = L
    ∧ _line_colors self = replicate (Z.to_nat n) None
    ∧ (∃ fig, _fig self = Some fig ∧ mpl.canvas fig = mpl.new_canvas B)
    ∧ (∃ axs, _axes self = Some axs
         ∧ ∀ i, 0 ≤ i < n →
                axs !! Z.to_nat i = Some (cell_index L (assigned_cell L i))).
Proof.
  intros HL Hr Hc Hn. unfold __init__. rewrite HL. cbn.
  pose proof (layout_init_dims _ _ _ HL) as (_ & Hnp & _).
  set (self0 := mk cfg0 n L None None None (replicate (Z.to_nat n) None)).
  destruct (set_layout_run B self0 eq_refl Hr Hc ltac:(cbn; lia))
    as (fig & axs & -> & Hlen & Hlines & Hcanvas & Haxs & Hnd & Hin & Hat).
  cbn in Haxs, Hat. rewrite Hnp in Haxs, Hat.
  eexists. split; [reflexivity|]. cbn.
  split.
  { exists fig, axs. cbn. repeat (split; [done|]).
    split; [|done]. rewrite length_replicate. lia. }
  repeat (split; [done|]).
  split; [by exists fig|]. by exists axs.
Qed.


(** A configuration that passes validation yields, for at least one
    channel, a well-formed, uninitialised renderer. *)
Lemma construct_renderer_wf B cfg0 r c o n :
  1 ≤ n → count_nonneg r → count_nonneg c →
  (truthy r && truthy c) = false → o ∈ RendererLayout.VALID_ORIENTATIONS →
  ∃ self, construct_renderer B cfg0 r c o n = Ok self
    ∧ wf self ∧ state self = Uninitialized
    ∧ cfg self = cfg0 ∧ nplots self = n
    ∧ _line_colors self = replicate (Z.to_nat n) None
    ∧ (∃ fig, _fig self = Some fig ∧ mpl.canvas fig = mpl.new_canvas B).
Proof.
  intros Hn Hr Hc Hrc Ho.
  destruct (construct_layout_grid r c o n ltac:(lia) Hr Hc Hrc Ho)
    as (L & HL & _ & _ & Hcover & _ & _ & Hpos & _).
  destruct (Hpos Hn) as [Hrows Hcols].
  unfold construct_layout in HL. unfold construct_renderer.
  destruct (LayoutConfig.new r c o) as [lcfg|e]; [|done]. cbn in HL |- *.
  destruct (init_run B cfg0 lcfg n L HL Hrows Hcols ltac:(lia))
    as (self & Hinit & Hwf & Hst & Hcfg & Hnp & _ & Hcol & Hfig & _).
  by exists self.
Qed.

(** ** Colour overrides *)

(** C7 (amended).  [set_colors] raises an ArityMismatch when the list length
    differs from the channel count; otherwise it raises a LifecycleViolation
    once a frame has been rendered; otherwise it stores the overrides.  In
    every case the figure, the regions and the artifacts are left alone.
    Nothing limits the number of successful calls before the first frame. *)
Theorem set_colors_spec (self : MatplotlibRenderer.t)
    (channel_cfgs : list ChannelConfig.t) :
  let run := MatplotlibRenderer.set_colors channel_cfgs self in
  (Z.of_nat (length channel_cfgs) ≠ MatplotlibRenderer.nplots self →
   run = (Raise (ValueError ColorsArity), self)
   ∧ raises_kind run.1 ArityMismatch)
  ∧ (Z.of_nat (length channel_cfgs) = MatplotlibRenderer.nplots self →
     MatplotlibRenderer.state self = MatplotlibRenderer.Initialized →
     run = (Raise (ValueError ColorsAfterRender), self)
     ∧ raises_kind run.1 LifecycleViolation)
  ∧ (Z.of_nat (length channel_cfgs) = MatplotlibRenderer.nplots self →
     MatplotlibRenderer.state self = MatplotlibRenderer.Uninitialized →
     run = (Ok (), MatplotlibRenderer.set_line_colors
                     (ChannelConfig.line_color <$> channel_cfgs) self))
  ∧ MatplotlibRenderer._fig run.2 = MatplotlibRenderer._fig self
  ∧ MatplotlibRenderer._axes run.2 = MatplotlibRenderer._axes self
  ∧ MatplotlibRenderer._lines run.2 = MatplotlibRenderer._lines self
  ∧ (is_ok run.1 = true →
     MatplotlibRenderer._line_colors run.2 = ChannelConfig.line_color <$> channel_cfgs
     ∧ MatplotlibRenderer.state run.2 = MatplotlibRenderer.Uninitialized).
Proof.
  unfold MatplotlibRenderer.set_colors, MatplotlibRenderer.state.
  cbn. unfold mbind, M_bind, get. cbn.
  case_bool_decide as Hlen; cbn.
  - repeat split; try done.
    by eexists.
  - destruct (MatplotlibRenderer._lines self) as [ls|] eqn:Hls; cbn.
    + repeat split; try done. by eexists.
    + rewrite ?Hls. repeat split; done.
Qed.

(** C7, as stated, fails on "at most once": two calls before the first
    frame both succeed, and the second replaces what the first stored. *)
Lemma set_colors_twice :
  ∃ self self1 self2,
    renderer_64x32 = Ok self
    ∧ MatplotlibRenderer.set_colors
        [override "red"; override "red"; override "red"] self = (Ok (), self1)
    ∧ MatplotlibRenderer.set_colors
        [override "green"; override "green"; override "green"] self1 = (Ok (), self2)
    ∧ MatplotlibRenderer._line_colors self2
      = [Some (NamedColor "green"); Some (NamedColor "green"); Some (NamedColor "green")]
    ∧ MatplotlibRenderer.state self2 = MatplotlibRenderer.Uninitialized.
Proof.
  do 3 eexists. split; [vm_compute; reflexivity|].
  split; [vm_compute; reflexivity|].
  split; [vm_compute; reflexivity|].
  split; reflexivity.
Qed.

(** ** The two kinds of frame on a sample renderer *)

Lemma first_frame_wf B datas self :
  wf self → state self = Uninitialized →
  Z.of_nat (length datas) = nplots self →
  ∃ self', render_frame B datas self = (Ok (), self')
           ∧ wf self' ∧ state self' = Initialized ∧ same_setup self self'.
Proof.
  intros (fig & axs & Hfig & Haxs & Hn & Hnd & Hin & Hcol & Hlines)
         Hst%state_uninitialized Hlen.
  rewrite Hst in Hlines.
  destruct (first_frame_run B datas self fig axs)
    as (axes' & new_lines & Hrun & Hlen' & Hnew & _); try done; try lia.
  eexists. split; [exact Hrun|]. split; [|done].
  eexists _, axs. cbn.
  split; [done|]. split; [done|]. split; [done|]. split; [done|].
  split; [intros ax Hax; cbn; rewrite Hlen'; by apply Hin|].
  split; [done|]. cbn. split; [f_equal|]; lia.
Qed.


(** ** Further instances *)

Lemma set_colors_wf channel_cfgs self self' :
  wf self → set_colors channel_cfgs self = (Ok (), self') →
  wf self' ∧ state self' = Uninitialized
  ∧ _line_colors self' = ChannelConfig.line_color <$> channel_cfgs.
Proof.
  intros (fig & axs & Hfig & Haxs & Hn & Hnd & Hin & Hcol & Hlines).
  unfold set_colors, mbind, M_bind, get, modify, raise.
  case_bool_decide as Hlen; [done|].
  case_bool_decide as Hls; [done|].
  intros [= <-]. cbn.
  assert (_lines self = None) as Hnone.
  { destruct (_lines self); [|done]. exfalso. apply Hls. eauto. }
  split; [|split; [by apply state_uninitialized|done]].
  exists fig, axs. cbn. rewrite Hnone in Hlines |- *.
  repeat (split; [done|]). split; [|done].
  rewrite length_fmap. lia.
Qed.

Lemma set_colors_after_first_frame :
  ∃ self0 self1,
    renderer_64x32 = Ok self0
    ∧ render_frame (agg_backend 64 32) frame_a self0 = (Ok (), self1)
    ∧ set_colors [override "red"; override "red"; override "red"] self1
      = (Raise (ValueError ColorsAfterRender), self1)
    ∧ set_colors [override "red"] self0 = (Raise (ValueError ColorsArity), self0).
Proof.
  eexists _, _. split; [vm_compute; reflexivity|].
  split; [vm_compute; reflexivity|].
  split.
  - match goal with |- set_colors ?cs ?s = _ =>
      destruct (set_colors_spec s cs) as (_ & Hlife & _) end.
    apply Hlife; reflexivity.
  - match goal with |- set_colors ?cs ?s = _ =>
      destruct (set_colors_spec s cs) as (Harity & _) end.
    apply Harity. vm_compute. discriminate.
Defined.

Lemma both_counts_rejected :
  raises_kind (construct_layout (Some 2) (Some 3) "h" 5) InvalidConfig
  ∧ raises_kind (construct_layout (Some 2) None "diagonal" 5) InvalidConfig
  ∧ is_ok (construct_layout None None "v" 5) = true.
Proof.
  split; [|split].
  - apply (construction_invalid_config (Some 2) (Some 3) "h" 5).
    left. split; reflexivity.
  - apply (construction_invalid_config (Some 2) None "diagonal" 5).
    right. vm_compute. intros H. inversion H as [|? ? ? H1]; subst.
    inversion H1 as [|? ? ? H2]; subst. inversion H2.
  - apply (construction_invalid_config None None "v" 5).
    intros [[H _]|H]; [discriminate H|]. apply H. right. left.
Defined.

Lemma first_frame_with_overrides :
  ∃ self0 self,
    renderer_64x32 = Ok self0
    ∧ set_colors [override "red"; ChannelConfig.mk None; override "green"] self0
      = (Ok (), self)
    ∧ wf self ∧ state self = Uninitialized
    ∧ (render_frame (agg_backend 64 32) frame_a self).1 = Ok ()
    ∧ state (render_frame (agg_backend 64 32) frame_a self).2 = Initialized
    ∧ ∃ fig',
        _fig (render_frame (agg_backend 64 32) frame_a self).2 = Some fig'
        ∧ length (mpl.lines fig') = 3%nat
        ∧ mpl.line_color <$> mpl.lines fig'
          = [NamedColor "red"; NamedColor "blue"; NamedColor "green"]
        ∧ mpl.xlim <$> mpl.axes fig' = [Some (0, 2); Some (0, 2); Some (0, 2)]
        ∧ mpl.ylim <$> mpl.axes fig' = [Some (-1, 1); Some (-1, 1); Some (-1, 1)].
Proof.
  destruct (construct_renderer_wf (agg_backend 64 32) (sample_config 64 32)
              (Some 1) None "h" 3) as (s0 & H0 & Hwf0 & _);
    [lia | by intros z [= <-] | by intros z [=] | reflexivity | by left |].
  exists s0.
  destruct (set_colors [override "red"; ChannelConfig.mk None; override "green"] s0)
    as [[[]|e] self] eqn:Hset.
  2: { exfalso. revert Hset. fold renderer_64x32 in H0.
       assert (∃ s, renderer_64x32 = Ok s
                 ∧ (set_colors [override "red"; ChannelConfig.mk None; override "green"] s).1
                   = Ok ()) as (s & Hs & Hok)
         by (eexists; split; vm_compute; reflexivity).
       assert (s = s0) as -> by congruence.
       intros Hset. rewrite Hset in Hok. discriminate Hok. }
  exists self. split; [exact H0|]. split; [reflexivity|].
  destruct (set_colors_wf _ _ _ Hwf0 Hset) as (Hwf & Hst & _).
  split; [exact Hwf|]. split; [exact Hst|].
  destruct (first_render_frame (agg_backend 64 32) self frame_a Hwf Hst) as [_ Hok].
  assert (Hconcrete : ∃ s s' f,
            renderer_64x32 = Ok s
            ∧ set_colors [override "red"; ChannelConfig.mk None; override "green"] s
              = (Ok (), s')
            ∧ nplots s' = 3
            ∧ _fig (render_frame (agg_backend 64 32) frame_a s').2 = Some f
            ∧ mpl.line_color <$> mpl.lines f
              = [NamedColor "red"; NamedColor "blue"; NamedColor "green"]
            ∧ mpl.xlim <$> mpl.axes f = [Some (0, 2); Some (0, 2); Some (0, 2)]
            ∧ mpl.ylim <$> mpl.axes f = [Some (-1, 1); Some (-1, 1); Some (-1, 1)]).
  { eexists _, _, _. split; [vm_compute; reflexivity|].
    split; [vm_compute; reflexivity|]. split; [reflexivity|].
    split; [vm_compute; reflexivity|]. repeat split; vm_compute; reflexivity. }
  destruct Hconcrete as (s & s' & f & Hs & Hs' & Hn & Hf & Hcolors & Hxlim & Hylim).
  fold renderer_64x32 in H0.
  assert (s = s0) as -> by congruence.
  assert (s' = self) as -> by congruence.
  destruct (Hok ltac:(by rewrite Hn))
    as (fig & fig' & axs & ls & Hrun & _ & Hfig' & _ & _ & Hst' & _ & _ & _ & Hnl & _).
  split; [exact Hrun|]. split; [exact Hst'|].
  exists fig'. split; [exact Hfig'|]. split; [exact Hnl|].
  assert (f = fig') as -> by congruence.
  split; [exact Hcolors|]. split; [exact Hxlim | exact Hylim].
Defined.

(** * Further properties of the layout code *)

(** X1.  Normalisation is idempotent: running [__post_init__] again on a
    configuration it produced gives that configuration back. *)
Theorem post_init_idempotent (raw cfg : LayoutConfig.t) :
  LayoutConfig.__post_init__ raw = Ok cfg →
  LayoutConfig.__post_init__ cfg = Ok cfg.
Proof.
  destruct raw as [r c o].
  destruct r as [[|p|p]|], c as [[|q|q]|]; cbn;
    intros H; try discriminate H; by injection H as <-.
Qed.

Lemma post_init_idempotent_zero_rows :
  LayoutConfig.__post_init__ (LayoutConfig.mk (Some 0) (Some 4) "v")
  = Ok (LayoutConfig.mk None (Some 4) "v")
  ∧ LayoutConfig.__post_init__ (LayoutConfig.mk None (Some 4) "v")
    = Ok (LayoutConfig.mk None (Some 4) "v").
Proof.
  assert (H : LayoutConfig.__post_init__ (LayoutConfig.mk (Some 0) (Some 4) "v")
              = Ok (LayoutConfig.mk None (Some 4) "v")) by reflexivity.
  split; [exact H|]. exact (post_init_idempotent _ _ H).
Defined.

(** X2.  Outcome of [_calc_layout] on any configuration, normalised or
    not (the fields of a configuration can be assigned after construction):
    the 'rows_first is True and nrows is None' error is never raised; the
    'ncols is None' error is raised exactly when [nrows] is falsy and [ncols]
    is [None]; a zero [ncols] with a falsy [nrows] divides by zero; every
    other configuration gives a grid. *)
Theorem calc_layout_outcomes (cfg : LayoutConfig.t) (nplots : Z) :
  let run := RendererLayout._calc_layout cfg nplots in
  run ≠ Raise (ValueError RowsFirstNoRows)
  ∧ (run = Raise (ValueError ColsFirstNoCols)
     ↔ truthy (LayoutConfig.nrows cfg) = false ∧ LayoutConfig.ncols cfg = None)
  ∧ (run = Raise ZeroDivisionError
     ↔ truthy (LayoutConfig.nrows cfg) = false ∧ LayoutConfig.ncols cfg = Some 0)
  ∧ (is_ok run = true
     ↔ truthy (LayoutConfig.nrows cfg) = true
       ∨ ∃ c, c ≠ 0 ∧ LayoutConfig.ncols cfg = Some c)
  ∧ (∀ e, run = Raise e →
       e = ValueError ColsFirstNoCols ∨ e = ZeroDivisionError).
Proof.
  destruct cfg as [r c o]. unfold RendererLayout._calc_layout. cbn.
  destruct r as [[|p|p]|], c as [[|q|q]|]; cbn;
    (split; [discriminate|]);
    (split; [split; [try discriminate; (intros _; split; reflexivity)
                    | intros [H1 H2]; try discriminate H1; try discriminate H2; reflexivity]|]);
    (split; [split; [try discriminate; (intros _; split; reflexivity)
                    | intros [H1 H2]; try discriminate H1; try discriminate H2; reflexivity]|]);
    (split; [split; [try discriminate; intros _;
                       first [left; reflexivity | right; eexists; split; [|reflexivity]; discriminate]
                    | intros [H|(z & Hz & H)]; try discriminate H; try reflexivity;
                      injection H as <-; contradiction]|]);
    intros e H; try discriminate H; injection H as <-; auto.
Qed.

(** X3.  Nothing checks the sign of an axis count: a negative row count
    passes validation and becomes [nrows]; the derived [ncols] is then at most
    zero and the grid has at most [nplots] cells instead of at least that
    many.  The same holds for a negative column count. *)
Theorem negative_count_accepted (k nplots : Z) (o : string) :
  k < 0 → 0 ≤ nplots → o ∈ RendererLayout.VALID_ORIENTATIONS →
  (∃ L, construct_layout (Some k) None o nplots = Ok L
        ∧ RendererLayout.nrows L = k ∧ RendererLayout.ncols L ≤ 0
        ∧ RendererLayout.nrows L * RendererLayout.ncols L ≤ nplots
        ∧ (nplots `mod` k ≠ 0 →
           RendererLayout.nrows L * RendererLayout.ncols L < nplots))
  ∧ (∃ L, construct_layout None (Some k) o nplots = Ok L
          ∧ RendererLayout.ncols L = k ∧ RendererLayout.nrows L ≤ 0
          ∧ RendererLayout.nrows L * RendererLayout.ncols L ≤ nplots
          ∧ (nplots `mod` k ≠ 0 →
             RendererLayout.nrows L * RendererLayout.ncols L < nplots)).
Proof.
  intros Hk Hn Ho.
  assert (Harith : let q := - ((- nplots) `div` k) in
            q ≤ 0 ∧ k * q ≤ nplots ∧ (nplots `mod` k ≠ 0 → k * q < nplots)).
  { cbn zeta.
    assert ((- nplots) `div` k = nplots `div` (- k)) as ->.
    { rewrite <- (Z.opp_involutive k) at 1. apply Z.div_opp_opp. lia. }
    pose proof (Z.div_mod nplots (- k) ltac:(lia)) as Hdm.
    pose proof (Z.mod_pos_bound nplots (- k) ltac:(lia)) as Hb.
    split; [|split].
    - pose proof (Z.div_pos nplots (- k) Hn ltac:(lia)). lia.
    - nia.
    - intros Hmod.
      assert (nplots `mod` (- k) ≠ 0).
      { intros H0. apply Hmod. apply Z.mod_divide; [lia|].
        apply Z.mod_divide in H0; [|lia].
        destruct H0 as [z Hz]. exists (- z). lia. }
      nia. }
  cbn zeta in Harith. destruct Harith as (Hq & Hcover & Hstrict).
  destruct k as [|p|p]; try lia.
  unfold construct_layout, LayoutConfig.new. cbn.
  unfold RendererLayout.__init__, RendererLayout._calc_layout. cbn.
  rewrite bool_decide_true by done.
  split; eexists; (split; [reflexivity|]); cbn; repeat split; try done; lia.
Qed.

Lemma negative_three_rows :
  ∃ L, construct_layout (Some (-3)) None "h" 7 = Ok L
       ∧ RendererLayout.nrows L = -3 ∧ RendererLayout.ncols L = -2
       ∧ RendererLayout.nrows L * RendererLayout.ncols L < 7.
Proof.
  assert (Hk : -3 < 0) by lia. assert (Hn : 0 ≤ 7) by lia.
  assert (Ho : "h"%string ∈ RendererLayout.VALID_ORIENTATIONS) by (by left).
  destruct (negative_count_accepted (-3) 7 "h" Hk Hn Ho)
    as [(L & HL & Hr & _ & _ & Hlt) _].
  exists L. split; [exact HL|]. split; [exact Hr|].
  split.
  - assert (E : construct_layout (Some (-3)) None "h" 7
                = Ok (RendererLayout.mk (LayoutConfig.mk (Some (-3)) None "h") 7 (-3) (-2) "h"))
      by reflexivity.
    rewrite E in HL. injection HL as <-. reflexivity.
  - apply Hlt. vm_compute. discriminate.
Defined.

(** * Further properties of [arrange] *)

Lemma arrange_cells (L : RendererLayout.t) :
  0 ≤ RendererLayout.nrows L → 0 ≤ RendererLayout.ncols L →
  0 ≤ RendererLayout.nplots L →
  ∃ out, RendererLayout.arrange L (pure_factory pair) () = (Ok out, ())
    ∧ Z.of_nat (length out)
      = Z.min (RendererLayout.nplots L)
              (RendererLayout.nrows L * RendererLayout.ncols L)
    ∧ ∀ i, 0 ≤ i < Z.of_nat (length out) →
           out !! Z.to_nat i = Some (assigned_cell L i).
Proof.
  intros Hr Hc Hn.
  destruct (arrange_result L (pure_factory pair) () () _ Hr Hc
              (forM_pure_factory pair _)) as (out & Hrun & Hlen & Hlook).
  exists out. split; [done|]. split; [by apply Hlen|].
  intros i Hi. rewrite Hlen in Hi by done.
  rewrite Hlook by lia. rewrite list_lookup_fmap.
  pose proof (assigned_cell_in_grid L i ltac:(lia) Hr Hc) as Hcell.
  cbv zeta in Hcell. destruct (assigned_cell L i) as [row col].
  unfold cell_index. cbn [fst snd] in *. destruct Hcell as [? ?].
  by rewrite row_major_cells_at.
Qed.

Lemma assigned_cell_inj (L : RendererLayout.t) (i j : Z) :
  0 ≤ RendererLayout.nrows L → 0 ≤ RendererLayout.ncols L →
  0 ≤ i < RendererLayout.nrows L * RendererLayout.ncols L →
  0 ≤ j < RendererLayout.nrows L * RendererLayout.ncols L →
  assigned_cell L i = assigned_cell L j → i = j.
Proof.
  intros Hr Hc Hi Hj Heq.
  apply (cell_index_assigned_inj L); try done. by rewrite Heq.
Qed.

Lemma arrange_cells_nodup (L : RendererLayout.t) :
  0 ≤ RendererLayout.nrows L → 0 ≤ RendererLayout.ncols L →
  0 ≤ RendererLayout.nplots L →
  ∃ out, RendererLayout.arrange L (pure_factory pair) () = (Ok out, ())
    ∧ NoDup out
    ∧ ∀ cell, cell ∈ out →
        0 ≤ cell.1 < RendererLayout.nrows L ∧ 0 ≤ cell.2 < RendererLayout.ncols L.
Proof.
  intros Hr Hc Hn.
  destruct (arrange_cells L Hr Hc Hn) as (out & Hrun & Hlen & Hat).
  exists out. split; [done|]. split.
  - apply NoDup_alt. intros i j cell Hi Hj.
    pose proof (lookup_lt_Some _ _ _ Hi). pose proof (lookup_lt_Some _ _ _ Hj).
    rewrite <- (Nat2Z.id i), Hat in Hi by lia.
    rewrite <- (Nat2Z.id j), Hat in Hj by lia.
    assert (Z.of_nat i = Z.of_nat j); [|lia].
    apply (assigned_cell_inj L); try lia. congruence.
  - intros cell (i & Hi)%list_elem_of_lookup_1.
    pose proof (lookup_lt_Some _ _ _ Hi).
    rewrite <- (Nat2Z.id i), Hat in Hi by lia. injection Hi as <-.
    by apply assigned_cell_in_grid; [lia|..].
Qed.

Lemma arrange_regions {Region} (L : RendererLayout.t) (f : Z → Z → Region) :
  0 ≤ RendererLayout.nrows L → 0 ≤ RendererLayout.ncols L →
  0 ≤ RendererLayout.nplots L →
  ∃ out, RendererLayout.arrange L (pure_factory f) () = (Ok out, ())
    ∧ Z.of_nat (length out)
      = Z.min (RendererLayout.nplots L)
              (RendererLayout.nrows L * RendererLayout.ncols L)
    ∧ ∀ i, 0 ≤ i < Z.of_nat (length out) →
           out !! Z.to_nat i
           = Some (f (assigned_cell L i).1 (assigned_cell L i).2).
Proof.
  intros Hr Hc Hn.
  destruct (arrange_result L (pure_factory f) () () _ Hr Hc
              (forM_pure_factory f _)) as (out & Hrun & Hlen & Hlook).
  exists out. split; [done|]. split; [by apply Hlen|].
  intros i Hi. rewrite Hlen in Hi by done.
  rewrite Hlook by lia. rewrite list_lookup_fmap.
  pose proof (assigned_cell_in_grid L i ltac:(lia) Hr Hc) as Hcell.
  cbv zeta in Hcell. destruct (assigned_cell L i) as [row col].
  unfold cell_index. cbn [fst snd] in *. destruct Hcell as [? ?].
  by rewrite row_major_cells_at.
Qed.

(** X4.  No region is handed to two channels.  Regions are opaque handles;
    when the factory returns a different one for every cell of the grid, the
    list [arrange] returns has no duplicates, channel [i] gets the factory's
    region for its assigned cell, and that cell lies inside the grid. *)
Theorem arrange_regions_distinct {Region} (L : RendererLayout.t)
    (f : Z → Z → Region) :
  0 ≤ RendererLayout.nrows L → 0 ≤ RendererLayout.ncols L →
  0 ≤ RendererLayout.nplots L →
  distinct_regions L f →
  ∃ out, RendererLayout.arrange L (pure_factory f) () = (Ok out, ())
    ∧ NoDup out
    ∧ ∀ i region, out !! i = Some region →
        let cell := assigned_cell L (Z.of_nat i) in
        region = f cell.1 cell.2
        ∧ 0 ≤ cell.1 < RendererLayout.nrows L
        ∧ 0 ≤ cell.2 < RendererLayout.ncols L.
Proof.
  intros Hr Hc Hn Hf.
  destruct (arrange_regions L f Hr Hc Hn) as (out & Hrun & Hlen & Hat).
  assert (Hcell : ∀ i region, out !! i = Some region →
            let cell := assigned_cell L (Z.of_nat i) in
            region = f cell.1 cell.2
            ∧ 0 ≤ cell.1 < RendererLayout.nrows L
            ∧ 0 ≤ cell.2 < RendererLayout.ncols L).
  { intros i region Hi. cbv zeta.
    pose proof (lookup_lt_Some _ _ _ Hi) as Hlt.
    rewrite <- (Nat2Z.id i), Hat in Hi by lia.
    injection Hi as <-. split; [done|].
    by apply assigned_cell_in_grid; [lia|..]. }
  exists out. split; [exact Hrun|]. split; [|exact Hcell].
  apply NoDup_alt. intros i j region Hi Hj.
  pose proof (lookup_lt_Some _ _ _ Hi). pose proof (lookup_lt_Some _ _ _ Hj).
  destruct (Hcell i region Hi) as (Hri & Hrowi & Hcoli).
  destruct (Hcell j region Hj) as (Hrj & Hrowj & Hcolj).
  destruct (Hf _ _ _ _ Hrowi Hcoli Hrowj Hcolj ltac:(congruence)) as [Hrow Hcol].
  assert (Z.of_nat i = Z.of_nat j); [|lia].
  apply (assigned_cell_inj L); try lia.
  destruct (assigned_cell L (Z.of_nat i)), (assigned_cell L (Z.of_nat j)).
  cbn in *. congruence.
Qed.

Lemma arrange_regions_distinct_2x3 :
  ∃ out,
    RendererLayout.arrange (layout_2x3 "v") (pure_factory (λ row col, row * 3 + col)) ()
    = (Ok out, ())
    ∧ out = [0; 3; 1; 4; 2] ∧ NoDup out.
Proof.
  destruct (arrange_regions_distinct (layout_2x3 "v") (λ row col, row * 3 + col))
    as (out & Hrun & Hnd & _); [cbn; lia..| |].
  { intros row col row' col'. cbn. lia. }
  exists out. split; [exact Hrun|]. split; [|exact Hnd].
  assert (E : RendererLayout.arrange (layout_2x3 "v")
                (pure_factory (λ row col, row * 3 + col)) ()
              = (Ok [0; 3; 1; 4; 2], ())) by reflexivity.
  rewrite E in Hrun. by injection Hrun as <-.
Defined.


(** X5.  When the grid is exactly full ([nplots = nrows * ncols]) the two
    orientations hand out the same cells in a different order: the ['v']
    result is a permutation of the ['h'] result, which is the row-major list
    of all cells. *)
Theorem arrange_full_grid_permutation (L : RendererLayout.t) :
  0 ≤ RendererLayout.nrows L → 0 ≤ RendererLayout.ncols L →
  RendererLayout.nplots L = RendererLayout.nrows L * RendererLayout.ncols L →
  ∃ outh outv,
    RendererLayout.arrange (with_orientation "h" L) (pure_factory pair) ()
    = (Ok outh, ())
    ∧ RendererLayout.arrange (with_orientation "v" L) (pure_factory pair) ()
      = (Ok outv, ())
    ∧ outh = row_major_cells (RendererLayout.nrows L) (RendererLayout.ncols L)
    ∧ outv ≡ₚ outh.
Proof.
  intros Hr Hc Hfull.
  assert (Hn : 0 ≤ RendererLayout.nplots L) by nia.
  set (r := RendererLayout.nrows L) in *. set (c := RendererLayout.ncols L) in *.
  destruct (arrange_cells (with_orientation "h" L)) as (outh & Hrunh & Hlenh & Hath);
    [done..|].
  destruct (arrange_cells (with_orientation "v" L)) as (outv & Hrunv & Hlenv & _);
    [done..|].
  destruct (arrange_cells_nodup (with_orientation "v" L)) as (outv' & Hrunv' & Hnd & Hin);
    [done..|].
  assert (outv' = outv) as -> by congruence.
  cbn in Hlenh, Hlenv, Hin. fold r c in Hlenh, Hlenv, Hin.
  assert (Hcells : Z.of_nat (length (row_major_cells r c)) = r * c)
    by (by apply row_major_cells_length).
  assert (Hh : outh = row_major_cells r c).
  { apply list_eq. intros i.
    destruct (decide (i < length outh)%nat) as [Hi|Hi].
    - rewrite <- (Nat2Z.id i). rewrite Hath by lia.
      rewrite row_major_cells_lookup by lia. done.
    - rewrite !lookup_ge_None_2; [done|lia..]. }
  exists outh, outv. split; [done|]. split; [done|]. split; [done|].
  apply submseteq_length_Permutation; [|lia].
  apply NoDup_submseteq; [done|].
  intros [row col] Hcell. destruct (Hin _ Hcell) as [? ?]. cbn in *.
  rewrite Hh. eapply list_elem_of_lookup_2. by apply row_major_cells_at.
Qed.

Lemma arrange_full_2x2 :
  let L := RendererLayout.mk (LayoutConfig.mk (Some 2) None "h") 4 2 2 "h" in
  ∃ outh outv,
    RendererLayout.arrange (with_orientation "h" L) (pure_factory pair) () = (Ok outh, ())
    ∧ RendererLayout.arrange (with_orientation "v" L) (pure_factory pair) () = (Ok outv, ())
    ∧ outh = [(0, 0); (0, 1); (1, 0); (1, 1)]
    ∧ outv ≡ₚ outh.
Proof.
  intros L.
  destruct (arrange_full_grid_permutation L) as (outh & outv & Hh & Hv & Heq & Hperm);
    [cbn; lia | cbn; lia | reflexivity |].
  exists outh, outv. split; [exact Hh|]. split; [exact Hv|].
  split; [exact Heq | exact Hperm].
Defined.

Lemma flatten_T_single_line {Region} (L : RendererLayout.t) (regions : list Region) :
  0 ≤ RendererLayout.nrows L → 0 ≤ RendererLayout.ncols L →
  Z.of_nat (length regions) = RendererLayout.nrows L * RendererLayout.ncols L →
  RendererLayout.nrows L = 1 ∨ RendererLayout.ncols L = 1 →
  np.flatten (np.T (grid_view L regions)) = regions.
Proof.
  intros Hr Hc Hlen Hone. apply list_eq. intros k.
  destruct (decide (k < length regions)%nat) as [Hk|Hk].
  - rewrite <- (Nat2Z.id k).
    rewrite flatten_grid_view_T_lookup by (done || lia).
    f_equal. f_equal.
    destruct Hone as [H1|H1]; rewrite H1 in *.
    + rewrite Z.mod_1_r, Z.div_1_r. lia.
    + rewrite Z.mod_small, Z.div_small by lia. lia.
  - rewrite !lookup_ge_None_2; [done|lia|].
    rewrite flatten_grid_view_T_length by done. lia.
Qed.

(** X6.  With a single row or a single column the orientation makes no
    difference: ['v'] and ['h'] give the same result and the same effects,
    for every factory. *)
Theorem arrange_single_line {S Region} (L : RendererLayout.t)
    (f : Z → Z → M S Region) (s : S) :
  0 ≤ RendererLayout.nrows L → 0 ≤ RendererLayout.ncols L →
  RendererLayout.nrows L = 1 ∨ RendererLayout.ncols L = 1 →
  RendererLayout.arrange (with_orientation "v" L) f s
  = RendererLayout.arrange (with_orientation "h" L) f s.
Proof.
  intros Hr Hc Hone. rewrite !arrange_run by done. cbn [with_orientation
    RendererLayout.nrows RendererLayout.ncols RendererLayout.nplots RendererLayout.orientation].
  destruct (forM _ _ s) as [[regions|e] s'] eqn:Hf; [|done].
  rewrite bool_decide_true by done. rewrite bool_decide_false by done.
  pose proof (forM_length _ _ _ _ _ Hf) as Hlen.
  pose proof (row_major_cells_length _ _ Hr Hc) as Hcells.
  assert (Hsz : Z.of_nat (length regions)
                = RendererLayout.nrows L * RendererLayout.ncols L) by lia.
  do 2 f_equal.
  rewrite (flatten_T_single_line (with_orientation "v" L)) by done.
  by rewrite (flatten_grid_view (with_orientation "h" L)) by done.
Qed.

Lemma arrange_one_row_3 :
  let L := RendererLayout.mk (LayoutConfig.mk (Some 1) None "h") 3 1 3 "h" in
  RendererLayout.arrange (with_orientation "v" L) (traced pair) []
  = (Ok [(0, 0); (0, 1); (0, 2)], [(0, 0); (0, 1); (0, 2)])
  ∧ RendererLayout.arrange (with_orientation "v" L) (traced pair) []
    = RendererLayout.arrange (with_orientation "h" L) (traced pair) [].
Proof.
  intros L. split; [reflexivity|].
  apply (arrange_single_line L (traced pair) []); [cbn; lia | cbn; lia | by left].
Defined.

(** * Further properties of the renderer *)

(** ** What construction leaves behind *)

Lemma foldl_alter_seq {A} (f : A → A) (l pre : list A) :
  foldl (λ acc i, alter f i acc) (pre ++ l) (seq (length pre) (length l))
  = pre ++ (f <$> l).
Proof.
  revert pre. induction l as [|x l IH]; intros pre; [done|].
  cbn [length seq foldl].
  rewrite alter_app_r_alt by lia. rewrite Nat.sub_diag. cbn [alter list_alter].
  replace (pre ++ f x :: l) with ((pre ++ [f x]) ++ l) by (by rewrite <- app_assoc).
  replace (S (length pre)) with (length (pre ++ [f x])) by (rewrite length_app; cbn; lia).
  rewrite IH. by rewrite <- app_assoc.
Qed.

Lemma foldl_on_axes (op : mpl.Axes → mpl.Axes) (l : list nat) (fig : mpl.Figure) :
  foldl (λ f ax, mpl.on_axes ax op f) fig l
  = mpl.set_axes (foldl (λ acc i, alter op i acc) (mpl.axes fig) l) fig.
Proof.
  revert fig. induction l as [|ax l IH]; intros fig.
  - by destruct fig.
  - cbn [foldl]. by rewrite IH.
Qed.

Lemma forM_lift_state {S A B} (g : A → result B) (l : list A) (s : S) :
  (forM (λ x, lift (g x)) l s).2 = s.
Proof.
  induction l as [|x l IH]; [done|].
  rewrite forM_cons. unfold lift at 1. destruct (g x); [|done].
  destruct (forM _ l s) as [[ys|e] s']; by cbn in *.
Qed.

(** Looking the cells up in the array of handles is the same as computing
    their row-major index. *)
Lemma arrange_getitem {S} (L : RendererLayout.t) (s : S) :
  let r := Z.to_nat (RendererLayout.nrows L) in
  let c := Z.to_nat (RendererLayout.ncols L) in
  let axes2d := np.mk (r, c) (c, 1%nat) (seq 0 (r * c)) in
  0 ≤ RendererLayout.nrows L → 0 ≤ RendererLayout.ncols L →
  RendererLayout.arrange L (λ row col, lift (np.getitem axes2d row col)) s
  = ((RendererLayout.arrange L
        (pure_factory (λ row col, cell_index L (row, col))) ()).1, s).
Proof.
  intros r c axes2d Hr Hc. rewrite !arrange_run by done.
  rewrite (forM_pure _ (cell_index L)).
  - rewrite (forM_pure _ (cell_index L)); [done|].
    intros [row col] _. done.
  - intros cell [Hrow Hcol]%row_major_cells_elem; [|done..].
    unfold lift. destruct (getitem_handles L cell Hrow Hcol) as [Hg _].
    cbv zeta in Hg. subst axes2d r c. by rewrite Hg.
Qed.


Lemma set_layout_outcome B self0 :
  let L := layout self0 in
  _fig self0 = None →
  0 < RendererLayout.nrows L → 0 < RendererLayout.ncols L →
  ∃ axs,
    RendererLayout.arrange L (pure_factory (λ row col, cell_index L (row, col))) ()
    = (Ok axs, ())
    ∧ _set_layout B self0
      = (Ok (),
         set_axes (Some axs)
           (set_fig (Some (laid_out_figure B (cfg self0)
                             (Z.to_nat (RendererLayout.nrows L))
                             (Z.to_nat (RendererLayout.ncols L)))) self0)).
Proof.
  intros L Hnofig Hr0 Hc0.
  assert (Hr : 0 ≤ RendererLayout.nrows L) by lia.
  assert (Hc : 0 ≤ RendererLayout.ncols L) by lia.
  destruct (arrange_result L (pure_factory (λ row col, cell_index L (row, col)))
              () () _ Hr Hc (forM_pure_factory _ _)) as (axs & Harr & _).
  exists axs. split; [done|].
  unfold _set_layout, mbind at 1, M_bind at 1, get at 1.
  rewrite Hnofig. rewrite bool_decide_false by (by intros [? ?]).
  unfold mpl.subplots. fold L.
  destruct (Z.leb_spec (RendererLayout.nrows L) 0); [lia|].
  destruct (Z.leb_spec (RendererLayout.ncols L) 0); [lia|].
  cbn [orb].
  set (r := Z.to_nat (RendererLayout.nrows L)).
  set (c := Z.to_nat (RendererLayout.ncols L)).
  set (fig0 := mpl.mkFigure _ _ _ _ _ _ _ _).
  unfold mbind at 1, M_bind at 1, lift at 1.
  unfold mbind at 1, M_bind at 1, modify at 1.
  unfold mbind at 1, M_bind at 1.
  assert (Hflat : np.flatten (np.mk (r, c) (c, 1%nat) (seq 0 (r * c))) = seq 0 (r * c)).
  { apply (flatten_grid_view L (seq 0 (r * c))); [done..|].
    rewrite length_seq. subst r c. nia. }
  rewrite Hflat.
  destruct (forM_fig_do (λ ax, mpl.on_axes ax mpl.set_axis_off)
              (seq 0 (r * c)) (set_fig (Some fig0) self0) fig0 eq_refl)
    as [units ->].
  rewrite foldl_on_axes.
  assert (Hoff : foldl (λ acc i, alter mpl.set_axis_off i acc) (mpl.axes fig0) (seq 0 (r * c))
                 = replicate (r * c) (mpl.mkAxes false None None)).
  { subst fig0. cbn [mpl.axes].
    pose proof (foldl_alter_seq mpl.set_axis_off
                  (replicate (r * c) (mpl.mkAxes true None None)) []) as Hf.
    cbn [app length] in Hf. rewrite length_replicate in Hf. rewrite Hf.
    by rewrite fmap_replicate. }
  rewrite Hoff.
  unfold mbind at 1, M_bind at 1.
  rewrite (arrange_getitem L _ Hr Hc). rewrite Harr. cbn [fst].
  unfold mbind, M_bind, modify, fig_do.
  subst fig0.
  unfold laid_out_figure, set_fig, set_axes, mpl.set_size_inches, mpl.set_dpi,
    mpl.set_axes, mpl.show.
  cbn. by destruct (RendererConfig.create_window (cfg self0)).
Qed.

(** A renderer whose constructor returned. *)
Lemma init_ok_inv B cfg0 lcfg n self :
  __init__ B cfg0 lcfg n = Ok self →
  ∃ L axs,
    RendererLayout.__init__ lcfg n = Ok L
    ∧ 0 < RendererLayout.nrows L ∧ 0 < RendererLayout.ncols L
    ∧ RendererLayout.arrange L (pure_factory (λ row col, cell_index L (row, col))) ()
      = (Ok axs, ())
    ∧ self = mk cfg0 n L
               (Some (laid_out_figure B cfg0 (Z.to_nat (RendererLayout.nrows L))
                                       (Z.to_nat (RendererLayout.ncols L))))
               (Some axs) None (replicate (Z.to_nat n) None).
Proof.
  unfold __init__.
  destruct (RendererLayout.__init__ lcfg n) as [L|e] eqn:HL; [|done]. cbn.
  set (self0 := mk cfg0 n L None None None (replicate (Z.to_nat n) None)).
  destruct (decide (0 < RendererLayout.nrows L ∧ 0 < RendererLayout.ncols L))
    as [[Hr Hc]|Hneg].
  - destruct (set_layout_outcome B self0 eq_refl Hr Hc) as (axs & Harr & ->).
    intros [= <-]. by exists L, axs.
  - assert (_set_layout B self0 = (Raise (ValueError LibraryShape), self0)) as ->; [|done].
    unfold _set_layout, mbind at 1, M_bind at 1, get at 1. cbn.
    unfold mpl.subplots.
    destruct (Z.leb_spec (RendererLayout.nrows L) 0);
      destruct (Z.leb_spec (RendererLayout.ncols L) 0); try done. lia.
Qed.



(** X7.  A renderer whose constructor returned holds a figure with one Axes
    per grid cell ([nrows * ncols], also the cells no channel uses), each with
    its axis switched off and no limits set, no line, dpi 96 and size
    [(width / 96, height / 96)] inches, its window shown exactly when
    [create_window] is set; its regions are what [arrange] returns for the
    row-major cell indices; no colour is overridden and no frame rendered. *)
Theorem renderer_construction (B : mpl.Backend) (cfg0 : RendererConfig.t)
    (lcfg : LayoutConfig.t) (n : Z) (self : MatplotlibRenderer.t) :
  __init__ B cfg0 lcfg n = Ok self →
  ∃ fig axs,
    _fig self = Some fig ∧ _axes self = Some axs ∧ _lines self = None
    ∧ _line_colors self = replicate (Z.to_nat n) None
    ∧ cfg self = cfg0 ∧ nplots self = n
    ∧ RendererLayout.__init__ lcfg n = Ok (layout self)
    ∧ Z.of_nat (length (mpl.axes fig))
      = RendererLayout.nrows (layout self) * RendererLayout.ncols (layout self)
    ∧ (∀ a, a ∈ mpl.axes fig → a = mpl.mkAxes false None None)
    ∧ mpl.lines fig = [] ∧ mpl.facecolor fig = None ∧ mpl.draws fig = 0%nat
    ∧ mpl.dpi fig = Some 96
    ∧ mpl.size_inches fig
      = Some ((inject_Z (RendererConfig.width cfg0) / 96)%Q,
              (inject_Z (RendererConfig.height cfg0) / 96)%Q)
    ∧ mpl.window_shown fig = RendererConfig.create_window cfg0
    ∧ mpl.canvas fig = mpl.new_canvas B
    ∧ RendererLayout.arrange (layout self)
        (pure_factory (λ row col, cell_index (layout self) (row, col))) ()
      = (Ok axs, ()).
Proof.
  intros (L & axs & HL & Hr & Hc & Harr & ->)%init_ok_inv.
  eexists _, axs. cbn.
  split; [reflexivity|]. repeat (split; [done|]).
  unfold laid_out_figure.
  cbn [mpl.axes mpl.lines mpl.facecolor mpl.draws mpl.dpi mpl.size_inches
       mpl.window_shown mpl.canvas].
  split; [rewrite length_replicate; nia|].
  split; [by intros a [-> _]%elem_of_replicate|].
  by repeat split.
Qed.

Lemma renderer_construction_64x32 :
  ∃ self fig,
    __init__ (agg_backend 64 32) (sample_config 64 32)
      (LayoutConfig.mk (Some 1) None "h") 3 = Ok self
    ∧ _fig self = Some fig ∧ _axes self = Some [0; 1; 2]%nat
    ∧ length (mpl.axes fig) = 3%nat ∧ mpl.dpi fig = Some 96.
Proof.
  assert (∃ self, __init__ (agg_backend 64 32) (sample_config 64 32)
                    (LayoutConfig.mk (Some 1) None "h") 3 = Ok self
                  ∧ _axes self = Some [0; 1; 2]%nat
                  ∧ RendererLayout.nrows (layout self) * RendererLayout.ncols (layout self) = 3)
    as (self & Hself & Haxes & Hdims)
    by (eexists; split; [vm_compute; reflexivity|split; reflexivity]).
  destruct (renderer_construction _ _ _ _ _ Hself)
    as (fig & axs & Hfig & _ & _ & _ & _ & _ & _ & Hlen & _ & _ & _ & _ & Hdpi & _).
  exists self, fig. split; [exact Hself|]. split; [exact Hfig|].
  split; [exact Haxes|]. split; [|exact Hdpi].
  rewrite Hdims in Hlen. lia.
Defined.

(** X8.  Laying out a constructed renderer again is refused: [_set_layout]
    raises its "I don't currently expect to call set_layout() twice"
    exception and changes nothing, whatever the backend. *)
Theorem set_layout_twice (B B' : mpl.Backend) (cfg0 : RendererConfig.t)
    (lcfg : LayoutConfig.t) (n : Z) (self : MatplotlibRenderer.t) :
  __init__ B cfg0 lcfg n = Ok self →
  _set_layout B' self = (Raise LayoutTwice, self).
Proof.
  intros (L & axs & HL & Hr & Hc & Harr & ->)%init_ok_inv.
  unfold _set_layout, mbind, M_bind, get. reflexivity.
Qed.

Lemma set_layout_twice_64x32 :
  ∃ self,
    __init__ (agg_backend 64 32) (sample_config 64 32)
      (LayoutConfig.mk (Some 1) None "h") 3 = Ok self
    ∧ _set_layout (agg_backend 64 32) self = (Raise LayoutTwice, self).
Proof.
  assert (∃ self, __init__ (agg_backend 64 32) (sample_config 64 32)
                    (LayoutConfig.mk (Some 1) None "h") 3 = Ok self)
    as (self & Hself) by (eexists; vm_compute; reflexivity).
  exists self. split; [exact Hself|].
  exact (set_layout_twice _ (agg_backend 64 32) _ _ _ _ Hself).
Defined.

(** ** Outcome of one call on a well-formed renderer *)

Lemma set_colors_outcome channel_cfgs self :
  (∃ e, set_colors channel_cfgs self = (Raise e, self)
        ∧ (is_Some (_lines self) ∨ Z.of_nat (length channel_cfgs) ≠ nplots self))
  ∨ (_lines self = None ∧ Z.of_nat (length channel_cfgs) = nplots self
     ∧ set_colors channel_cfgs self
       = (Ok (), set_line_colors (ChannelConfig.line_color <$> channel_cfgs) self)).
Proof.
  unfold set_colors, mbind, M_bind, get, modify, raise.
  case_bool_decide as Hlen; [left; eauto|].
  case_bool_decide as Hls; [left; eauto|].
  right. split; [|split; [lia|done]].
  destruct (_lines self); [|done]. exfalso. apply Hls. eauto.
Qed.

Lemma render_frame_outcome_wf B datas self :
  wf self →
  let run := render_frame B datas self in
  (Z.of_nat (length datas) ≠ nplots self
   ∧ run = (Raise (ValueError DatasArity), self))
  ∨ (Z.of_nat (length datas) = nplots self
     ∧ ∃ fig fig',
         _fig self = Some fig ∧ _fig run.2 = Some fig'
         ∧ wf run.2 ∧ state run.2 = Initialized ∧ same_setup self run.2
         ∧ mpl.draws fig' = S (mpl.draws fig)
         ∧ (_lines self = None → run.1 = Ok ())
         ∧ (is_Some (_lines self) →
            run = (later_outcome fig datas, set_fig (Some fig') self)
            ∧ fig' = later_figure B fig datas
            ∧ mpl.axes fig' = mpl.axes fig
            ∧ mpl.facecolor fig' = mpl.facecolor fig
            ∧ mpl.lines fig' = updated_lines fig datas
            ∧ length (mpl.lines fig') = length (mpl.lines fig)
            ∧ ∀ l x, mpl.lines fig !! l = Some x →
                     ∃ y, mpl.lines fig' !! l = Some (mpl.set_ydata y x))).
Proof.
  intros Hwf run. subst run.
  destruct (decide (Z.of_nat (length datas) = nplots self)) as [Hlen|Hne];
    [right; split; [done|] | left; split; [done|by apply render_frame_arity]].
  pose proof Hwf as (fig & axs & Hfig & Haxs & Hn & Hnd & Hin & Hcol & Hlines).
  destruct (_lines self) as [ls|] eqn:Hls.
  - assert (Hst : state self = Initialized) by (apply state_initialized; eauto).
    destruct (later_frame_run_wf B datas self fig Hwf Hst Hfig Hlen)
      as (Hrun & Hld & _).
    destruct (later_figure_frame B fig datas) as (Hax & Hli & Hfc & _ & _ & _ & Hdr).
    exists fig, (later_figure B fig datas). rewrite Hrun. cbn [fst snd].
    split; [done|]. split; [done|].
    split; [apply later_frame_wf; eauto|].
    split; [apply state_initialized; cbn; eauto|].
    split; [done|]. split; [done|]. split; [done|].
    intros _. repeat (split; [done|]).
    split; [rewrite Hli; by apply updated_lines_length|].
    intros l x Hx.
    destruct (lookup_lt_is_Some_2 datas l) as [data Hdata].
    { apply lookup_lt_Some in Hx. lia. }
    exists data. rewrite Hli. by apply updated_lines_lookup.
  - destruct (first_frame_wf B datas self Hwf ltac:(by apply state_uninitialized) Hlen)
      as (self' & Hrun & Hwf' & Hst' & Hsame).
    destruct (first_frame_run B datas self fig axs)
      as (axes' & new_lines & Hrun' & _); try done; try lia.
    rewrite Hrun' in Hrun. injection Hrun as <-. rewrite Hrun'. cbn [fst snd].
    eexists fig, _. split; [done|]. split; [reflexivity|].
    split; [done|]. split; [done|]. split; [done|].
    split; [done|]. split; [done|]. by intros [? [=]].
Qed.




Lemma do_call_wf B c self :
  wf self →
  wf (do_call B c self).2
  ∧ cfg (do_call B c self).2 = cfg self
  ∧ nplots (do_call B c self).2 = nplots self
  ∧ layout (do_call B c self).2 = layout self
  ∧ _axes (do_call B c self).2 = _axes self
  ∧ (state self = Initialized → state (do_call B c self).2 = Initialized).
Proof.
  intros Hwf. destruct c as [channel_cfgs|datas]; cbn [do_call].
  - destruct (set_colors_outcome channel_cfgs self)
      as [(e & -> & _)|(Hnone & Hlen & Hrun)]; [done|].
    destruct (set_colors_wf _ _ _ Hwf Hrun) as (Hwf' & _).
    rewrite Hrun. cbn [snd]. repeat (split; [done|]).
    intros [? ?]%state_initialized. congruence.
  - destruct (render_frame_outcome_wf B datas self Hwf)
      as [[_ ->]|[_ (fig & fig' & _ & _ & Hwf' & Hst & Hsame & _)]];
      [done|].
    destruct Hsame as (? & ? & ? & ? & _). done.
Qed.

(** X10.  Whatever sequence of [set_colors] and [render_frame] calls is
    made, with whatever arguments and whether or not some of them raise, a
    well-formed renderer stays well-formed, keeps its configuration, channel
    count, layout and regions, and never goes back from Initialized to
    Uninitialized. *)
Theorem calls_keep_invariant (B : mpl.Backend) (calls : list call)
    (self : MatplotlibRenderer.t) :
  wf self →
  wf (run_calls B calls self)
  ∧ cfg (run_calls B calls self) = cfg self
  ∧ nplots (run_calls B calls self) = nplots self
  ∧ layout (run_calls B calls self) = layout self
  ∧ _axes (run_calls B calls self) = _axes self
  ∧ (state self = Initialized → state (run_calls B calls self) = Initialized).
Proof.
  revert self. induction calls as [|c calls IH]; intros self Hwf; [done|].
  cbn [run_calls].
  destruct (do_call_wf B c self Hwf) as (Hwf1 & Hc1 & Hn1 & Hl1 & Ha1 & Hs1).
  destruct (IH _ Hwf1) as (Hwf' & Hc' & Hn' & Hl' & Ha' & Hs').
  split; [done|]. split; [congruence|]. split; [congruence|].
  split; [congruence|]. split; [congruence|]. auto.
Qed.

Lemma calls_keep_invariant_64x32 :
  ∃ self,
    renderer_64x32 = Ok self ∧ wf self
    ∧ let self' := run_calls (agg_backend 64 32)
                     [RenderFrame [[]]; SetColors [override "red"];
                      RenderFrame frame_a; SetColors []; RenderFrame frame_b] self in
      wf self' ∧ nplots self' = 3 ∧ _axes self' = _axes self.
Proof.
  destruct (construct_renderer_wf (agg_backend 64 32) (sample_config 64 32)
              (Some 1) None "h" 3) as (self & H0 & Hwf & _ & _ & Hn & _);
    [lia | by intros z [= <-] | by intros z [=] | reflexivity | by left |].
  exists self. split; [exact H0|]. split; [exact Hwf|].
  destruct (calls_keep_invariant (agg_backend 64 32)
              [RenderFrame [[]]; SetColors [override "red"];
               RenderFrame frame_a; SetColors []; RenderFrame frame_b] self Hwf)
    as (Hwf' & _ & Hn' & _ & Ha' & _).
  split; [exact Hwf'|]. split; [|exact Ha']. by rewrite Hn'.
Defined.

Lemma do_call_frozen B c self fig :
  wf self → state self = Initialized → _fig self = Some fig →
  ∃ fig', (do_call B c self).2 = set_fig (Some fig') self
    ∧ mpl.axes fig' = mpl.axes fig
    ∧ mpl.facecolor fig' = mpl.facecolor fig
    ∧ length (mpl.lines fig') = length (mpl.lines fig)
    ∧ ∀ l x, mpl.lines fig !! l = Some x →
             ∃ y, mpl.lines fig' !! l = Some (mpl.set_ydata y x).
Proof.
  intros Hwf Hst%state_initialized Hfig.
  assert (Hid : set_fig (Some fig) self = self).
  { destruct self; cbn in *. by subst. }
  assert (Hsame : ∃ fig', self = set_fig (Some fig') self
            ∧ mpl.axes fig' = mpl.axes fig
            ∧ mpl.facecolor fig' = mpl.facecolor fig
            ∧ length (mpl.lines fig') = length (mpl.lines fig)
            ∧ ∀ l x, mpl.lines fig !! l = Some x →
                     ∃ y, mpl.lines fig' !! l = Some (mpl.set_ydata y x)).
  { exists fig. repeat (split; [done|]).
    intros l x Hx. exists (mpl.ydata x). rewrite Hx. by destruct x. }
  destruct c as [channel_cfgs|datas]; cbn [do_call].
  - destruct (set_colors_outcome channel_cfgs self)
      as [(e & -> & _)|(Hnone & _)]; [done|].
    destruct Hst as [? ?]. congruence.
  - destruct (render_frame_outcome_wf B datas self Hwf)
      as [[_ ->]|[_ (fig0 & fig' & Hfig0 & _ & _ & _ & _ & _ & _ & Hfrozen)]];
      [done|].
    assert (fig0 = fig) as -> by congruence.
    destruct (Hfrozen Hst) as (-> & _ & ? & ? & _ & ? & ?). by exists fig'.
Qed.

(** X11.  Once a frame has been rendered, no later sequence of calls changes
    anything but the y-data of the artifacts (and the drawn canvas): the
    stored colours, the artifact handles, the region bounds and the
    background stay, no artifact is added or removed, and every artifact
    keeps its region, x-data, colour and line width. *)
Theorem calls_after_first_frame (B : mpl.Backend) (calls : list call)
    (self : MatplotlibRenderer.t) (fig : mpl.Figure) :
  wf self → state self = Initialized → _fig self = Some fig →
  ∃ fig',
    run_calls B calls self = set_fig (Some fig') self
    ∧ mpl.axes fig' = mpl.axes fig
    ∧ mpl.facecolor fig' = mpl.facecolor fig
    ∧ length (mpl.lines fig') = length (mpl.lines fig)
    ∧ ∀ l x, mpl.lines fig !! l = Some x →
        ∃ x', mpl.lines fig' !! l = Some x'
              ∧ mpl.line_axes x' = mpl.line_axes x
              ∧ mpl.xdata x' = mpl.xdata x
              ∧ mpl.line_color x' = mpl.line_color x
              ∧ mpl.linewidth x' = mpl.linewidth x.
Proof.
  intros Hwf Hst Hfig.
  assert (∃ fig', run_calls B calls self = set_fig (Some fig') self
            ∧ mpl.axes fig' = mpl.axes fig
            ∧ mpl.facecolor fig' = mpl.facecolor fig
            ∧ length (mpl.lines fig') = length (mpl.lines fig)
            ∧ ∀ l x, mpl.lines fig !! l = Some x →
                     ∃ y, mpl.lines fig' !! l = Some (mpl.set_ydata y x))
    as (fig' & Hrun & Hax & Hfc & Hlen & Hattr).
  { revert self fig Hwf Hst Hfig.
    induction calls as [|c calls IH]; intros self fig Hwf Hst Hfig.
    - exists fig. cbn. split; [destruct self; cbn in *; by subst|].
      repeat (split; [done|]).
      intros l x Hx. exists (mpl.ydata x). rewrite Hx. by destruct x.
    - cbn [run_calls].
      destruct (do_call_frozen B c self fig Hwf Hst Hfig)
        as (fig1 & Hrun1 & Hax1 & Hfc1 & Hlen1 & Hattr1).
      destruct (do_call_wf B c self Hwf) as (Hwf1 & _ & _ & _ & _ & Hs1).
      rewrite Hrun1 in *.
      destruct (IH (set_fig (Some fig1) self) fig1 Hwf1 (Hs1 Hst) eq_refl)
        as (fig' & Hrun & Hax & Hfc & Hlen & Hattr).
      exists fig'. split; [by rewrite Hrun|].
      split; [congruence|]. split; [congruence|]. split; [congruence|].
      intros l x Hx. destruct (Hattr1 l x Hx) as [y1 Hy1].
      destruct (Hattr l _ Hy1) as [y Hy]. by exists y. }
  exists fig'. repeat (split; [done|]).
  intros l x Hx. destruct (Hattr l x Hx) as [y Hy].
  eexists. split; [exact Hy|]. done.
Qed.

Lemma calls_after_first_frame_64x32 :
  ∃ self0 self1 fig fig',
    renderer_64x32 = Ok self0
    ∧ render_frame (agg_backend 64 32) frame_a self0 = (Ok (), self1)
    ∧ _fig self1 = Some fig
    ∧ run_calls (agg_backend 64 32)
        [SetColors [override "red"; override "red"; override "red"];
         RenderFrame frame_b; RenderFrame [[]]] self1
      = set_fig (Some fig') self1
    ∧ mpl.axes fig' = mpl.axes fig
    ∧ length (mpl.lines fig') = length (mpl.lines fig).
Proof.
  destruct (construct_renderer_wf (agg_backend 64 32) (sample_config 64 32)
              (Some 1) None "h" 3) as (self0 & H0 & Hwf & Hst & _ & Hn & _);
    [lia | by intros z [= <-] | by intros z [=] | reflexivity | by left |].
  destruct (first_frame_wf (agg_backend 64 32) frame_a self0 Hwf Hst
              ltac:(by rewrite Hn)) as (self1 & Hrun1 & Hwf1 & Hst1 & _).
  pose proof Hwf1 as (fig & _ & Hfig & _).
  destruct (calls_after_first_frame (agg_backend 64 32)
              [SetColors [override "red"; override "red"; override "red"];
               RenderFrame frame_b; RenderFrame [[]]] self1 fig Hwf1 Hst1 Hfig)
    as (fig' & Hrun & Hax & _ & Hlen & _).
  exists self0, self1, fig, fig'.
  split; [exact H0|]. split; [exact Hrun1|]. split; [exact Hfig|].
  split; [exact Hrun|]. split; [exact Hax | exact Hlen].
Defined.

(** ** The first frame, end to end *)

Lemma first_frame_run_full B datas self fig axs :
  _fig self = Some fig → _axes self = Some axs → _lines self = None →
  mpl.lines fig = [] →
  Z.of_nat (length datas) = nplots self →
  length axs = length datas → length (_line_colors self) = length datas →
  NoDup axs →
  ∃ axes' new_lines,
    render_frame B datas self
    = (Ok (),
       set_lines (Some (seq 0 (length datas)))
         (set_fig (Some (mpl.drawn B
            (mpl.set_lines new_lines
               (mpl.set_axes axes'
                  (mpl.set_facecolor (RendererConfig.bg_color (cfg self)) fig)))))
            self))
    ∧ length new_lines = length datas
    ∧ (∀ i data, datas !! i = Some data →
         ∃ ax ov, axs !! i = Some ax
           ∧ _line_colors self !! i = Some ov
           ∧ new_lines !! i
             = Some (mpl.mkLine ax (np.arange (Z.of_nat (length data))) data
                       (coalesce ov (RendererConfig.init_line_color (cfg self)))
                       (RendererConfig.line_width (cfg self))))
    ∧ (∀ a, a ∉ axs → axes' !! a = mpl.axes fig !! a).
Proof.
  intros Hfig Haxs Hls Hnolines Hlen Haxlen Hcollen Hnd.
  set (fig0 := mpl.set_facecolor (RendererConfig.bg_color (cfg self)) fig).
  set (self1 := set_lines (Some []) (set_fig (Some fig0) self)).
  destruct (init_loop (RendererConfig.line_width (cfg self)) datas 0 self1 fig0 axs [])
    as (axes' & new_lines & Hrun & Hlen' & Hnew & Hper & Hframe);
    try done; try (cbn; lia).
  exists axes', new_lines.
  split; [|split; [done|split]].
  - unfold render_frame, mbind at 1, M_bind at 1, get at 1.
    rewrite bool_decide_false by (intros ?; congruence).
    rewrite bool_decide_true by done.
    unfold mbind, M_bind, fig_do at 1, modify. rewrite Hfig.
    fold fig0. fold self1.
    unfold mbind, M_bind in Hrun. rewrite Hrun.
    unfold fig_try. cbn [_fig set_lines set_fig].
    assert (Hfinal : mpl.set_lines (mpl.lines fig0 ++ new_lines) (mpl.set_axes axes' fig0)
                     = mpl.set_lines new_lines (mpl.set_axes axes' fig0)).
    { subst fig0. cbn. by rewrite Hnolines. }
    rewrite Hfinal, draw_ok.
    { subst fig0 self1. cbn. by rewrite Hnolines. }
    apply (new_lines_drawable datas); [done|].
    intros i data Hdata.
    destruct (Hper i data Hdata) as (ax & ov & _ & _ & Hline & _). eauto.
  - intros i data Hdata.
    destruct (Hper i data Hdata) as (ax & ov & ? & ? & ? & ?).
    by exists ax, ov.
  - intros a Ha. rewrite Hframe; [done|].
    intros i _ Hi. apply Ha. by eapply list_elem_of_lookup_2.
Qed.

(** X12.  For at least one channel, a renderer is constructed and its first
    frame plots channel [i] in [init_line_color] with the configured line
    width, on the Axes of the grid cell [arrange] assigns to [i]: cell
    [(i div ncols, i mod ncols)] for ['h'], cell [(i mod nrows, i div nrows)]
    for ['v'], counted row-major among the figure's Axes.  (Without a channel
    the grid has a zero dimension and [plt.subplots] refuses it.) *)
Theorem first_frame_after_construction (B : mpl.Backend)
    (cfg0 : RendererConfig.t) (r c : option Z) (o : string)
    (datas : list (list Q)) :
  datas ≠ [] →
  count_nonneg r → count_nonneg c →
  (truthy r && truthy c) = false → o ∈ RendererLayout.VALID_ORIENTATIONS →
  ∃ self self' fig',
    construct_renderer B cfg0 r c o (Z.of_nat (length datas)) = Ok self
    ∧ render_frame B datas self = (Ok (), self')
    ∧ _fig self' = Some fig'
    ∧ length (mpl.lines fig') = length datas
    ∧ ∀ (i : nat) data, datas !! i = Some data →
        mpl.lines fig' !! i
        = Some (mpl.mkLine
                  (cell_index (layout self) (assigned_cell (layout self) (Z.of_nat i)))
                  (np.arange (Z.of_nat (length data))) data
                  (RendererConfig.init_line_color cfg0)
                  (RendererConfig.line_width cfg0)).
Proof.
  intros Hdatas Hr Hc Hrc Ho. set (n := Z.of_nat (length datas)).
  assert (1 ≤ n) as Hn1 by (subst n; destruct datas; [done|cbn; lia]).
  destruct (construct_layout_grid r c o n ltac:(lia) Hr Hc Hrc Ho)
    as (L & HL & _ & _ & Hcover & _ & _ & Hpos & _).
  destruct (Hpos Hn1) as [Hrows Hcols].
  unfold construct_layout in HL. unfold construct_renderer.
  destruct (LayoutConfig.new r c o) as [lcfg|e]; [|done]. cbn in HL |- *.
  destruct (init_run B cfg0 lcfg n L HL Hrows Hcols ltac:(lia))
    as (self & Hinit & Hwf & Hst & Hcfg & Hnp & Hlay & Hcol & _ & (axs & Haxs & Hat)).
  destruct Hwf as (fig & axs' & Hfig & Haxs' & Hn & Hnd & Hin & Hcollen & Hlines).
  assert (axs' = axs) as -> by congruence.
  apply state_uninitialized in Hst. rewrite Hst in Hlines.
  destruct (first_frame_run_full B datas self fig axs)
    as (axes' & new_lines & Hrun & Hnew & Hper & _); try done; try lia.
  eexists self, _, _. split; [done|]. split; [exact Hrun|].
  split; [reflexivity|]. cbn. split; [done|].
  intros i data Hdata.
  destruct (Hper i data Hdata) as (ax & ov & Hax & Hov & ->).
  pose proof (lookup_lt_Some _ _ _ Hdata) as Hi.
  rewrite Hcol in Hov. apply lookup_replicate in Hov as [-> _].
  rewrite <- (Nat2Z.id i), Hat in Hax by lia. injection Hax as <-.
  by rewrite Hcfg, Hlay.
Qed.

Lemma first_frame_vertical_2_rows :
  ∃ self self' fig',
    construct_renderer (agg_backend 4 4) (sample_config 4 4) (Some 2) None "v" 3
    = Ok self
    ∧ render_frame (agg_backend 4 4) frame_a self = (Ok (), self')
    ∧ _fig self' = Some fig'
    ∧ mpl.line_axes <$> mpl.lines fig' = [0; 2; 1]%nat.
Proof.
  destruct (first_frame_after_construction (agg_backend 4 4) (sample_config 4 4)
              (Some 2) None "v" frame_a)
    as (self & self' & fig' & Hself & Hrun & Hfig' & Hlen & Hlines);
    [discriminate | by intros z [= <-] | by intros z [=] | reflexivity
    | by (right; left) |].
  exists self, self', fig'. split; [exact Hself|]. split; [exact Hrun|].
  split; [exact Hfig'|].
  assert (Hl : layout self
               = RendererLayout.mk (LayoutConfig.mk (Some 2) None "v") 3 2 2 "v").
  { assert (∃ s, construct_renderer (agg_backend 4 4) (sample_config 4 4)
                   (Some 2) None "v" 3 = Ok s
                 ∧ layout s = RendererLayout.mk (LayoutConfig.mk (Some 2) None "v") 3 2 2 "v")
      as (s & Hs & Hls) by (eexists; split; vm_compute; reflexivity).
    change (Z.of_nat (length frame_a)) with 3 in Hself.
    assert (s = self) as -> by congruence. exact Hls. }
  apply list_eq. intros i. rewrite list_lookup_fmap.
  destruct (decide (i < 3)%nat) as [Hi|Hi].
  - destruct (lookup_lt_is_Some_2 frame_a i Hi) as [data Hdata].
    rewrite (Hlines i data Hdata), Hl. cbn.
    destruct i as [|[|[|i]]]; [reflexivity..|lia].
  - rewrite lookup_ge_None_2 by (rewrite Hlen; exact (proj1 (Nat.nlt_ge _ _) Hi)).
    destruct i as [|[|[|i]]]; [lia..|reflexivity].
Defined.

(** X13.  Colours stored by [set_colors] are the ones the first frame
    uses: channel [i] is plotted in [channel_cfgs[i].line_color] when that is
    not [None], and in [init_line_color] otherwise. *)
Theorem overrides_reach_first_frame (B : mpl.Backend)
    (channel_cfgs : list ChannelConfig.t) (datas : list (list Q))
    (self self1 : MatplotlibRenderer.t) :
  wf self →
  set_colors channel_cfgs self = (Ok (), self1) →
  Z.of_nat (length datas) = nplots self →
  ∃ self' fig',
    render_frame B datas self1 = (Ok (), self')
    ∧ _fig self' = Some fig'
    ∧ ∀ (i : nat) cc, channel_cfgs !! i = Some cc →
        mpl.line_color <$> mpl.lines fig' !! i
        = Some (match ChannelConfig.line_color cc with
                | Some colour => colour
                | None => RendererConfig.init_line_color (cfg self)
                end).
Proof.
  intros Hwf Hset Hlen.
  destruct (set_colors_wf _ _ _ Hwf Hset) as (Hwf1 & Hst1 & Hcols).
  destruct (set_colors_outcome channel_cfgs self)
    as [(e & He & _)|(_ & Hclen & Hrun)]; [congruence|].
  assert (self1 = set_line_colors (ChannelConfig.line_color <$> channel_cfgs) self)
    as Hself1 by congruence.
  destruct Hwf1 as (fig & axs & Hfig & Haxs & Hn & Hnd & Hin & Hcollen & Hlines).
  apply state_uninitialized in Hst1. rewrite Hst1 in Hlines.
  assert (Hn1 : nplots self1 = nplots self) by (by rewrite Hself1).
  destruct (first_frame_run_full B datas self1 fig axs)
    as (axes' & new_lines & Hrun' & Hnew & Hper & _); try done; try lia.
  eexists _, _. split; [exact Hrun'|]. split; [reflexivity|]. cbn.
  intros i cc Hcc.
  assert (is_Some (datas !! i)) as [data Hdata].
  { apply lookup_lt_is_Some. apply lookup_lt_Some in Hcc. lia. }
  destruct (Hper i data Hdata) as (ax & ov & _ & Hov & ->). cbn.
  rewrite Hcols, list_lookup_fmap, Hcc in Hov. injection Hov as <-.
  assert (cfg self1 = cfg self) as -> by (by rewrite Hself1).
  by destruct (ChannelConfig.line_color cc).
Qed.

Lemma overrides_reach_first_frame_64x32 :
  ∃ self self1 self' fig',
    renderer_64x32 = Ok self
    ∧ set_colors [override "red"; ChannelConfig.mk None; override "green"] self
      = (Ok (), self1)
    ∧ render_frame (agg_backend 64 32) frame_a self1 = (Ok (), self')
    ∧ _fig self' = Some fig'
    ∧ mpl.line_color <$> mpl.lines fig' !! 1%nat = Some (NamedColor "blue")
    ∧ mpl.line_color <$> mpl.lines fig' !! 2%nat = Some (NamedColor "green").
Proof.
  destruct (construct_renderer_wf (agg_backend 64 32) (sample_config 64 32)
              (Some 1) None "h" 3) as (self & H0 & Hwf & _ & Hcfg & Hn & _);
    [lia | by intros z [= <-] | by intros z [=] | reflexivity | by left |].
  destruct (set_colors_outcome
              [override "red"; ChannelConfig.mk None; override "green"] self)
    as [(e & _ & [Hls|Hlen])|(_ & _ & Hset)].
  - exfalso. destruct Hwf as (? & ? & _). 
    assert (∃ s, renderer_64x32 = Ok s ∧ _lines s = None) as (s & Hs & Hnone)
      by (eexists; split; vm_compute; reflexivity).
    fold renderer_64x32 in H0. assert (s = self) as -> by congruence.
    rewrite Hnone in Hls. by destruct Hls.
  - exfalso. apply Hlen. by rewrite Hn.
  - destruct (overrides_reach_first_frame (agg_backend 64 32) _ frame_a self _ Hwf Hset
                ltac:(by rewrite Hn)) as (self' & fig' & Hrun & Hfig' & Hcol).
    eexists self, _, self', fig'. split; [exact H0|]. split; [exact Hset|].
    split; [exact Hrun|]. split; [exact Hfig'|].
    split.
    + rewrite (Hcol 1%nat (ChannelConfig.mk None) eq_refl). cbn. by rewrite Hcfg.
    + exact (Hcol 2%nat (override "green") eq_refl).
Defined.

(** X14.  The buffer [get_frame] returns after a frame that returned is the
    backend's rendering of a figure whose artifact [i] carries that frame's
    [datas[i]], on the first frame as on every later one: no stale data is
    drawn. *)
Theorem get_frame_after_frame (B : mpl.Backend) (datas : list (list Q))
    (self self' : MatplotlibRenderer.t) :
  wf self →
  render_frame B datas self = (Ok (), self') →
  ∃ drawn,
    _fig self' = Some (mpl.drawn B drawn)
    ∧ length (mpl.lines drawn) = length datas
    ∧ (∀ (i : nat) data, datas !! i = Some data →
         mpl.ydata <$> mpl.lines drawn !! i = Some data)
    ∧ (∀ buf, get_frame self' = Ok buf → buf = mpl.rasterize B drawn).
Proof.
  intros Hwf Hrun.
  destruct (decide (Z.of_nat (length datas) = nplots self)) as [Hlen|Hne];
    [|by rewrite render_frame_arity in Hrun].
  pose proof Hwf as (fig & axs & Hfig & Haxs & Hn & Hnd & Hin & Hcol & Hlines).
  assert (Hget : ∀ drawn s, _fig s = Some (mpl.drawn B drawn) →
            ∀ buf, get_frame s = Ok buf → buf = mpl.rasterize B drawn).
  { intros drawn s Hs buf. unfold get_frame. rewrite Hs. cbn.
    destruct (mpl.is_agg _); cbn; [|done].
    case_bool_decide; cbn; [|done]. case_bool_decide; cbn; [|done].
    by intros [= <-]. }
  destruct (_lines self) as [ls|] eqn:Hls.
  - assert (Hst : state self = Initialized) by (apply state_initialized; eauto).
    destruct (later_frame_run_wf B datas self fig Hwf Hst Hfig Hlen)
      as (Hrun' & Hld & _).
    rewrite Hrun' in Hrun. injection Hrun as Hout <-.
    destruct (later_outcome_cases fig datas) as [[Hfits _]|[_ Hraise]];
      [|congruence].
    rewrite (later_figure_ok B fig datas Hfits).
    eexists. split; [reflexivity|]. cbn [mpl.lines mpl.set_lines].
    split; [rewrite updated_lines_length; lia|]. split.
    + intros i data Hdata. pose proof (lookup_lt_Some _ _ _ Hdata).
      destruct (lookup_lt_is_Some_2 (mpl.lines fig) i ltac:(lia)) as [x Hx].
      by rewrite (updated_lines_lookup fig datas i x data).
    + by eapply Hget.
  - destruct (first_frame_run_full B datas self fig axs)
      as (axes' & new_lines & Hrun' & Hnew & Hper & _); try done; try lia.
    rewrite Hrun' in Hrun. injection Hrun as <-.
    eexists. split; [reflexivity|]. split; [done|]. split.
    + cbn. intros i data Hdata.
      by destruct (Hper i data Hdata) as (ax & ov & _ & _ & ->).
    + by eapply Hget.
Qed.

Lemma get_frame_after_frame_c :
  ∃ self0 self1 self2 drawn,
    renderer_64x32 = Ok self0
    ∧ render_frame (agg_backend 64 32) frame_a self0 = (Ok (), self1)
    ∧ render_frame (agg_backend 64 32) frame_c self1 = (Ok (), self2)
    ∧ _fig self2 = Some (mpl.drawn (agg_backend 64 32) drawn)
    ∧ mpl.ydata <$> mpl.lines drawn = frame_c.
Proof.
  destruct (construct_renderer_wf (agg_backend 64 32) (sample_config 64 32)
              (Some 1) None "h" 3) as (self0 & H0 & Hwf & Hst & _ & Hn & _);
    [lia | by intros z [= <-] | by intros z [=] | reflexivity | by left |].
  destruct (first_frame_wf (agg_backend 64 32) frame_a self0 Hwf Hst
              ltac:(by rewrite Hn)) as (self1 & Hrun1 & Hwf1 & Hst1 & Hsame).
  assert (Hconcrete : ∃ s0 s1 s2,
            renderer_64x32 = Ok s0
            ∧ render_frame (agg_backend 64 32) frame_a s0 = (Ok (), s1)
            ∧ render_frame (agg_backend 64 32) frame_c s1 = (Ok (), s2)).
  { eexists _, _, _. split; [vm_compute; reflexivity|].
    split; vm_compute; reflexivity. }
  destruct Hconcrete as (s0 & s1 & self2 & Hs0 & Hs1 & Hrun2).
  fold renderer_64x32 in H0.
  assert (s0 = self0) as -> by congruence.
  assert (s1 = self1) as -> by congruence.
  destruct (get_frame_after_frame (agg_backend 64 32) frame_c self1 self2 Hwf1 Hrun2)
    as (drawn & Hfig2 & Hlen & Hy & _).
  exists self0, self1, self2, drawn.
  split; [exact H0|]. split; [exact Hrun1|]. split; [exact Hrun2|].
  split; [exact Hfig2|].
  apply list_eq. intros i. rewrite list_lookup_fmap.
  destruct (frame_c !! i) as [data|] eqn:Hdata.
  - exact (Hy i data Hdata).
  - apply lookup_ge_None in Hdata.
    rewrite lookup_ge_None_2; [reflexivity|]. rewrite Hlen. exact Hdata.
Defined.

(** X15.  Grid cells that no channel is assigned to are left alone by the
    first frame: their Axes keep the limits they had and no artifact is
    plotted on them. *)
Theorem unused_cells_untouched (B : mpl.Backend) (datas : list (list Q))
    (self self' : MatplotlibRenderer.t) (fig : mpl.Figure) (axs : list nat) :
  wf self → state self = Uninitialized →
  _fig self = Some fig → _axes self = Some axs →
  render_frame B datas self = (Ok (), self') →
  ∃ fig',
    _fig self' = Some fig'
    ∧ ∀ a, a ∉ axs →
        mpl.axes fig' !! a = mpl.axes fig !! a
        ∧ ∀ line, line ∈ mpl.lines fig' → mpl.line_axes line ≠ a.
Proof.
  intros Hwf Hst%state_uninitialized Hfig Haxs Hrun.
  destruct (decide (Z.of_nat (length datas) = nplots self)) as [Hlen|Hne];
    [|by rewrite render_frame_arity in Hrun].
  destruct Hwf as (fig0 & axs0 & Hfig0 & Haxs0 & Hn & Hnd & Hin & Hcol & Hlines).
  assert (fig0 = fig) as -> by congruence.
  assert (axs0 = axs) as -> by congruence.
  rewrite Hst in Hlines.
  destruct (first_frame_run_full B datas self fig axs)
    as (axes' & new_lines & Hrun' & Hnew & Hper & Hframe); try done; try lia.
  rewrite Hrun' in Hrun. injection Hrun as <-.
  eexists. split; [reflexivity|]. cbn.
  intros a Ha. split; [by apply Hframe|].
  intros line (i & Hi)%list_elem_of_lookup_1 <-.
  pose proof (lookup_lt_Some _ _ _ Hi) as Hlt.
  destruct (lookup_lt_is_Some_2 datas i ltac:(lia)) as [data Hdata].
  destruct (Hper i data Hdata) as (ax & ov & Hax & _ & Hline).
  rewrite Hline in Hi. injection Hi as <-. cbn in Ha.
  apply Ha. by eapply list_elem_of_lookup_2.
Qed.

Lemma unused_cell_of_2x2 :
  ∃ self self' fig fig',
    construct_renderer (agg_backend 4 4) (sample_config 4 4) (Some 2) None "h" 3
    = Ok self
    ∧ _fig self = Some fig ∧ _axes self = Some [0; 1; 2]%nat
    ∧ render_frame (agg_backend 4 4) frame_a self = (Ok (), self')
    ∧ _fig self' = Some fig'
    ∧ mpl.axes fig' !! 3%nat = mpl.axes fig !! 3%nat.
Proof.
  destruct (construct_renderer_wf (agg_backend 4 4) (sample_config 4 4)
              (Some 2) None "h" 3) as (self & H0 & Hwf & Hst & _ & Hn & _ & (fig & Hfig & _));
    [lia | by intros z [= <-] | by intros z [=] | reflexivity | by left |].
  assert (Haxs : _axes self = Some [0; 1; 2]%nat).
  { assert (∃ s, construct_renderer (agg_backend 4 4) (sample_config 4 4)
                   (Some 2) None "h" 3 = Ok s ∧ _axes s = Some [0; 1; 2]%nat)
      as (s & Hs & Ha) by (eexists; split; vm_compute; reflexivity).
    assert (s = self) as -> by congruence. exact Ha. }
  destruct (first_frame_wf (agg_backend 4 4) frame_a self Hwf Hst
              ltac:(by rewrite Hn)) as (self' & Hrun & _).
  destruct (unused_cells_untouched (agg_backend 4 4) frame_a self self' fig
              [0; 1; 2]%nat Hwf Hst Hfig Haxs Hrun) as (fig' & Hfig' & Hunused).
  exists self, self', fig, fig'.
  split; [exact H0|]. split; [exact Hfig|]. split; [exact Haxs|].
  split; [exact Hrun|]. split; [exact Hfig'|].
  apply Hunused. intros Hin.
  repeat (apply elem_of_cons in Hin as [Hin|Hin]; [discriminate Hin|]).
  by apply elem_of_nil in Hin.
Defined.

(** * Frame buffer extraction *)

(** [get_frame], branch by branch. *)
Lemma get_frame_cases self fig :
  _fig self = Some fig →
  let cv := mpl.canvas fig in
  let w := RendererConfig.width (cfg self) in
  let h := RendererConfig.height (cfg self) in
  (mpl.is_agg cv = false → get_frame self = Raise RuntimeError)
  ∧ (mpl.is_agg cv = true → mpl.width_height cv ≠ (w, h) →
     get_frame self = Raise (AssertionError CanvasSize))
  ∧ (mpl.is_agg cv = true → mpl.width_height cv = (w, h) →
     mpl.rgb cv = None → get_frame self = Raise AttributeError)
  ∧ (∀ buf, mpl.is_agg cv = true → mpl.width_height cv = (w, h) →
     mpl.rgb cv = Some buf → Z.of_nat (length buf) ≠ w * h * 3 →
     get_frame self = Raise (AssertionError BufferLength))
  ∧ (∀ buf, mpl.is_agg cv = true → mpl.width_height cv = (w, h) →
     mpl.rgb cv = Some buf → Z.of_nat (length buf) = w * h * 3 →
     get_frame self = Ok buf).
Proof.
  intros Hfig cv w h. unfold get_frame. rewrite Hfig. fold cv w h.
  unfold mpl.tostring_rgb, RGB_DEPTH.
  split; [by intros ->|]. split.
  { intros -> Hsz. cbn. by rewrite bool_decide_false by congruence. }
  split.
  { intros -> Hsz ->. cbn. by rewrite bool_decide_true by congruence. }
  split.
  - intros buf -> Hsz -> Hlen. cbn. rewrite bool_decide_true by congruence.
    cbn. by rewrite bool_decide_false by done.
  - intros buf -> Hsz -> Hlen. cbn. rewrite bool_decide_true by congruence.
    cbn. by rewrite bool_decide_true by done.
Qed.

(** A renderer that construction returned. *)
Lemma construct_renderer_inv B cfg0 r c o n self :
  construct_renderer B cfg0 r c o n = Ok self →
  1 ≤ n ∧ wf self ∧ canvas_of B self ∧ state self = Uninitialized
  ∧ cfg self = cfg0 ∧ nplots self = n.
Proof.
  unfold construct_renderer.
  destruct (LayoutConfig.new r c o) as [lcfg|e] eqn:Hnew; [|done]. cbn.
  intros Hinit.
  destruct (init_ok_inv _ _ _ _ _ Hinit) as (L & axs & HL & Hr & Hc & _ & _).
  destruct (layout_init_dims _ _ _ HL) as (Hcalc & _).
  assert (1 ≤ n ≤ RendererLayout.nrows L * RendererLayout.ncols L) as Hn.
  { destruct (post_init_cases _ _ Hnew)
      as [_ [(k & Hk & Hrows & _)|(k & Hk & Hrows & Hcols)]].
    - rewrite (calc_layout_rows lcfg n k) in Hcalc by done.
      injection Hcalc as Hr' Hc'. rewrite <- Hr', <- Hc' in *.
      pose proof (ceil_bounds n k Hr) as Hb. cbv zeta in Hb. nia.
    - rewrite (calc_layout_cols lcfg n k) in Hcalc by done.
      injection Hcalc as Hr' Hc'. rewrite <- Hr', <- Hc' in *.
      pose proof (ceil_bounds n k Hc) as Hb. cbv zeta in Hb. nia. }
  destruct (init_run B cfg0 lcfg n L HL Hr Hc ltac:(lia))
    as (self' & Hinit' & Hwf & Hst & Hcfg & Hnp & _ & _ & (fig & Hfig & Hcv) & _).
  assert (self' = self) as -> by congruence.
  split; [lia|]. split; [done|]. split; [|done].
  exists fig. split; [done|]. rewrite Hcv.
  apply state_uninitialized in Hst. by rewrite Hst.
Qed.

Lemma do_call_canvas B c self :
  wf self → canvas_of B self → canvas_of B (do_call B c self).2.
Proof.
  intros Hwf (fig & Hfig & Hagg & Hsz & Hrgb).
  destruct c as [channel_cfgs|datas]; cbn [do_call].
  - destruct (set_colors_outcome channel_cfgs self)
      as [(e & -> & _)|(Hnone & _ & ->)]; cbn [snd]; by exists fig.
  - destruct (decide (Z.of_nat (length datas) = nplots self)) as [Hlen|Hne];
      [|rewrite render_frame_arity by done; by exists fig].
    pose proof Hwf as (fig0 & axs & Hfig0 & Haxs & Hn & Hnd & Hin & Hcol & Hlines).
    assert (fig0 = fig) as -> by congruence.
    destruct (_lines self) as [ls|] eqn:Hls.
    + assert (Hst : state self = Initialized) by (apply state_initialized; eauto).
      destruct (later_frame_run_wf B datas self fig Hwf Hst Hfig Hlen) as (-> & _).
      destruct (later_figure_canvas B fig datas) as (Hagg' & Hsz' & Hrgb').
      eexists. cbn. split; [reflexivity|]. rewrite Hagg', Hsz', Hls. done.
    + destruct (first_frame_run B datas self fig axs)
        as (axes' & new_lines & -> & _); try done; try lia.
      eexists. cbn. split; [reflexivity|]. cbn. repeat (split; [done|]). eauto.
Qed.

Lemma run_calls_inv B calls self :
  wf self → canvas_of B self →
  wf (run_calls B calls self) ∧ canvas_of B (run_calls B calls self)
  ∧ cfg (run_calls B calls self) = cfg self
  ∧ (state self = Initialized → state (run_calls B calls self) = Initialized).
Proof.
  revert self. induction calls as [|c calls IH]; intros self Hwf Hcv; [done|].
  cbn [run_calls].
  destruct (do_call_wf B c self Hwf) as (Hwf1 & Hc1 & _ & _ & _ & Hs1).
  destruct (IH _ Hwf1 (do_call_canvas B c self Hwf Hcv)) as (? & ? & Hc' & Hs').
  split; [done|]. split; [done|]. split; [congruence|]. auto.
Qed.

(** The renderer leaves Uninitialized with the first [render_frame] that
    gets one data sequence per channel. *)
Lemma run_calls_state B calls self :
  wf self → canvas_of B self → state self = Uninitialized →
  state (run_calls B calls self) = Uninitialized
  ↔ no_frame_yet (nplots self) calls.
Proof.
  unfold no_frame_yet.
  revert self. induction calls as [|c calls IH]; intros self Hwf Hcv Hst.
  { split; [by constructor|done]. }
  cbn [run_calls]. rewrite Forall_cons.
  destruct (do_call_wf B c self Hwf) as (Hwf1 & _ & Hn1 & _).
  pose proof (do_call_canvas B c self Hwf Hcv) as Hcv1.
  destruct c as [channel_cfgs|datas]; cbn [do_call] in *.
  - assert (state (set_colors channel_cfgs self).2 = Uninitialized) as Hst1.
    { destruct (set_colors_outcome channel_cfgs self)
        as [(e & -> & _)|(Hnone & _ & ->)]; [done|].
      by apply state_uninitialized. }
    rewrite (IH _ Hwf1 Hcv1 Hst1), Hn1. tauto.
  - destruct (render_frame_outcome_wf B datas self Hwf)
      as [[Hne Hrun]|[Hlen (fig & fig' & _ & _ & _ & Hst1 & _)]]; cbv zeta in *.
    + rewrite Hrun in Hwf1, Hcv1, Hn1 |- *. cbn [snd] in *.
      rewrite (IH _ Hwf1 Hcv1 Hst). tauto.
    + destruct (run_calls_inv B calls _ Hwf1 Hcv1) as (_ & _ & _ & Hinit).
      rewrite (Hinit Hst1). split; [done|]. by intros [? _].
Qed.

(** C8.  On a renderer that construction returned, after any sequence of
    calls: as long as no frame has been rendered, [get_frame] raises (the
    canvas has no pixels yet: an AttributeError from [tostring_rgb] when the
    canvas is an Agg canvas of the configured size); once a frame has been
    rendered, it returns the canvas's RGB buffer, whose length is then
    [width * height * 3], and every raise is a BackendContractViolation: a
    RuntimeError for a canvas that is not an Agg canvas, an AssertionError for
    a canvas of another size or a buffer of another length.  On a backend
    that keeps its pixel contract it returns such a buffer. *)
Theorem get_frame_spec (B : mpl.Backend) (cfg0 : RendererConfig.t)
    (r c : option Z) (o : string) (n : Z) (self0 : MatplotlibRenderer.t)
    (calls : list call) :
  construct_renderer B cfg0 r c o n = Ok self0 →
  let self := run_calls B calls self0 in
  let w := RendererConfig.width cfg0 in
  let h := RendererConfig.height cfg0 in
  (state self = Uninitialized ↔ no_frame_yet n calls)
  ∧ (state self = Uninitialized →
     (∃ e, get_frame self = Raise e)
     ∧ (mpl.canvas_agg B = true → mpl.canvas_size B = (w, h) →
        get_frame self = Raise AttributeError))
  ∧ (state self = Initialized →
     ∃ fig buf,
       _fig self = Some fig ∧ mpl.rgb (mpl.canvas fig) = Some buf
       ∧ (∀ out, get_frame self = Ok out →
                 out = buf ∧ Z.of_nat (length out) = w * h * 3)
       ∧ (∀ e, get_frame self = Raise e → kind_of e = BackendContractViolation)
       ∧ (mpl.canvas_agg B = false → get_frame self = Raise RuntimeError)
       ∧ (mpl.canvas_agg B = true → mpl.canvas_size B ≠ (w, h) →
          get_frame self = Raise (AssertionError CanvasSize))
       ∧ (mpl.canvas_agg B = true → mpl.canvas_size B = (w, h) →
          Z.of_nat (length buf) ≠ w * h * 3 →
          get_frame self = Raise (AssertionError BufferLength))
       ∧ (mpl.canvas_agg B = true → mpl.canvas_size B = (w, h) →
          Z.of_nat (length buf) = w * h * 3 → get_frame self = Ok buf)
       ∧ (honours_contract B w h →
          get_frame self = Ok buf ∧ Z.of_nat (length buf) = w * h * 3)).
Proof.
  intros (Hn & Hwf0 & Hcv0 & Hst0 & Hcfg0 & Hnp0)%construct_renderer_inv self w h.
  destruct (run_calls_inv B calls self0 Hwf0 Hcv0) as (Hwf & Hcv & Hcfg & _).
  fold self in Hwf, Hcv, Hcfg.
  split.
  { subst self. rewrite <- Hnp0. by apply run_calls_state. }
  destruct Hcv as (fig & Hfig & Hagg & Hsz & Hrgb).
  destruct (get_frame_cases self fig Hfig)
    as (Hnoagg & Hsize & Hnone & Hbad & Hgood).
  rewrite Hcfg, Hcfg0 in Hsize, Hnone, Hbad, Hgood. fold w h in Hsize, Hnone, Hbad, Hgood.
  rewrite Hagg in Hnoagg, Hsize, Hnone, Hbad, Hgood.
  rewrite Hsz in Hsize, Hnone, Hbad, Hgood.
  split.
  - intros Hst%state_uninitialized. rewrite Hst in Hrgb. split.
    + destruct (mpl.canvas_agg B); [|eauto].
      destruct (decide (mpl.canvas_size B = (w, h))); eauto.
    + auto.
  - intros [ls Hls]%state_initialized. rewrite Hls in Hrgb.
    assert (∃ buf, mpl.rgb (mpl.canvas fig) = Some buf) as [buf Hbuf]
      by (destruct Hrgb as [f [->| ->]]; eauto).
    exists fig, buf. split; [done|]. split; [done|].
    assert (Hcontract : honours_contract B w h →
              Z.of_nat (length buf) = w * h * 3).
    { intros (_ & _ & Hpix). rewrite Hbuf in Hrgb.
      destruct Hrgb as [f [[= ->]|[= ->]]]; by destruct (Hpix f). }
    assert (Hhon : honours_contract B w h →
              get_frame self = Ok buf ∧ Z.of_nat (length buf) = w * h * 3).
    { intros Hc. pose proof (Hcontract Hc). destruct Hc as (? & ? & _).
      split; [by apply Hgood|done]. }
    assert (Hcases : get_frame self = Raise RuntimeError
                     ∨ get_frame self = Raise (AssertionError CanvasSize)
                     ∨ get_frame self = Raise (AssertionError BufferLength)
                     ∨ (get_frame self = Ok buf
                        ∧ Z.of_nat (length buf) = w * h * 3)).
    { destruct (mpl.canvas_agg B); [|left; by apply Hnoagg].
      destruct (decide (mpl.canvas_size B = (w, h)));
        [|right; left; by apply Hsize].
      destruct (decide (Z.of_nat (length buf) = w * h * 3));
        [|right; right; left; by apply (Hbad buf)].
      do 3 right. split; [by apply Hgood|done]. }
    split.
    { intros out Hout.
      destruct Hcases as [H|[H|[H|[H Hl]]]]; rewrite H in Hout; try done.
      by injection Hout as <-. }
    split.
    { intros e He.
      destruct Hcases as [H|[H|[H|[H Hl]]]]; rewrite H in He; try done;
        by injection He as <-. }
    split; [exact Hnoagg|]. split; [exact Hsize|].
    split; [intros; by apply (Hbad buf)|]. split; [intros; by apply (Hgood buf)|].
    exact Hhon.
Qed.

Lemma agg_backend_honours_contract w h :
  0 ≤ w * h → honours_contract (agg_backend w h) w h.
Proof.
  intros Hwh. split; [done|]. split; [done|].
  intros fig. cbn. rewrite length_replicate. lia.
Qed.

Lemma get_frame_64x32 :
  ∃ self0 self1 buf,
    renderer_64x32 = Ok self0
    ∧ state self0 = Uninitialized
    ∧ get_frame self0 = Raise AttributeError
    ∧ render_frame (agg_backend 64 32) frame_a self0 = (Ok (), self1)
    ∧ get_frame self1 = Ok buf
    ∧ Z.of_nat (length buf) = 64 * 32 * 3.
Proof.
  assert (Hconcrete : ∃ s0 s1,
            renderer_64x32 = Ok s0
            ∧ state s0 = Uninitialized
            ∧ render_frame (agg_backend 64 32) frame_a s0 = (Ok (), s1)
            ∧ state s1 = Initialized).
  { eexists _, _. split; [vm_compute; reflexivity|].
    split; [reflexivity|]. split; [vm_compute; reflexivity|]. reflexivity. }
  destruct Hconcrete as (self0 & self1 & H0 & Hst0 & Hrun & Hst1).
  pose proof (get_frame_spec (agg_backend 64 32) (sample_config 64 32)
                (Some 1) None "h" 3 self0 [] H0) as (_ & Hbefore & _).
  pose proof (get_frame_spec (agg_backend 64 32) (sample_config 64 32)
                (Some 1) None "h" 3 self0 [RenderFrame frame_a] H0)
    as (_ & _ & Hafter).
  cbn [run_calls do_call] in Hbefore, Hafter. rewrite Hrun in Hafter.
  cbn [snd] in Hafter.
  destruct (Hbefore Hst0) as (_ & Hattr).
  destruct (Hafter Hst1) as (fig & buf & _ & _ & _ & _ & _ & _ & _ & _ & Hok).
  destruct (Hok (agg_backend_honours_contract 64 32 ltac:(lia))) as [Hbuf Hlen].
  exists self0, self1, buf.
  split; [exact H0|]. split; [exact Hst0|].
  split; [apply Hattr; reflexivity|].
  split; [exact Hrun|]. split; [exact Hbuf | exact Hlen].
Defined.
